(** * Entertainment content trend analyzer: the scoring pipeline

    A shallow embedding of [backend/utils/helpers.py] and
    [backend/services/data_processor.py], and the properties of the
    scoring pipeline stated over it.

    Modelling choices.
    - A content item is a Python [dict] with string keys: a [gmap string value].
      Values are dynamically typed; the constructors of [value] cover what the
      collectors and the storage layer produce ([None], integers, floats,
      strings, lists, string-keyed dicts).
    - A Python [float] is an exact rational ([Q]); [round(x, n)] rounds the
      exact value to the nearest multiple of [10^-n], ties to even.  Python
      rounds the binary float, so at a decimal tie of the exact value (14.375
      to two decimals) its result may be the other neighbour; what holds of
      both is [rounded_to], and the statements about a rounded value use it.
      Numeric statements use [Qeq] ([==]), [Qle] and [Qlt].
    - Text is ASCII: [\w] is [[A-Za-z0-9_]], [\s] is what [str.isspace] accepts
      below code 128, [str.lower] maps [A-Z].  Python's classes are those of
      Unicode; the two agree on ASCII text ([ascii_text]), for which the
      statements about text are made.
    - A Python exception is the [Raise] constructor of [result]; [try_except]
      is a [try: ... except: ...] block.
    - What the code takes from outside the repository (the clock, the ISO-8601
      parser of [datetime], TextBlob's sentiment) is a field of [Env].  The
      clock is read once: every [datetime.now()] of a run sees the same
      instant.
    - [process_single_item] mutates its argument and returns it; the model
      returns the updated record. *)

From Stdlib Require Import ZArith QArith Qminmax Qabs String Ascii List Lia Lqa Sorted Permutation.
From stdpp Require Import gmap strings list fin_maps pretty.

#[local] Set Warnings "-register-all".
#[local] Open Scope string_scope.

(** ** Exceptions and results *)

Inductive exn : Type := TypeError | AttributeError | ValueError.

Inductive result (A : Type) : Type :=
| Ok (a : A)
| Raise (e : exn).
Arguments Ok {A} a.
Arguments Raise {A} e.

#[export] Instance result_ret : MRet result := fun _ a => Ok a.
#[export] Instance result_bind : MBind result := fun _ _ f m =>
  match m with
  | Ok a => f a
  | Raise e => Raise e
  end.

(** [try: body  except: handler] *)
Definition try_except {A} (body : result A) (handler : result A) : result A :=
  match body with
  | Ok a => Ok a
  | Raise _ => handler
  end.

Definition returns {A} (r : result A) : Prop := exists a, r = Ok a.

(** ** Python values *)

Inductive value : Type :=
| VNone
| VInt (z : Z)
| VFloat (q : Q)
| VStr (s : string)
| VList (l : list value)
| VDict (d : gmap string value).

(** [bool(v)] *)
Definition truthy (v : value) : bool :=
  match v with
  | VNone => false
  | VInt z => negb (z =? 0)%Z
  | VFloat q => negb (Qeq_bool q 0)
  | VStr s => negb (String.eqb s "")
  | VList l => match l with [] => false | _ => true end
  | VDict d => negb (bool_decide (d = ∅))
  end.

(** [v or 0] *)
Definition or0 (v : value) : value := if truthy v then v else VInt 0.

(** [d.get(k, default)] *)
Definition get (d : gmap string value) (k : string) (default : value) : value :=
  match d !! k with
  | Some v => v
  | None => default
  end.

(** [k in d] *)
Definition has (d : gmap string value) (k : string) : bool :=
  match d !! k with
  | Some _ => true
  | None => false
  end.

(** The number a value stands for in arithmetic and in an ordering
    comparison with a number; anything else raises [TypeError].  (An integer
    beyond the range of a float, on which a division of the code raises
    [OverflowError], is read like any other.) *)
Definition as_num (v : value) : result Q :=
  match v with
  | VInt z => Ok (inject_Z z)
  | VFloat q => Ok q
  | _ => Raise TypeError
  end.

(** [a < b] on numbers *)
Definition Qltb (a b : Q) : bool := negb (Qle_bool b a).

(** [min(a, b)]: the first argument unless the second is smaller *)
Definition py_min (a b : Q) : Q := if Qltb b a then b else a.

(** Nearest integer, ties to even. *)
Definition round_half_even (q : Q) : Z :=
  let n := Qnum q in
  let d := Zpos (Qden q) in
  let fl := (n / d)%Z in
  match (2 * (n mod d) ?= d)%Z with
  | Lt => fl
  | Gt => (fl + 1)%Z
  | Eq => if Z.even fl then fl else (fl + 1)%Z
  end.

(** [round(q, ndigits)] on the exact value *)
Definition py_round (q : Q) (ndigits : positive) : Q :=
  round_half_even (q * inject_Z (Zpos (10 ^ ndigits))) # (10 ^ ndigits).

(** [len(v)] *)
Definition py_len (v : value) : result nat :=
  match v with
  | VStr s => Ok (String.length s)
  | VList l => Ok (length l)
  | VDict d => Ok (size d)
  | _ => Raise TypeError
  end.

(** [for x in v]: the elements visited.  A string yields its characters,
    a dict its keys (here in the order of [map_to_list], not of insertion). *)
Definition py_iter (v : value) : result (list value) :=
  match v with
  | VStr s => Ok (map (fun c => VStr (String c "")) (list_ascii_of_string s))
  | VList l => Ok l
  | VDict d => Ok (map (fun kv => VStr (fst kv)) (map_to_list d))
  | _ => Raise TypeError
  end.

(** [hash(v)] succeeds *)
Definition hashable (v : value) : bool :=
  match v with
  | VList _ | VDict _ => false
  | _ => true
  end.

(** [a == b] on hashable values (dict keys) *)
Definition key_eqb (a b : value) : bool :=
  match a, b with
  | VNone, VNone => true
  | VInt x, VInt y => (x =? y)%Z
  | VInt x, VFloat q | VFloat q, VInt x => Qeq_bool (inject_Z x) q
  | VFloat p, VFloat q => Qeq_bool p q
  | VStr s, VStr t => String.eqb s t
  | _, _ => false
  end.

(** A dict whose keys are arbitrary hashable values and whose values are
    counts, in insertion order. *)
Definition counter := list (value * Z).

(** [c[k] = c.get(k, 0) + 1] *)
Fixpoint counter_incr (k : value) (c : counter) : counter :=
  match c with
  | [] => [(k, 1%Z)]
  | (k', n) :: c' =>
      if key_eqb k' k then (k', (n + 1)%Z) :: c' else (k', n) :: counter_incr k c'
  end.

Definition count_key (k : value) (c : counter) : result counter :=
  if hashable k then Ok (counter_incr k c) else Raise TypeError.

(** ** Text ([str] methods and the regular expressions of helpers.py) *)

Definition code (c : ascii) : N := N_of_ascii c.

Definition is_upper (c : ascii) : bool := (65 <=? code c)%N && (code c <=? 90)%N.
Definition is_lower (c : ascii) : bool := (97 <=? code c)%N && (code c <=? 122)%N.
Definition is_digit (c : ascii) : bool := (48 <=? code c)%N && (code c <=? 57)%N.

(** [\w], on ASCII text *)
Definition is_word (c : ascii) : bool :=
  is_upper c || is_lower c || is_digit c || (code c =? 95)%N.

(** [\s], [str.isspace], on ASCII text *)
Definition is_space (c : ascii) : bool :=
  ((9 <=? code c)%N && (code c <=? 13)%N)
  || ((28 <=? code c)%N && (code c <=? 32)%N).

Definition lower_char (c : ascii) : ascii :=
  if is_upper c then ascii_of_N (code c + 32) else c.

(** [s.lower()], on ASCII text *)
Fixpoint lower (s : string) : string :=
  match s with
  | EmptyString => EmptyString
  | String c s' => String (lower_char c) (lower s')
  end.

(** The longest prefix of characters satisfying [p]. *)
Fixpoint span_prefix (p : ascii -> bool) (s : string) : string :=
  match s with
  | EmptyString => EmptyString
  | String c s' => if p c then String c (span_prefix p s') else EmptyString
  end.

(** [re.findall(mark + r'\w+', s)] with the mark removed from each match.
    [skip] counts the characters of the last match still to be passed over. *)
Fixpoint findall_marked (mark : ascii) (skip : nat) (s : string) : list string :=
  match s with
  | EmptyString => []
  | String c s' =>
      match skip with
      | S k => findall_marked mark k s'
      | O =>
          if Ascii.eqb c mark then
            match span_prefix is_word s' with
            | EmptyString => findall_marked mark 0 s'
            | w => w :: findall_marked mark (String.length w) s'
            end
          else findall_marked mark 0 s'
      end
  end.

(** helpers.py: [extract_hashtags] *)
Definition extract_hashtags (text : string) : list string :=
  findall_marked "#" 0 (lower text).

(** helpers.py: [extract_mentions] *)
Definition extract_mentions (text : string) : list string :=
  findall_marked "@" 0 (lower text).

(** [s.startswith(p)] *)
Definition starts_with (p s : string) : bool := String.prefix p s.

(** Length of the match of [lit\S+] at the start of [s], if any. *)
Definition match_lit_nonspace (lit s : string) : option nat :=
  if starts_with lit s then
    match span_prefix (fun c => negb (is_space c))
            (String.substring (String.length lit) (String.length s) s) with
    | EmptyString => None
    | run => Some (String.length lit + String.length run)
    end
  else None.

(** The match of [http\S+|www\S+|https\S+] at the start of [s]:
    the alternatives are tried in this order. *)
Definition match_url (s : string) : option nat :=
  match match_lit_nonspace "http" s with
  | Some n => Some n
  | None =>
      match match_lit_nonspace "www" s with
      | Some n => Some n
      | None => match_lit_nonspace "https" s
      end
  end.

(** [re.sub(r'http\S+|www\S+|https\S+', '', s)] *)
Fixpoint remove_urls (skip : nat) (s : string) : string :=
  match s with
  | EmptyString => EmptyString
  | String c s' =>
      match skip with
      | S k => remove_urls k s'
      | O =>
          match match_url s with
          | Some (S k) => remove_urls k s'
          | _ => String c (remove_urls 0 s')
          end
      end
  end.

(** [re.sub(r'[^\w\s]', ' ', s)] *)
Fixpoint blank_specials (s : string) : string :=
  match s with
  | EmptyString => EmptyString
  | String c s' =>
      String (if is_word c || is_space c then c else " "%char) (blank_specials s')
  end.

(** [s.split()]: [cur] is the word being read, reversed. *)
Fixpoint split_ws (cur : list ascii) (s : string) : list string :=
  let flush rest :=
    match cur with
    | [] => rest
    | _ => string_of_list_ascii (rev cur) :: rest
    end in
  match s with
  | EmptyString => flush []
  | String c s' =>
      if is_space c then flush (split_ws [] s') else split_ws (c :: cur) s'
  end.

(** [sep.join(l)] *)
Fixpoint join (sep : string) (l : list string) : string :=
  match l with
  | [] => ""
  | [w] => w
  | w :: l' => w ++ sep ++ join sep l'
  end.

Fixpoint lstrip (s : string) : string :=
  match s with
  | EmptyString => EmptyString
  | String c s' => if is_space c then lstrip s' else s
  end.

Fixpoint rstrip (s : string) : string :=
  match s with
  | EmptyString => EmptyString
  | String c s' =>
      match rstrip s' with
      | EmptyString => if is_space c then EmptyString else String c EmptyString
      | r => String c r
      end
  end.

(** [s.strip()] *)
Definition strip (s : string) : string := rstrip (lstrip s).

(** [s.replace(old, new)] for a one-character [old] *)
Fixpoint replace_char (old : ascii) (new : string) (s : string) : string :=
  match s with
  | EmptyString => EmptyString
  | String c s' =>
      if Ascii.eqb c old then new ++ replace_char old new s'
      else String c (replace_char old new s')
  end.

(** [needle in s] *)
Fixpoint contains (needle s : string) : bool :=
  starts_with needle s ||
  match s with
  | EmptyString => false
  | String _ s' => contains needle s'
  end.

(** helpers.py: [clean_text].  A falsy argument gives the empty string; a
    truthy argument that is not a string makes [re.sub] raise [TypeError]. *)
Definition clean_text (text : value) : result string :=
  if negb (truthy text) then Ok ""
  else
    match text with
    | VStr s =>
        let s := remove_urls 0 s in
        let s := blank_specials s in
        let s := join " " (split_ws [] s) in
        Ok (strip s)
    | _ => Raise TypeError
    end.

Definition is_str (v : value) : bool :=
  match v with
  | VStr _ => true
  | _ => false
  end.

(** [f"{v}"], for the values that reach the f-string of
    [process_single_item]: strings and falsy values ([clean_text] has raised
    on every other one by then). *)
Definition fstring (v : value) : string :=
  match v with
  | VStr s => s
  | VNone => "None"
  | VInt z => pretty z
  | VFloat _ => "0.0"
  | VList _ => "[]"
  | VDict _ => "{}"
  end.

#[local] Open Scope Q_scope.

(** ** The environment: what the code takes from outside the repository *)

Record Env : Type := {
  (** [datetime.now()], in microseconds since a fixed origin *)
  now : Z;
  (** [datetime.now().isoformat()] *)
  now_isoformat : string;
  (** [datetime.fromisoformat(s).replace(tzinfo=None)], in microseconds since
      the same origin; raises [ValueError] on a string it cannot parse *)
  fromisoformat : string -> result Z;
  (** [TextBlob(s).sentiment]: polarity and subjectivity *)
  textblob_sentiment : string -> result (Q * Q)
}.

(** ** helpers.py *)

(** [v == 0] *)
Definition eq0 (v : value) : bool :=
  match v with
  | VInt z => (z =? 0)%Z
  | VFloat q => Qeq_bool q 0
  | _ => false
  end.

(** helpers.py: [calculate_engagement_rate] *)
Definition calculate_engagement_rate (likes comments shares views : value)
  : result Q :=
  if eq0 views then Ok 0.0
  else
    l ← as_num (or0 likes);
    c ← as_num (or0 comments);
    s ← as_num (or0 shares);
    let total_engagement := l + c + s in
    v ← as_num views;
    Ok ((total_engagement / v) * 100).

Definition sentiment_dict (polarity subjectivity : Q) (label : string) (confidence : Q)
  : value :=
  VDict (<["polarity" := VFloat polarity]>
        (<["subjectivity" := VFloat subjectivity]>
        (<["label" := VStr label]>
        (<["confidence" := VFloat confidence]> ∅)))).

(** The neutral default of both [except] handlers. *)
Definition neutral_sentiment : value := sentiment_dict 0.0 0.0 "neutral" 0.0.

Definition sentiment_label (polarity : Q) : string :=
  if Qltb 0.1 polarity then "positive"
  else if Qltb polarity (-0.1) then "negative"
  else "neutral".

(** helpers.py: [analyze_sentiment] *)
Definition analyze_sentiment (E : Env) (text : value) : result value :=
  try_except
    (cleaned ← clean_text text;
     '(polarity, subjectivity) ← textblob_sentiment E cleaned;
     Ok (sentiment_dict polarity subjectivity (sentiment_label polarity)
           (Qabs polarity)))
    (Ok neutral_sentiment).

(** ** data_processor.py: the trending score *)

Definition normalized_engagement (engagement_rate : Q) : Q :=
  py_min (engagement_rate / 10.0) 1.0.

(** Engagement factor (lines 79-84) *)
Definition engagement_factor (item : gmap string value) (score : Q) : result Q :=
  engagement_rate ← as_num (get item "engagement_rate" (VInt 0));
  if Qltb 0 engagement_rate
  then Ok (score + normalized_engagement engagement_rate * 0.4)
  else Ok score.

(** [(datetime.now() - published).total_seconds() / 3600] *)
Definition hours_old (E : Env) (published : Z) : Q :=
  ((now E - published) # 1000000) / 3600.

Definition recency_score (hours : Q) : Q := 1.0 - hours / 24.0.

(** [item['published_date'].replace('Z', '+00:00')] *)
Definition replace_Z (published_date : value) : result string :=
  match published_date with
  | VStr s => Ok (replace_char "Z" "+00:00" s)
  | _ => Raise AttributeError
  end.

(** The body of the [try] of the recency factor (lines 88-95) *)
Definition recency_body (E : Env) (item : gmap string value) (score : Q) : result Q :=
  match item !! "published_date" with
  | None => Ok score
  | Some published_date =>
      s ← replace_Z published_date;
      published ← fromisoformat E s;
      let hours := hours_old E published in
      if Qltb hours 24
      then Ok (score + recency_score hours * 0.3)
      else Ok score
  end.

(** Recency factor (lines 86-98): the bare [except] adds 0.15 *)
Definition recency_factor (E : Env) (item : gmap string value) (score : Q) : result Q :=
  try_except (recency_body E item score) (Ok (score + 0.15)).

Definition hashtag_score (n : nat) : Q :=
  py_min (inject_Z (Z.of_nat n) / 5.0) 1.0.

(** Hashtag factor (lines 100-105) *)
Definition hashtag_factor (item : gmap string value) (score : Q) : result Q :=
  let hashtags := get item "hashtags" (VList []) in
  if truthy hashtags then
    n ← py_len hashtags;
    Ok (score + hashtag_score n * 0.2)
  else Ok score.

Definition sentiment_score (polarity : Q) : Q := py_min polarity 1.0.

(** Sentiment factor (lines 107-114) *)
Definition sentiment_factor (item : gmap string value) (score : Q) : result Q :=
  let sentiment := get item "sentiment" (VDict ∅) in
  if truthy sentiment then
    match sentiment with
    | VDict d =>
        polarity ← as_num (get d "polarity" (VInt 0));
        if Qltb 0 polarity
        then Ok (score + sentiment_score polarity * 0.1)
        else Ok score
    | _ => Raise AttributeError
    end
  else Ok score.

(** The value of [score] when line 116 is reached. *)
Definition accumulated_score (E : Env) (item : gmap string value) : result Q :=
  let score := 0.0 in
  score ← engagement_factor item score;
  score ← recency_factor E item score;
  score ← hashtag_factor item score;
  sentiment_factor item score.

(** data_processor.py: [DataProcessor._calculate_trending_score] *)
Definition _calculate_trending_score (E : Env) (item : gmap string value) : result Q :=
  score ← accumulated_score E item;
  Ok (py_round (py_min score 1.0) 3).

(** ** data_processor.py: per-item enrichment *)

(** Basic engagement calculation (lines 30-40) *)
Definition engagement_step (item : gmap string value) : result (gmap string value) :=
  if has item "view_count" && has item "like_count" then
    let views := or0 (get item "view_count" (VInt 0)) in
    let likes := or0 (get item "like_count" (VInt 0)) in
    let comments := or0 (get item "comment_count" (VInt 0)) in
    v ← as_num views;
    if Qltb 0 v then
      l ← as_num likes;
      c ← as_num comments;
      let engagement_rate := ((l + c) / v) * 100 in
      Ok (<["engagement_rate" := VFloat (py_round engagement_rate 2)]> item)
    else Ok (<["engagement_rate" := VFloat 0.0]> item)
  else Ok item.

(** [extract_hashtags(title)]: [title.lower()] needs a string *)
Definition extract_hashtags_value (title : value) : result value :=
  match title with
  | VStr s => Ok (VList (VStr <$> extract_hashtags s))
  | _ => Raise AttributeError
  end.

(** Title (lines 46-51) *)
Definition title_step (title : value) (item : gmap string value)
  : result (gmap string value) :=
  if truthy title then
    cleaned ← clean_text title;
    let item := <["title_clean" := VStr cleaned]> item in
    if negb (truthy (get item "hashtags" VNone)) then
      hashtags ← extract_hashtags_value title;
      Ok (<["hashtags" := hashtags]> item)
    else Ok item
  else Ok item.

(** Description (lines 53-54) *)
Definition description_step (description : value) (item : gmap string value)
  : result (gmap string value) :=
  if truthy description then
    cleaned ← clean_text description;
    Ok (<["description_clean" := VStr cleaned]> item)
  else Ok item.

(** [f"{title} {description}".strip()] *)
Definition text_for_analysis (title description : value) : string :=
  strip (fstring title ++ " " ++ fstring description).

Section Enrichment.
(** The sentiment analyser called at line 60.  The enrichment is stated for
    any analyser, so that the [except] of lines 62-68 has a meaning; the
    repository's own is [analyze_sentiment]. *)
Variable analyze : value -> result value.
Variable E : Env.

(** Basic sentiment analysis (lines 56-68) *)
Definition sentiment_step (text : string) (item : gmap string value)
  : result (gmap string value) :=
  if truthy (VStr text) then
    try_except
      (sentiment ← analyze (VStr text);
       Ok (<["sentiment" := sentiment]> item))
      (Ok (<["sentiment" := neutral_sentiment]> item))
  else Ok item.

Definition process_single_item_with (item : gmap string value)
  : result (gmap string value) :=
  let item := <["processed_at" := VStr (now_isoformat E)]> item in
  item ← engagement_step item;
  let title := get item "title" (VStr "") in
  let description := get item "description" (VStr "") in
  item ← title_step title item;
  item ← description_step description item;
  item ← sentiment_step (text_for_analysis title description) item;
  score ← _calculate_trending_score E item;
  Ok (<["trending_score" := VFloat score]> item).

Definition process_content_batch_with (content_items : list (gmap string value))
  : result (list (gmap string value)) :=
  mapM process_single_item_with content_items.
End Enrichment.

(** data_processor.py: [DataProcessor.process_single_item] *)
Definition process_single_item (E : Env) (item : gmap string value)
  : result (gmap string value) :=
  process_single_item_with (analyze_sentiment E) E item.

(** data_processor.py: [DataProcessor.process_content_batch] *)
Definition process_content_batch (E : Env) (content_items : list (gmap string value))
  : result (list (gmap string value)) :=
  process_content_batch_with (analyze_sentiment E) E content_items.

(** ** data_processor.py: aggregation *)

Definition trending_keywords : list string :=
  ["viral"; "trending"; "hot"; "breaking"; "new"; "latest"].

Definition frequency_score (count : Z) (total_items : nat) : Q :=
  inject_Z count / inject_Z (Z.of_nat total_items).

(** [1.5] when a keyword occurs in the lower-cased hashtag, else [1.0] *)
Definition keyword_boost (hashtag : string) : Q :=
  if existsb (fun keyword => contains keyword (lower hashtag)) trending_keywords
  then 1.5 else 1.0.

(** data_processor.py: [DataProcessor._calculate_hashtag_trend_score] *)
Definition _calculate_hashtag_trend_score
  (hashtag : value) (count : Z) (total_items : nat) : result Q :=
  if (total_items =? 0)%nat then Ok 0.0
  else
    match hashtag with
    | VStr h =>
        let trend_score := frequency_score count total_items * keyword_boost h in
        Ok (py_round (py_min trend_score 1.0) 3)
    | _ => Raise AttributeError
    end.

(** [sorted(l, key=key, reverse=True)]: stable, largest key first *)
Fixpoint insert_desc {A} (key : A -> Q) (x : A) (l : list A) : list A :=
  match l with
  | [] => [x]
  | y :: l' => if Qltb (key x) (key y) then y :: insert_desc key x l' else x :: l
  end.

Definition sorted_desc {A} (key : A -> Q) (l : list A) : list A :=
  foldr (insert_desc key) [] l.

Record hashtag_entry : Type := {
  entry_hashtag : value;
  entry_count : Z;
  entry_trend_score : Q
}.

Record engagement_summary : Type := {
  stats_average : Q;
  stats_max : Q;
  stats_min : Q;
  stats_count : nat
}.

Record sentiment_summary : Type := {
  sentiment_distribution : counter;
  sentiment_total_analyzed : Z
}.

(** The dict [analyze_trends] returns.  [None] in [sentiment_analysis] and
    [engagement_stats] is the empty dict; [total_analyzed] and
    [analysis_timestamp] are [None] when the key is absent. *)
Record trend_analysis : Type := {
  trending_hashtags : list hashtag_entry;
  platform_distribution : counter;
  sentiment_analysis : option sentiment_summary;
  engagement_stats : option engagement_summary;
  total_analyzed : option nat;
  analysis_timestamp : option string
}.

(** The four accumulators of the loop of [analyze_trends]. *)
Record tallies : Type := {
  hashtag_counts : counter;
  platform_counts : counter;
  sentiment_counts : counter;
  engagement_rates : list value
}.

Fixpoint count_keys (ks : list value) (c : counter) : result counter :=
  match ks with
  | [] => Ok c
  | k :: ks' => c ← count_key k c; count_keys ks' c
  end.

(** One iteration of the loop (lines 134-153) *)
Definition tally_item (t : tallies) (item : gmap string value) : result tallies :=
  let platform := get item "platform" (VStr "unknown") in
  platform_counts' ← count_key platform (platform_counts t);
  hashtags ← py_iter (get item "hashtags" (VList []));
  hashtag_counts' ← count_keys hashtags (hashtag_counts t);
  let sentiment := get item "sentiment" (VDict ∅) in
  sentiment_counts' ←
    (if truthy sentiment then
       match sentiment with
       | VDict d => count_key (get d "label" (VStr "neutral")) (sentiment_counts t)
       | _ => Raise AttributeError
       end
     else Ok (sentiment_counts t));
  let engagement_rate := get item "engagement_rate" VNone in
  let engagement_rates' :=
    match engagement_rate with
    | VNone => engagement_rates t
    | _ => (engagement_rates t ++ [engagement_rate])%list
    end in
  Ok {| hashtag_counts := hashtag_counts';
        platform_counts := platform_counts';
        sentiment_counts := sentiment_counts';
        engagement_rates := engagement_rates' |}.

Fixpoint tally_items (t : tallies) (items : list (gmap string value)) : result tallies :=
  match items with
  | [] => Ok t
  | item :: items' => t ← tally_item t item; tally_items t items'
  end.

Definition Qsum (l : list Q) : Q := foldl Qplus 0 l.

(** [max(l)] and [min(l)] of a non-empty list: the first of the largest
    (smallest) elements *)
Definition Qmaximum (x : Q) (l : list Q) : Q :=
  foldl (fun m y => if Qltb m y then y else m) x l.
Definition Qminimum (x : Q) (l : list Q) : Q :=
  foldl (fun m y => if Qltb y m then y else m) x l.

(** Engagement statistics (lines 162-170) *)
Definition compute_engagement_stats (rates : list value) : result (option engagement_summary) :=
  rates ← mapM as_num rates;
  match rates with
  | [] => Ok None
  | r :: rs =>
      let n := length rates in
      Ok (Some {| stats_average := py_round (Qsum rates / inject_Z (Z.of_nat n)) 2;
                  stats_max := py_round (Qmaximum r rs) 2;
                  stats_min := py_round (Qminimum r rs) 2;
                  stats_count := n |})
  end.

Definition make_entry (total_items : nat) (tc : value * Z) : result hashtag_entry :=
  let '(tag, count) := tc in
  trend_score ← _calculate_hashtag_trend_score tag count total_items;
  Ok {| entry_hashtag := tag; entry_count := count; entry_trend_score := trend_score |}.

Definition empty_tallies : tallies :=
  {| hashtag_counts := []; platform_counts := [];
     sentiment_counts := []; engagement_rates := [] |}.

(** data_processor.py: [DataProcessor.analyze_trends] *)
Definition analyze_trends (E : Env) (content_items : list (gmap string value))
  : result trend_analysis :=
  match content_items with
  | [] =>
      Ok {| trending_hashtags := [];
            platform_distribution := [];
            sentiment_analysis := None;
            engagement_stats := None;
            total_analyzed := None;
            analysis_timestamp := None |}
  | _ =>
      t ← tally_items empty_tallies content_items;
      let top := take 15 (sorted_desc (fun tc => inject_Z (snd tc)) (hashtag_counts t)) in
      stats ← compute_engagement_stats (engagement_rates t);
      entries ← mapM (make_entry (length content_items)) top;
      Ok {| trending_hashtags := entries;
            platform_distribution := platform_counts t;
            sentiment_analysis :=
              Some {| sentiment_distribution := sentiment_counts t;
                      sentiment_total_analyzed :=
                        foldl Z.add 0%Z (snd <$> sentiment_counts t) |};
            engagement_stats := stats;
            total_analyzed := Some (length content_items);
            analysis_timestamp := Some (now_isoformat E) |}
  end.

(** data_processor.py: [DataProcessor.get_top_trending_content].  Sorting
    fewer than two items compares nothing; otherwise the keys are compared as
    numbers, which is what [process_single_item] stores.  (Python also orders
    keys that are all strings; the model raises [TypeError] on them.) *)
Definition get_top_trending_content (content_items : list (gmap string value)) (limit : nat)
  : result (list (gmap string value)) :=
  match content_items with
  | [] | [_] => Ok (take limit content_items)
  | _ =>
      keyed ← mapM (fun x => k ← as_num (get x "trending_score" (VInt 0)); Ok (k, x))
                   content_items;
      Ok (take limit (snd <$> sorted_desc fst keyed))
  end.

(** The dict [get_content_summary] returns. *)
Inductive content_summary : Type :=
| NoContent
    (* {'total_content': 0, 'summary': 'No content available for analysis'} *)
| Summary (total_content : nat) (trends : trend_analysis)
    (top_trending_content : list (gmap string value))
    (items_processed : nat) (processing_timestamp : string).

(** "Process all items if not already processed" (lines 241-247) *)
Definition ensure_processed (E : Env) (item : gmap string value)
  : result (gmap string value) :=
  if negb (has item "processed_at") then process_single_item E item
  else Ok item.

(** data_processor.py: [DataProcessor.get_content_summary] *)
Definition get_content_summary (E : Env) (content_items : list (gmap string value))
  : result content_summary :=
  match content_items with
  | [] => Ok NoContent
  | _ =>
      processed_items ← mapM (ensure_processed E) content_items;
      trends ← analyze_trends E processed_items;
      top_trending ← get_top_trending_content processed_items 5;
      Ok (Summary (length processed_items) trends top_trending
            (length processed_items) (now_isoformat E))
  end.

(** ** Inputs the statements are about *)

Definition is_ok {A} (r : result A) : bool :=
  match r with
  | Ok _ => true
  | Raise _ => false
  end.

(** The records on which no operation of [_calculate_trending_score] raises:
    a numeric [engagement_rate], [hashtags] with a length, and a [sentiment]
    dict with a numeric polarity, each of them possibly absent or falsy. *)
Definition scorable (item : gmap string value) : bool :=
  is_ok (as_num (get item "engagement_rate" (VInt 0)))
  && (let hashtags := get item "hashtags" (VList []) in
      negb (truthy hashtags) || is_ok (py_len hashtags))
  && (let sentiment := get item "sentiment" (VDict ∅) in
      negb (truthy sentiment) ||
      match sentiment with
      | VDict d => is_ok (as_num (get d "polarity" (VInt 0)))
      | _ => false
      end).

(** A text field is absent, falsy or a string. *)
Definition text_field (v : value) : bool := negb (truthy v) || is_str v.

(** The counts are numbers or [None] where the engagement calculation reads
    them; without them a stored [engagement_rate] is a number. *)
Definition counts_ok (item : gmap string value) : bool :=
  if has item "view_count" && has item "like_count" then
    match as_num (or0 (get item "view_count" (VInt 0))) with
    | Ok v =>
        negb (Qltb 0 v) ||
        (is_ok (as_num (or0 (get item "like_count" (VInt 0))))
         && is_ok (as_num (or0 (get item "comment_count" (VInt 0)))))
    | Raise _ => false
    end
  else is_ok (as_num (get item "engagement_rate" (VInt 0))).

Definition hashtags_ok (item : gmap string value) : bool :=
  let hashtags := get item "hashtags" (VList []) in
  negb (truthy hashtags) || is_ok (py_len hashtags).

(** A sentiment value the scorer can read. *)
Definition sentiment_value_ok (sentiment : value) : bool :=
  negb (truthy sentiment) ||
  match sentiment with
  | VDict d => is_ok (as_num (get d "polarity" (VInt 0)))
  | _ => false
  end.

(** The records [process_single_item] is written for. *)
Definition well_formed (item : gmap string value) : bool :=
  let title := get item "title" (VStr "") in
  let description := get item "description" (VStr "") in
  text_field title && text_field description
  && counts_ok item && hashtags_ok item
  && (truthy (VStr (text_for_analysis title description))
      || sentiment_value_ok (get item "sentiment" (VDict ∅))).

(** [r] is [q] rounded to [ndigits] decimals: a multiple of [10^-ndigits] at
    most half a unit away from [q].  It is what [round(q, ndigits)] gives
    whichever way a tie goes. *)
Definition rounded_to (ndigits : positive) (q r : Q) : Prop :=
  (exists k : Z, r = k # (10 ^ ndigits)) /\
  Qabs (r - q) <= 1 # (2 * 10 ^ ndigits).

(** The score the engagement, hashtag and sentiment factors accumulate
    (lines 79-84 and 100-114), the recency factor left out. *)
Definition other_factors (item : gmap string value) : result Q :=
  let score := 0.0 in
  score ← engagement_factor item score;
  score ← hashtag_factor item score;
  sentiment_factor item score.

(** [r'] is [r] with [d] added to the score; an exception stays the same. *)
Definition shifted (d : Q) (r r' : result Q) : Prop :=
  match r, r' with
  | Ok a, Ok b => b == a + d
  | Raise e, Raise e' => e = e'
  | _, _ => False
  end.

(** A keyword of [trending_keywords] occurs in the lower-cased hashtag. *)
Definition has_trending_keyword (hashtag : string) : Prop :=
  exists keyword pre post,
    In keyword ["viral"; "trending"; "hot"; "breaking"; "new"; "latest"] /\
    lower hashtag = pre ++ keyword ++ post.

(** An optional count as an argument: [None] or the integer. *)
Definition count_arg (n : option Z) : value :=
  match n with
  | Some z => VInt z
  | None => VNone
  end.

(** ** Sample inputs *)

(** Microseconds in an hour. *)
Definition hour : Z := 3600000000.

(** 5 January 2024, 04:00, counted from 1 January 2024; a parser that knows
    three timestamps; a sentiment lexicon of one word, failing on another. *)
Definition sample_env : Env :=
  {| now := 100 * hour;
     now_isoformat := "2024-01-05T04:00:00";
     fromisoformat := fun s =>
       if String.eqb s "2024-01-04T22:00:00+00:00" then Ok (94 * hour)%Z
       else if String.eqb s "2024-01-06T04:00:00+00:00" then Ok (124 * hour)%Z
       else if String.eqb s "2024-01-01T00:00:00" then Ok 0%Z
       else Raise ValueError;
     textblob_sentiment := fun s =>
       if contains "great" (lower s) then Ok (0.8, 0.75)
       else if contains "crash" (lower s) then Raise ValueError
       else Ok (0.0, 0.0) |}.

(** A collected video, six hours old. *)
Definition viral_clip : gmap string value :=
  <["title" := VStr "Great #Viral video http://x.co"]>
  (<["platform" := VStr "youtube"]>
  (<["view_count" := VInt 1000]>
  (<["like_count" := VInt 100]>
  (<["comment_count" := VInt 20]>
  (<["share_count" := VInt 500]>
  (<["published_date" := VStr "2024-01-04T22:00:00Z"]> ∅)))))).

(** A post without view counts whose text the lexicon fails on. *)
Definition crash_post : gmap string value :=
  <["title" := VStr "crash"]>
  (<["platform" := VStr "instagram"]>
  (<["like_count" := VInt 7]> ∅)).

(** A record enriched four days earlier. *)
Definition stale_item : gmap string value :=
  <["title" := VStr "Great #viral clip"]>
  (<["processed_at" := VStr "2024-01-01T00:00:00"]>
  (<["trending_score" := VFloat 0.0]> ∅)).

(** What [process_single_item] makes of [stale_item] in [sample_env]. *)
Definition restamped_item : gmap string value :=
  <["title" := VStr "Great #viral clip"]>
  (<["processed_at" := VStr "2024-01-05T04:00:00"]>
  (<["title_clean" := VStr "Great viral clip"]>
  (<["hashtags" := VList [VStr "viral"]]>
  (<["sentiment" := sentiment_dict 0.8 0.75 "positive" 0.8]>
  (<["trending_score" := VFloat 0.120]> ∅))))).

(** The same timestamp field: 100 hours old, 24 hours ahead, unparseable. *)
Definition old_item : gmap string value :=
  <["published_date" := VStr "2024-01-01T00:00:00"]> (<["engagement_rate" := VFloat 5.0]> ∅).
Definition future_item : gmap string value :=
  <["published_date" := VStr "2024-01-06T04:00:00Z"]> ∅.
Definition undated_item : gmap string value :=
  <["published_date" := VStr "yesterday"]> (<["engagement_rate" := VFloat 5.0]> ∅).

(** A record with no timestamp at all. *)
Definition scenario_item : gmap string value :=
  <["hashtags" := VList [VStr "viral"; VStr "news"]]>
  (<["engagement_rate" := VFloat 12.0]> ∅).

(** Extreme inputs: engagement rate 10000, fifty hashtags, a date ahead of
    the clock, polarity 1. *)
Definition extreme_item : gmap string value :=
  <["engagement_rate" := VInt 10000]>
  (<["hashtags" := VList (replicate 50 (VStr "tag"))]>
  (<["published_date" := VStr "2024-01-06T04:00:00Z"]>
  (<["sentiment" := sentiment_dict 1.0 1.0 "positive" 1.0]> ∅))).

(** The JSON text of the list with the one hashtag [viral], as the storage
    layer writes it, and a record carrying it. *)
Definition json_viral : string :=
  "[" ++ String "034" "viral" ++ String "034" "]".
Definition json_item : gmap string value :=
  <["title" := VStr "Clip"]> (<["hashtags" := VStr json_viral]> ∅).
Definition list_item : gmap string value :=
  <["title" := VStr "Clip"]> (<["hashtags" := VList [VStr "viral"]]> ∅).

(** The two records of the end-to-end scenario. *)
Definition scenario : list (gmap string value) :=
  [ scenario_item;
    <["hashtags" := VList [VStr "viral"]]>
      (<["engagement_rate" := VFloat 2.0]> ∅) ].

(** ** Further code of the repository *)

(** Every character of [s] satisfies [p]. *)
Fixpoint string_forall (p : ascii -> bool) (s : string) : bool :=
  match s with
  | EmptyString => true
  | String c s' => p c && string_forall p s'
  end.

(** The character is an ASCII character. *)
Definition is_ascii (c : ascii) : bool := (code c <? 128)%N.

(** An ASCII text: a string on which [\w], [\s] and [str.lower] of Python
    are [is_word], [is_space] and [lower]. *)
Definition ascii_text (s : string) : bool := string_forall is_ascii s.

(** A non-empty run of word characters. *)
Definition is_token (w : string) : bool :=
  negb (String.eqb w "") && string_forall is_word w.

(** A non-empty run of word characters none of which is upper-case. *)
Definition is_lower_token (w : string) : bool :=
  negb (String.eqb w "") && string_forall (fun c => is_word c && negb (is_upper c)) w.

(** [s] is empty or starts with a character that is not a word character. *)
Definition ends_word (s : string) : bool :=
  match s with
  | EmptyString => true
  | String c _ => negb (is_word c)
  end.

(** [max(a, b)]: the first argument unless the second is larger *)
Definition py_max (a b : Q) : Q := if Qltb a b then b else a.

(** helpers.py: [calculate_trending_score] *)
Definition calculate_trending_score (engagement_rate growth_rate recency_hours : Q) : Q :=
  let engagement_weight := 0.4 in
  let growth_weight := 0.4 in
  let recency_weight := 0.2 in
  let recency_score := py_max 0 (1 - (recency_hours / 168)) in
  let trending_score :=
    engagement_rate * engagement_weight +
    growth_rate * growth_weight +
    recency_score * recency_weight in
  py_min 1.0 (py_max 0.0 trending_score).

(** data_processor.py: [DataProcessor.filter_by_platform], for a [platform]
    that is a string as the signature says: [item.get('platform') == platform]
    holds for an equal string only. *)
Definition filter_by_platform (content_items : list (gmap string value)) (platform : string)
  : list (gmap string value) :=
  List.filter (fun item => key_eqb (get item "platform" VNone) (VStr platform))
    content_items.

(** [item.get('sentiment', {}).get('label') == sentiment_label] *)
Definition sentiment_label_is (sentiment_label : string) (item : gmap string value)
  : result bool :=
  match get item "sentiment" (VDict ∅) with
  | VDict d => Ok (key_eqb (get d "label" VNone) (VStr sentiment_label))
  | _ => Raise AttributeError
  end.

(** [[x for x in l if test(x)]] with a test that may raise *)
Fixpoint filterM {A} (test : A -> result bool) (l : list A) : result (list A) :=
  match l with
  | [] => Ok []
  | x :: l' =>
      keep ← test x;
      rest ← filterM test l';
      Ok (if keep : bool then x :: rest else rest)
  end.

(** data_processor.py: [DataProcessor.filter_by_sentiment] *)
Definition filter_by_sentiment (content_items : list (gmap string value))
  (sentiment_label : string) : result (list (gmap string value)) :=
  filterM (sentiment_label_is sentiment_label) content_items.

(** [s] is empty or ends with a character that is not white space. *)
Fixpoint last_nonspace (s : string) : bool :=
  match s with
  | EmptyString => true
  | String c EmptyString => negb (is_space c)
  | String _ s' => last_nonspace s'
  end.

(** The sort key of [get_top_trending_content] when it is a number. *)
Definition trending_key (item : gmap string value) : Q :=
  match as_num (get item "trending_score" (VInt 0)) with
  | Ok score => score
  | Raise _ => 0
  end.

(** The item carries a sentiment dict whose label is the string [label]. *)
Definition has_label (label : string) (item : gmap string value) : bool :=
  match item !! "sentiment" with
  | Some (VDict d) => key_eqb (get d "label" VNone) (VStr label)
  | _ => false
  end.

(** The item's ['sentiment'] is absent or a dict. *)
Definition sentiment_is_dict (item : gmap string value) : bool :=
  match item !! "sentiment" with
  | None | Some (VDict _) => true
  | _ => false
  end.

(** Some more records. *)
Definition scored (platform : string) (score : Q) : gmap string value :=
  <["platform" := VStr platform]> (<["trending_score" := VFloat score]> ∅).

(** [sum(c.values())] *)
Definition counter_total (c : counter) : Z := foldl Z.add 0%Z (snd <$> c).

(** The number of items of the batch that satisfy [p]. *)
Definition count_items (p : gmap string value -> bool) (items : list (gmap string value))
  : nat :=
  length (List.filter p items).

(** The item carries a truthy ['sentiment']. *)
Definition has_sentiment (item : gmap string value) : bool :=
  truthy (get item "sentiment" (VDict ∅)).

(** The item carries an ['engagement_rate'] that is not [None]. *)
Definition has_engagement_rate (item : gmap string value) : bool :=
  match get item "engagement_rate" VNone with
  | VNone => false
  | _ => true
  end.

(** The hashtags of an item whose ['hashtags'] is a list, taking the strings. *)
Definition hashtag_strings (item : gmap string value) : list string :=
  match get item "hashtags" (VList []) with
  | VList l => omap (fun v => match v with VStr s => Some s | _ => None end) l
  | _ => []
  end.

(** The item's ['hashtags'] is absent or a list of strings. *)
Definition hashtags_are_strings (item : gmap string value) : Prop :=
  get item "hashtags" (VList []) = VList (VStr <$> hashtag_strings item).

(** The count a counter holds for the string [h], 0 when [h] is no key. *)
Fixpoint stored_count (h : string) (c : counter) : Z :=
  match c with
  | [] => 0%Z
  | (k, n) :: c' => if key_eqb k (VStr h) then n else stored_count h c'
  end.

(** ** mcp_integration/mcp_client.py *)

Module MCPClient.

(** The dict [analyze_sentiment] and [_fallback_sentiment] return. *)
Definition sentiment_result (polarity : Q) (label : string) (confidence : Q)
  (analysis_method : string) : value :=
  VDict (<["polarity" := VFloat polarity]>
        (<["label" := VStr label]>
        (<["confidence" := VFloat confidence]>
        (<["analysis_method" := VStr analysis_method]> ∅)))).

(** mcp_client.py: [MCPClient._fallback_sentiment] *)
Definition _fallback_sentiment (text : value) : value :=
  sentiment_result 0.0 "neutral" 0.1 "fallback".

(** [text.lower()]: only a string has the method *)
Definition lower_value (text : value) : result string :=
  match text with
  | VStr s => Ok (lower s)
  | _ => Raise AttributeError
  end.

(** [any(word in text.lower() for word in words)] *)
Fixpoint any_word_in (words : list string) (text : value) : result bool :=
  match words with
  | [] => Ok false
  | word :: words' =>
      lowered ← lower_value text;
      if contains word lowered then Ok true else any_word_in words' text
  end.

Definition positive_words : list string := ["good"; "great"; "amazing"; "love"; "best"].
Definition negative_words : list string := ["bad"; "hate"; "worst"; "terrible"].

(** mcp_client.py: [MCPClient.analyze_sentiment]; [enabled] is
    [self.enabled], read from the configuration *)
Definition analyze_sentiment (enabled : bool) (text : value) : result value :=
  if negb enabled then Ok (_fallback_sentiment text)
  else
    try_except
      (let polarity := 0.0 in
       positive ← any_word_in positive_words text;
       polarity ←
         (if positive : bool then Ok 0.5
          else
            negative ← any_word_in negative_words text;
            if negative : bool then Ok (-0.5) else Ok polarity);
       let label :=
         if Qltb 0 polarity then "positive"
         else if Qltb polarity 0 then "negative"
         else "neutral" in
       Ok (sentiment_result polarity label
             (if negb (Qeq_bool polarity 0) then Qabs polarity else 0.1)
             "mcp_enhanced"))
      (Ok (_fallback_sentiment text)).

(** [hashtags.extend(item.get('hashtags', []))] for every item *)
Fixpoint collect_hashtags (content_items : list (gmap string value))
  (hashtags : list value) : result (list value) :=
  match content_items with
  | [] => Ok hashtags
  | item :: content_items' =>
      more ← py_iter (get item "hashtags" (VList []));
      collect_hashtags content_items' (hashtags ++ more)
  end.

(** [Counter(l).most_common(n)]: the [n] largest counts, first counted
    first among equal counts *)
Definition most_common (n : nat) (l : list value) : result (list (value * Z)) :=
  counts ← count_keys l [];
  Ok (take n (sorted_desc (fun tc => inject_Z (snd tc)) counts)).

(** The dict [detect_trends] returns; an entry of [trending_hashtags] is
    the pair of its 'tag' and its 'count'. *)
Record trend_detection : Type := {
  trending_hashtags : list (value * Z);
  analysis_timestamp : string;
  method : string
}.

(** mcp_client.py: [MCPClient.detect_trends] *)
Definition detect_trends (E : Env) (content_items : list (gmap string value))
  : result trend_detection :=
  hashtags ← collect_hashtags content_items [];
  top_hashtags ← most_common 10 hashtags;
  Ok {| trending_hashtags := top_hashtags;
        analysis_timestamp := now_isoformat E;
        method := "mcp_trend_detection" |}.

End MCPClient.

(** ** mcp_integration/trend_analyzer.py *)

Module TrendAnalyzer.

(** trend_analyzer.py: [TrendAnalyzer._fallback_trend_analysis] *)
Definition _fallback_trend_analysis (E : Env) (content_items : list (gmap string value))
  : result MCPClient.trend_detection :=
  hashtags ← MCPClient.collect_hashtags content_items [];
  top_hashtags ← MCPClient.most_common 10 hashtags;
  Ok {| MCPClient.trending_hashtags := top_hashtags;
        MCPClient.analysis_timestamp := now_isoformat E;
        MCPClient.method := "fallback_trend_detection" |}.

End TrendAnalyzer.

(** ** mcp_integration/context_manager.py *)

Module ContextManager.

(** A value of [self.contexts]; times in microseconds as in [Env]. *)
Record context : Type := {
  data : value;
  created_at : Z;
  last_used : Z;
  usage_count : Z
}.

Definition max_contexts : nat := 100.

(** context_manager.py: [ContextManager._cleanup_contexts]; [now] is the
    reading of the clock at line 37 *)
Definition _cleanup_contexts (now : Z) (contexts : gmap string context)
  : gmap string context :=
  let cutoff_time := (now - 24 * hour)%Z in
  let to_remove :=
    omap (fun '(ctx_id, ctx) =>
            if (last_used ctx <? cutoff_time)%Z then Some ctx_id else None)
         (map_to_list contexts) in
  foldl (fun contexts ctx_id => delete ctx_id contexts) contexts to_remove.

(** context_manager.py: [ContextManager.create_context]; [now1], [now2] and
    [now3] are the readings of the clock at lines 18, 19 and 37 *)
Definition create_context (now1 now2 now3 : Z) (contexts : gmap string context)
  (context_id : string) (data : value) : gmap string context :=
  let contexts :=
    <[context_id := {| data := data; created_at := now1;
                       last_used := now2; usage_count := 0 |}]> contexts in
  if (max_contexts <? size contexts)%nat then _cleanup_contexts now3 contexts
  else contexts.

(** context_manager.py: [ContextManager.get_context]: the store afterwards
    and the value returned ([None] for an unknown id); [now] is the reading
    of the clock at line 30 *)
Definition get_context (now : Z) (contexts : gmap string context) (context_id : string)
  : gmap string context * option value :=
  match contexts !! context_id with
  | Some ctx =>
      (<[context_id := {| data := data ctx; created_at := created_at ctx;
                          last_used := now;
                          usage_count := (usage_count ctx + 1)%Z |}]> contexts,
       Some (data ctx))
  | None => (contexts, None)
  end.

End ContextManager.

(** A word of [words] occurs in the lower-cased text. *)
Definition word_occurs (words : list string) (s : string) : Prop :=
  exists word pre post, In word words /\ lower s = pre ++ word ++ post.

(** The 'tag' and the 'count' of the entries of a summary. *)
Definition tags_and_counts (entries : list hashtag_entry) : list (value * Z) :=
  map (fun entry => (entry_hashtag entry, entry_count entry)) entries.

(** A match of [http\S+|www\S+|https\S+] starts at the head of [u]: one of
    the literals followed by a character that is no white space. *)
Definition url_here (u : string) : Prop :=
  exists lit x rest,
    (lit = "http" \/ lit = "www") /\ u = lit ++ String x rest /\ is_space x = false.

(** No match of the URL pattern starts anywhere in [s]. *)
Fixpoint url_free (s : string) : bool :=
  match match_url s, s with
  | Some _, _ => false
  | None, EmptyString => true
  | None, String _ s' => url_free s'
  end.

(** [s] starts with exactly [k] characters that are no white space. *)
Fixpoint nonspace_run (k : nat) (s : string) : bool :=
  match k, s with
  | O, EmptyString => true
  | O, String c _ => is_space c
  | S _, EmptyString => false
  | S k', String c s' => negb (is_space c) && nonspace_run k' s'
  end.

(** The factor [g] adds at least as much to a score as the factor [f]. *)
Definition factor_le (f g : Q -> result Q) : Prop :=
  forall s s' a a', s <= s' -> f s = Ok a -> g s' = Ok a' -> a <= a'.

(** A record the aggregation can read: a hashable platform, hashtags that
    are absent or a list of strings, a sentiment that is falsy or a dict
    with a hashable label, an engagement rate that is absent, [None] or a
    number, and a trending score that is absent or a number. *)
Definition analyzable (item : gmap string value) : Prop :=
  hashable (get item "platform" (VStr "unknown")) = true /\
  hashtags_are_strings item /\
  (truthy (get item "sentiment" (VDict ∅)) = true ->
   exists d, get item "sentiment" (VDict ∅) = VDict d /\
             hashable (get d "label" (VStr "neutral")) = true) /\
  (get item "engagement_rate" VNone = VNone \/
   is_ok (as_num (get item "engagement_rate" VNone)) = true) /\
  is_ok (as_num (get item "trending_score" (VInt 0))) = true.

(** * Properties *)

(** ** The examples of the specification *)

Example clean_text_url :
  clean_text (VStr "Check http://x.co now") = Ok "Check now".
Proof. reflexivity. Qed.

Example extract_hashtags_twice :
  extract_hashtags "Great #Viral #viral day" = ["viral"; "viral"].
Proof. reflexivity. Qed.
(** ** Numbers *)

Lemma Qltb_lt (a b : Q) : Qltb a b = true <-> a < b.
Proof.
  unfold Qltb. rewrite negb_true_iff, <- not_true_iff_false, Qle_bool_iff.
  split; [apply Qnot_le_lt | apply Qlt_not_le].
Qed.

Lemma Qltb_ge (a b : Q) : Qltb a b = false <-> b <= a.
Proof.
  unfold Qltb. rewrite negb_false_iff. apply Qle_bool_iff.
Qed.

(** Closed comparisons of rationals. *)
Ltac Qclosed := by vm_compute.

Lemma py_min_le_r (a b : Q) : py_min a b <= b.
Proof.
  unfold py_min. destruct (Qltb b a) eqn:H.
  - apply Qle_refl.
  - by apply Qltb_ge in H.
Qed.

Lemma py_min_le_l (a b : Q) : py_min a b <= a.
Proof.
  unfold py_min. destruct (Qltb b a) eqn:H.
  - apply Qltb_lt in H. by apply Qlt_le_weak.
  - apply Qle_refl.
Qed.

Lemma py_min_glb (c a b : Q) : c <= a -> c <= b -> c <= py_min a b.
Proof. unfold py_min. by destruct (Qltb b a). Qed.

Lemma round_half_even_bounds (q : Q) (lo hi : Z) :
  inject_Z lo <= q -> q <= inject_Z hi ->
  (lo <= round_half_even q <= hi)%Z.
Proof.
  destruct q as [n d]. unfold Qle, round_half_even, inject_Z. simpl.
  intros Hlo Hhi.
  pose proof (Z.div_mod n (Zpos d) ltac:(lia)) as Hdm.
  pose proof (Z.mod_pos_bound n (Zpos d) ltac:(lia)) as Hr.
  set (fl := (n / Zpos d)%Z) in *. set (r := (n mod Zpos d)%Z) in *.
  assert (lo <= fl)%Z by nia.
  assert (fl <= hi)%Z by nia.
  destruct (2 * r ?= Zpos d)%Z eqn:Hc.
  - apply Z.compare_eq in Hc. destruct (Z.even fl); nia.
  - lia.
  - apply Z.compare_gt_iff in Hc. nia.
Qed.

Lemma py_round_unit (q : Q) (ndigits : positive) :
  0 <= q -> q <= 1 -> 0 <= py_round q ndigits /\ py_round q ndigits <= 1.
Proof.
  intros H0 H1. unfold py_round.
  set (p := (10 ^ ndigits)%positive).
  destruct (round_half_even_bounds (q * inject_Z (Zpos p)) 0 (Zpos p)) as [Hlo Hhi].
  - apply Qmult_le_0_compat; [done | by unfold Qle; simpl].
  - apply Qle_trans with (1 * inject_Z (Zpos p)).
    + apply Qmult_le_compat_r; [done | by unfold Qle; simpl].
    + rewrite Qmult_1_l. apply Qle_refl.
  - unfold Qle. simpl. lia.
Qed.

Lemma py_round_decimals (q : Q) (ndigits : positive) :
  exists k : Z, py_round q ndigits = k # (10 ^ ndigits).
Proof. by eexists. Qed.

Lemma round_half_even_close (n : Z) (d : positive) :
  (- Zpos d <= 2 * (round_half_even (n # d) * Zpos d - n) <= Zpos d)%Z.
Proof.
  unfold round_half_even. simpl.
  pose proof (Z.div_mod n (Zpos d) ltac:(lia)) as Hdm.
  pose proof (Z.mod_pos_bound n (Zpos d) ltac:(lia)) as Hr.
  set (fl := (n / Zpos d)%Z) in *. set (r := (n mod Zpos d)%Z) in *.
  destruct (Z.compare_spec (2 * r) (Zpos d)); destruct (Z.even fl); lia.
Qed.

Lemma py_round_rounded (q : Q) (ndigits : positive) :
  rounded_to ndigits q (py_round q ndigits).
Proof.
  split; [apply py_round_decimals|].
  unfold py_round. set (P := (10 ^ ndigits)%positive).
  destruct q as [a b].
  pose proof (round_half_even_close (a * Zpos P) (b * 1)) as H.
  change ((a # b) * inject_Z (Zpos P)) with ((a * Zpos P) # (b * 1)).
  set (R := round_half_even ((a * Zpos P) # (b * 1))) in *.
  unfold Qle, Qabs, Qminus, Qplus, Qopp. simpl.
  rewrite Pos.mul_1_r in H.
  assert (2 * Z.abs (R * Zpos b + - a * Zpos P) <= Zpos b)%Z as Habs by lia.
  rewrite !Pos2Z.inj_mul. nia.
Qed.


(** ** The result monad *)

Lemma bind_Ok {A B} (m : result A) (f : A -> result B) (b : B) :
  (m ≫= f) = Ok b <-> exists a, m = Ok a /\ f a = Ok b.
Proof.
  destruct m as [a|e]; simpl; split.
  - by exists a.
  - by intros (a' & [= <-] & H).
  - done.
  - by intros (a' & [=] & _).
Qed.

Lemma is_ok_returns {A} (r : result A) : is_ok r = true <-> returns r.
Proof.
  destruct r; simpl; split; try done.
  - by eexists.
  - by intros [a [=]].
Qed.

Tactic Notation "inv_bind" hyp(H) "as" ident(a) ident(Ha) :=
  apply bind_Ok in H; destruct H as (a & Ha & H).

Lemma as_num_raises (v : value) (e : exn) : as_num v = Raise e -> e = TypeError.
Proof. destruct v; simpl; congruence. Qed.

(** ** The factors of the trending score *)

Lemma normalized_engagement_unit (r : Q) :
  0 < r -> 0 <= normalized_engagement r /\ normalized_engagement r <= 1.
Proof.
  intros Hr. unfold normalized_engagement. split.
  - apply py_min_glb; [|Qclosed].
    apply Qle_shift_div_l; [Qclosed|]. rewrite Qmult_0_l. by apply Qlt_le_weak.
  - eapply Qle_trans; [apply py_min_le_r | Qclosed].
Qed.

Lemma hashtag_score_unit (n : nat) : 0 <= hashtag_score n /\ hashtag_score n <= 1.
Proof.
  unfold hashtag_score. split.
  - apply py_min_glb; [|Qclosed].
    apply Qle_shift_div_l; [Qclosed|]. rewrite Qmult_0_l.
    unfold Qle. simpl. lia.
  - eapply Qle_trans; [apply py_min_le_r | Qclosed].
Qed.

Lemma sentiment_score_unit (p : Q) :
  0 < p -> 0 <= sentiment_score p /\ sentiment_score p <= 1.
Proof.
  intros Hp. unfold sentiment_score. split.
  - apply py_min_glb; [by apply Qlt_le_weak | Qclosed].
  - eapply Qle_trans; [apply py_min_le_r | Qclosed].
Qed.

Lemma recency_score_pos (h : Q) : h < 24 -> 0 < recency_score h.
Proof.
  intros Hh. unfold recency_score.
  unfold Qminus. rewrite <- Qlt_minus_iff. apply Qlt_shift_div_r; [Qclosed|].
  eapply Qlt_le_trans; [apply Hh | Qclosed].
Qed.

Lemma add_weighted_le (score x w : Q) : 0 <= x -> 0 <= w -> score <= score + x * w.
Proof.
  intros Hx Hw. rewrite <- (Qplus_0_r score) at 1.
  apply Qplus_le_r. by apply Qmult_le_0_compat.
Qed.

Lemma engagement_factor_mono item score s :
  engagement_factor item score = Ok s -> score <= s.
Proof.
  unfold engagement_factor. intros H. inv_bind H as r Hr.
  destruct (Qltb 0 r) eqn:Hpos; injection H as <-; [|apply Qle_refl].
  apply Qltb_lt in Hpos. apply add_weighted_le; [|Qclosed].
  by apply normalized_engagement_unit.
Qed.

Lemma recency_factor_mono E item score s :
  recency_factor E item score = Ok s -> score <= s.
Proof.
  unfold recency_factor, try_except, recency_body. intros H.
  assert (score <= score + 0.15) as Hbonus.
  { rewrite <- (Qplus_0_r score) at 1. apply Qplus_le_r. Qclosed. }
  destruct (item !! "published_date") as [v|]; [|injection H as <-; apply Qle_refl].
  destruct (replace_Z v) as [s'|]; simpl in H; [|by injection H as <-].
  destruct (fromisoformat E s') as [t|]; simpl in H; [|by injection H as <-].
  destruct (Qltb (hours_old E t) 24) eqn:Hh; injection H as <-; [|apply Qle_refl].
  apply Qltb_lt in Hh. apply add_weighted_le; [|Qclosed].
  apply Qlt_le_weak. by apply recency_score_pos.
Qed.

Lemma hashtag_factor_mono item score s :
  hashtag_factor item score = Ok s -> score <= s.
Proof.
  unfold hashtag_factor. intros H.
  destruct (truthy _); [|injection H as <-; apply Qle_refl].
  inv_bind H as n Hn. injection H as <-.
  apply add_weighted_le; [|Qclosed]. apply hashtag_score_unit.
Qed.

Lemma sentiment_factor_mono item score s :
  sentiment_factor item score = Ok s -> score <= s.
Proof.
  unfold sentiment_factor. intros H.
  destruct (truthy _); [|injection H as <-; apply Qle_refl].
  destruct (get item "sentiment" _) as [| | | | |d]; try done.
  inv_bind H as p Hp.
  destruct (Qltb 0 p) eqn:Hpos; injection H as <-; [|apply Qle_refl].
  apply Qltb_lt in Hpos. apply add_weighted_le; [|Qclosed].
  by apply sentiment_score_unit.
Qed.

Lemma accumulated_score_nonneg E item s :
  accumulated_score E item = Ok s -> 0 <= s.
Proof.
  unfold accumulated_score. intros H.
  inv_bind H as s1 H1. apply engagement_factor_mono in H1.
  inv_bind H as s2 H2. apply recency_factor_mono in H2.
  inv_bind H as s3 H3. apply hashtag_factor_mono in H3.
  apply sentiment_factor_mono in H.
  repeat (eapply Qle_trans; [|eassumption]). Qclosed.
Qed.

Lemma trending_score_unit E item s :
  _calculate_trending_score E item = Ok s ->
  0 <= s /\ s <= 1 /\ exists k : Z, s = k # 1000.
Proof.
  unfold _calculate_trending_score. intros H. inv_bind H as acc Hacc.
  injection H as <-. apply accumulated_score_nonneg in Hacc.
  destruct (py_round_unit (py_min acc 1.0) 3) as [Hlo Hhi].
  - apply py_min_glb; [done | Qclosed].
  - eapply Qle_trans; [apply py_min_le_r | Qclosed].
  - split; [done|]. split; [done|]. apply py_round_decimals.
Qed.

Lemma recency_factor_returns E item score : returns (recency_factor E item score).
Proof.
  unfold recency_factor, try_except. destruct (recency_body E item score); by eexists.
Qed.

Lemma engagement_factor_returns item score :
  returns (engagement_factor item score) <->
  is_ok (as_num (get item "engagement_rate" (VInt 0))) = true.
Proof.
  unfold engagement_factor, returns.
  destruct (as_num _) as [r|]; simpl; split; try done.
  - intros _. destruct (Qltb 0 r); by eexists.
  - by intros [a [=]].
Qed.

Lemma hashtag_factor_returns item score :
  returns (hashtag_factor item score) <->
  negb (truthy (get item "hashtags" (VList []))) ||
  is_ok (py_len (get item "hashtags" (VList []))) = true.
Proof.
  unfold hashtag_factor, returns.
  destruct (truthy _); simpl; [|split; [done | by eexists]].
  destruct (py_len _); simpl; split; try done.
  - by eexists.
  - by intros [a [=]].
Qed.

Lemma sentiment_factor_returns item score :
  returns (sentiment_factor item score) <->
  negb (truthy (get item "sentiment" (VDict ∅))) ||
  match get item "sentiment" (VDict ∅) with
  | VDict d => is_ok (as_num (get d "polarity" (VInt 0)))
  | _ => false
  end = true.
Proof.
  unfold sentiment_factor, returns.
  destruct (truthy _); simpl; [|split; [done | by eexists]].
  destruct (get item "sentiment" _) as [| | | | |d];
    try (split; [by intros [a [=]] | done]).
  destruct (as_num _) as [p|]; simpl; split; try done.
  - intros _. destruct (Qltb 0 p); by eexists.
  - by intros [a [=]].
Qed.

Lemma scorable_returns E item :
  scorable item = true <-> returns (_calculate_trending_score E item).
Proof.
  unfold scorable. rewrite !andb_true_iff.
  rewrite <- (engagement_factor_returns item 0.0).
  unfold _calculate_trending_score, accumulated_score. split.
  - intros [[[s1 H1] Hh] Hs]. rewrite H1. simpl.
    destruct (recency_factor_returns E item s1) as [s2 ->]. simpl.
    apply (hashtag_factor_returns item s2) in Hh as [s3 ->]. simpl.
    apply (sentiment_factor_returns item s3) in Hs as [s4 ->]. simpl.
    by eexists.
  - intros [s H]. inv_bind H as acc Hacc. clear H.
    inv_bind Hacc as s1 H1. inv_bind Hacc as s2 H2. inv_bind Hacc as s3 H3.
    split; [split|].
    + by exists s1.
    + apply (hashtag_factor_returns item s2). by exists s3.
    + apply (sentiment_factor_returns item s3). by exists acc.
Qed.

(** ** Which keys each step of the enrichment writes *)

Lemma engagement_step_other item item' k :
  engagement_step item = Ok item' -> k ≠ "engagement_rate" -> item' !! k = item !! k.
Proof.
  unfold engagement_step. intros H Hk.
  destruct (has item "view_count" && has item "like_count"); [|by injection H as <-].
  inv_bind H as v Hv. destruct (Qltb 0 v).
  - inv_bind H as l Hl. inv_bind H as c Hc. injection H as <-.
    by rewrite lookup_insert_ne.
  - injection H as <-. by rewrite lookup_insert_ne.
Qed.

Lemma title_step_other title item item' k :
  title_step title item = Ok item' ->
  k ≠ "title_clean" -> k ≠ "hashtags" -> item' !! k = item !! k.
Proof.
  unfold title_step. intros H Hk1 Hk2.
  destruct (truthy title); [|by injection H as <-].
  inv_bind H as cleaned Hc.
  destruct (negb (truthy (get _ "hashtags" VNone))).
  - inv_bind H as hashtags Hh. injection H as <-.
    by rewrite !lookup_insert_ne.
  - injection H as <-. by rewrite lookup_insert_ne.
Qed.

Lemma description_step_other description item item' k :
  description_step description item = Ok item' ->
  k ≠ "description_clean" -> item' !! k = item !! k.
Proof.
  unfold description_step. intros H Hk.
  destruct (truthy description); [|by injection H as <-].
  inv_bind H as cleaned Hc. injection H as <-. by rewrite lookup_insert_ne.
Qed.

Lemma sentiment_step_other analyze text item item' k :
  sentiment_step analyze text item = Ok item' ->
  k ≠ "sentiment" -> item' !! k = item !! k.
Proof.
  unfold sentiment_step, try_except. intros H Hk.
  destruct (truthy (VStr text)); [|by injection H as <-].
  destruct (analyze (VStr text)); simpl in H; injection H as <-;
    by rewrite lookup_insert_ne.
Qed.

(** The stages of [process_single_item], named. *)
Lemma process_single_item_with_stages analyze E item item' :
  process_single_item_with analyze E item = Ok item' <->
  exists i1 i2 i3 i4 score,
    let stamped := <["processed_at" := VStr (now_isoformat E)]> item in
    let title := get i1 "title" (VStr "") in
    let description := get i1 "description" (VStr "") in
    engagement_step stamped = Ok i1 /\
    title_step title i1 = Ok i2 /\
    description_step description i2 = Ok i3 /\
    sentiment_step analyze (text_for_analysis title description) i3 = Ok i4 /\
    _calculate_trending_score E i4 = Ok score /\
    item' = <["trending_score" := VFloat score]> i4.
Proof.
  unfold process_single_item_with. split.
  - intros H. inv_bind H as i1 H1. inv_bind H as i2 H2. inv_bind H as i3 H3.
    inv_bind H as i4 H4. inv_bind H as score H5. injection H as <-.
    by exists i1, i2, i3, i4, score.
  - intros (i1 & i2 & i3 & i4 & score & H1 & H2 & H3 & H4 & H5 & ->).
    rewrite H1. simpl. rewrite H2. simpl. rewrite H3. simpl. rewrite H4. simpl.
    by rewrite H5.
Qed.

(** Keys the enrichment never writes keep their value. *)
Lemma process_single_item_with_other analyze E item item' k :
  process_single_item_with analyze E item = Ok item' ->
  k ∉ ["processed_at"; "engagement_rate"; "title_clean"; "hashtags";
       "description_clean"; "sentiment"; "trending_score"] ->
  item' !! k = item !! k.
Proof.
  intros H Hk. apply process_single_item_with_stages in H.
  destruct H as (i1 & i2 & i3 & i4 & score & H1 & H2 & H3 & H4 & H5 & ->).
  rewrite !not_elem_of_cons in Hk. destruct_and!.
  rewrite lookup_insert_ne by done.
  erewrite sentiment_step_other by done.
  erewrite description_step_other by done.
  erewrite title_step_other by done.
  erewrite engagement_step_other by done.
  by rewrite lookup_insert_ne.
Qed.

Lemma process_single_item_with_processed_at analyze E item item' :
  process_single_item_with analyze E item = Ok item' ->
  item' !! "processed_at" = Some (VStr (now_isoformat E)).
Proof.
  intros H. apply process_single_item_with_stages in H.
  destruct H as (i1 & i2 & i3 & i4 & score & H1 & H2 & H3 & H4 & H5 & ->).
  rewrite lookup_insert_ne by done.
  erewrite sentiment_step_other by done.
  erewrite description_step_other by done.
  erewrite title_step_other by done.
  erewrite engagement_step_other by done.
  by rewrite lookup_insert_eq.
Qed.

Lemma process_single_item_with_engagement_rate analyze E item item' :
  process_single_item_with analyze E item = Ok item' ->
  exists i1,
    engagement_step (<["processed_at" := VStr (now_isoformat E)]> item) = Ok i1 /\
    item' !! "engagement_rate" = i1 !! "engagement_rate".
Proof.
  intros H. apply process_single_item_with_stages in H.
  destruct H as (i1 & i2 & i3 & i4 & score & H1 & H2 & H3 & H4 & H5 & ->).
  exists i1. split; [done|].
  rewrite lookup_insert_ne by done.
  erewrite sentiment_step_other by done.
  erewrite description_step_other by done.
  by erewrite title_step_other.
Qed.

(** Hashtags that are present and truthy are kept as they are. *)
Lemma process_single_item_with_keeps_hashtags analyze E item item' :
  process_single_item_with analyze E item = Ok item' ->
  truthy (get item "hashtags" VNone) = true ->
  item' !! "hashtags" = item !! "hashtags".
Proof.
  intros H Hkept. apply process_single_item_with_stages in H.
  destruct H as (i1 & i2 & i3 & i4 & score & H1 & H2 & H3 & H4 & H5 & ->).
  rewrite lookup_insert_ne by done.
  erewrite sentiment_step_other by done.
  erewrite description_step_other by done.
  assert (i1 !! "hashtags" = item !! "hashtags") as Hi1.
  { erewrite engagement_step_other by done. by rewrite lookup_insert_ne. }
  rewrite <- Hi1. unfold title_step in H2.
  destruct (truthy (get i1 "title" _)); [|by injection H2 as <-].
  inv_bind H2 as cleaned Hc.
  unfold get in H2, Hkept. rewrite lookup_insert_ne, Hi1 in H2 by done.
  rewrite Hkept in H2. injection H2 as <-. by rewrite lookup_insert_ne.
Qed.

(** ** Lists of results *)

Lemma mapM_Ok_Forall2 {A B} (f : A -> result B) (l : list A) (k : list B) :
  mapM f l = Ok k <-> Forall2 (fun x y => f x = Ok y) l k.
Proof.
  revert k. induction l as [|x l IH]; intros k; simpl.
  - split.
    + intros [= <-]. constructor.
    + by inversion 1.
  - split.
    + intros H. inv_bind H as y Hy. inv_bind H as k' Hk'. injection H as <-.
      constructor; [done|]. by apply IH.
    + inversion 1 as [|? y ? k' Hy Hk']; subst.
      apply IH in Hk'. unfold mbind in *. simpl. rewrite Hy. simpl.
      by rewrite Hk'.
Qed.


Lemma mapM_returns {A B} (f : A -> result B) (l : list A) :
  Forall (fun x => returns (f x)) l -> returns (mapM f l).
Proof.
  induction 1 as [|x l [y Hy] _ [k Hk]]; simpl.
  - by eexists.
  - exists (y :: k). unfold mbind in *. simpl. rewrite Hy. simpl. by rewrite Hk.
Qed.

(** ** Dict access *)

Lemma get_insert_eq (m : gmap string value) k v d : get (<[k := v]> m) k d = v.
Proof. unfold get. by rewrite lookup_insert_eq. Qed.

Lemma get_insert_ne (m : gmap string value) k k' v d :
  k ≠ k' -> get (<[k := v]> m) k' d = get m k' d.
Proof. intros. unfold get. by rewrite lookup_insert_ne. Qed.

Lemma has_insert_ne (m : gmap string value) k k' v :
  k ≠ k' -> has (<[k := v]> m) k' = has m k'.
Proof. intros. unfold has. by rewrite lookup_insert_ne. Qed.

Lemma get_lookup_eq (m m' : gmap string value) k d :
  m' !! k = m !! k -> get m' k d = get m k d.
Proof. unfold get. by intros ->. Qed.

(** ** The sentiment analyser *)

Lemma analyze_sentiment_returns E text :
  exists sentiment,
    analyze_sentiment E text = Ok sentiment /\ sentiment_value_ok sentiment = true.
Proof.
  unfold analyze_sentiment, try_except.
  destruct (clean_text text) as [cleaned|]; simpl; [|by eexists].
  destruct (textblob_sentiment E cleaned) as [[p s]|]; simpl; by eexists.
Qed.




(** ** The enrichment returns on well-formed records *)

Lemma engagement_step_returns item :
  counts_ok item = true ->
  exists i1, engagement_step item = Ok i1 /\
             is_ok (as_num (get i1 "engagement_rate" (VInt 0))) = true.
Proof.
  unfold counts_ok, engagement_step.
  destruct (has item "view_count" && has item "like_count"); [|by eexists].
  destruct (as_num (or0 (get item "view_count" _))) as [v|]; [simpl|done].
  destruct (Qltb 0 v); simpl.
  - rewrite andb_true_iff. intros [Hl Hc].
    destruct (as_num (or0 (get item "like_count" _))) as [l|]; [simpl|done].
    destruct (as_num (or0 (get item "comment_count" _))) as [c|]; [simpl|done].
    eexists. split; [done|]. by rewrite get_insert_eq.
  - intros _. eexists. split; [done|]. by rewrite get_insert_eq.
Qed.

Lemma clean_text_returns v : text_field v = true -> returns (clean_text v).
Proof.
  unfold text_field, clean_text, returns.
  destruct (truthy v); simpl; [|by eexists].
  destruct v; try done. by eexists.
Qed.

(** The f-string of line 57 is reached only with a title and a description
    that are falsy or strings. *)
Lemma clean_text_accepts v : returns (clean_text v) -> text_field v = true.
Proof.
  unfold text_field, clean_text, returns.
  destruct (truthy v); simpl; [|done].
  destruct v; try done; by intros [s [=]].
Qed.

Lemma title_step_text_field title item item' :
  title_step title item = Ok item' -> text_field title = true.
Proof.
  unfold title_step. intros H. destruct (truthy title) eqn:Ht.
  - inv_bind H as cleaned Hc. apply clean_text_accepts. by exists cleaned.
  - unfold text_field. by rewrite Ht.
Qed.

Lemma description_step_text_field description item item' :
  description_step description item = Ok item' -> text_field description = true.
Proof.
  unfold description_step. intros H. destruct (truthy description) eqn:Hd.
  - inv_bind H as cleaned Hc. apply clean_text_accepts. by exists cleaned.
  - unfold text_field. by rewrite Hd.
Qed.

Lemma title_step_returns title item :
  text_field title = true -> hashtags_ok item = true ->
  exists i2, title_step title item = Ok i2 /\ hashtags_ok i2 = true.
Proof.
  unfold title_step. intros Ht Hh.
  destruct (truthy title) eqn:Htruthy; [|by eexists].
  destruct (clean_text_returns title Ht) as [cleaned ->]. simpl.
  assert (is_str title = true) as Hstr.
  { unfold text_field in Ht. by rewrite Htruthy in Ht. }
  destruct title as [| | |s| |]; try done. simpl.
  destruct (truthy (get (<["title_clean" := _]> item) "hashtags" VNone)) eqn:Hold; simpl.
  - eexists. split; [done|]. unfold hashtags_ok in *.
    by rewrite get_insert_ne.
  - eexists. split; [done|]. unfold hashtags_ok. rewrite get_insert_eq.
    simpl. apply orb_true_r.
Qed.

Lemma description_step_returns description item :
  text_field description = true -> returns (description_step description item).
Proof.
  unfold description_step. intros Hd.
  destruct (truthy description); [|by eexists].
  destruct (clean_text_returns description Hd) as [cleaned ->]. by eexists.
Qed.

Lemma process_single_item_returns E item :
  well_formed item = true -> returns (process_single_item E item).
Proof.
  unfold well_formed. rewrite !andb_true_iff.
  intros [[[[Ht Hd] Hc] Hh] Hs].
  set (stamped := <["processed_at" := VStr (now_isoformat E)]> item).
  assert (forall k d, k ≠ "processed_at" -> get stamped k d = get item k d) as Hget.
  { intros. by apply get_insert_ne. }
  assert (counts_ok stamped = true) as Hc'.
  { unfold counts_ok, stamped. rewrite !has_insert_ne by done.
    fold stamped. by rewrite !Hget. }
  destruct (engagement_step_returns stamped Hc') as (i1 & H1 & Hrate).
  assert (forall k d, k ≠ "processed_at" -> k ≠ "engagement_rate" ->
                      get i1 k d = get item k d) as Hget1.
  { intros. rewrite <- Hget by done. apply get_lookup_eq.
    by eapply engagement_step_other. }
  assert (hashtags_ok i1 = true) as Hh1.
  { unfold hashtags_ok. by rewrite Hget1. }
  rewrite <- (Hget1 "title" (VStr "")) in Ht, Hs by done.
  rewrite <- (Hget1 "description" (VStr "")) in Hd, Hs by done.
  destruct (title_step_returns _ i1 Ht Hh1) as (i2 & H2 & Hh2).
  destruct (description_step_returns _ i2 Hd) as [i3 H3].
  set (text := text_for_analysis _ _) in *.
  assert (exists i4, sentiment_step (analyze_sentiment E) text i3 = Ok i4 /\
                     sentiment_value_ok (get i4 "sentiment" (VDict ∅)) = true)
    as (i4 & H4 & Hs4).
  { unfold sentiment_step, try_except.
    destruct (truthy (VStr text)) eqn:Htext.
    - destruct (analyze_sentiment_returns E (VStr text)) as (s & -> & Hok). simpl.
      eexists. split; [done|]. by rewrite get_insert_eq.
    - eexists. split; [done|]. simpl in Hs.
      erewrite get_lookup_eq; [|by eapply description_step_other].
      erewrite get_lookup_eq; [|by eapply title_step_other].
      by rewrite Hget1. }
  assert (scorable i4 = true) as Hscore.
  { unfold scorable. rewrite !andb_true_iff. split; [split|].
    - erewrite get_lookup_eq; [|by eapply sentiment_step_other].
      erewrite get_lookup_eq; [|by eapply description_step_other].
      erewrite get_lookup_eq; [|by eapply title_step_other]. done.
    - erewrite get_lookup_eq; [|by eapply sentiment_step_other].
      erewrite get_lookup_eq; [|by eapply description_step_other]. done.
    - done. }
  apply (scorable_returns E) in Hscore as [score H5].
  exists (<["trending_score" := VFloat score]> i4).
  apply process_single_item_with_stages.
  by exists i1, i2, i3, i4, score.
Qed.

(** ** Substrings *)

Lemma append_nil_l (s : string) : "" ++ s = s.
Proof. reflexivity. Qed.

Lemma append_cons (a : ascii) (p s : string) : String a p ++ s = String a (p ++ s).
Proof. reflexivity. Qed.

Lemma starts_with_spec (p s : string) :
  starts_with p s = true <-> exists post, s = p ++ post.
Proof.
  unfold starts_with. revert s. induction p as [|a p IH]; intros s.
  - split; [intros _; by exists s | by destruct s].
  - destruct s as [|b s]; simpl.
    + split; [done | by intros [post [=]]].
    + destruct (ascii_dec a b) as [->|Hne].
      * rewrite IH. split; intros [post Hpost]; exists post.
        -- by rewrite append_cons, <- Hpost.
        -- rewrite append_cons in Hpost. by injection Hpost.
      * split; [done | intros [post Hpost]].
        rewrite append_cons in Hpost. by injection Hpost.
Qed.

Lemma contains_spec (needle s : string) :
  contains needle s = true <-> exists pre post, s = pre ++ needle ++ post.
Proof.
  induction s as [|c s IH].
  - change (contains needle "") with (starts_with needle "" || false).
    rewrite orb_true_iff, starts_with_spec. split.
    + intros [[post ->] | [=]]. by exists "", post.
    + intros (pre & post & H). left. destruct pre; [by exists post | done].
  - change (contains needle (String c s))
      with (starts_with needle (String c s) || contains needle s).
    rewrite orb_true_iff, starts_with_spec, IH. split.
    + intros [[post ->] | (pre & post & ->)].
      * by exists "", post.
      * by exists (String c pre), post.
    + intros (pre & post & H). destruct pre as [|c' pre].
      * left. by exists post.
      * right. rewrite append_cons in H. injection H as -> ->. by exists pre, post.
Qed.

Lemma keyword_boost_spec (hashtag : string) :
  (has_trending_keyword hashtag -> keyword_boost hashtag = 1.5) /\
  (~ has_trending_keyword hashtag -> keyword_boost hashtag = 1.0).
Proof.
  unfold keyword_boost, has_trending_keyword.
  destruct (existsb _ trending_keywords) eqn:Hany; split; try done.
  - intros Hnot. exfalso. apply Hnot.
    apply existsb_exists in Hany as (keyword & Hin & Hc).
    apply contains_spec in Hc as (pre & post & Hc).
    by exists keyword, pre, post.
  - intros (keyword & pre & post & Hin & Hc).
    assert (existsb (fun k => contains k (lower hashtag)) trending_keywords = true)
      as Hyes; [|congruence].
    apply existsb_exists. exists keyword. split; [done|].
    apply contains_spec. by exists pre, post.
Qed.

(** ** The hashtag trend score inside [analyze_trends] *)

Lemma hashtag_trend_score_formula (hashtag : value) count total score :
  total ≠ 0%nat ->
  _calculate_hashtag_trend_score hashtag count total = Ok score ->
  exists h, hashtag = VStr h /\
            score = py_round (py_min (frequency_score count total * keyword_boost h) 1.0) 3.
Proof.
  unfold _calculate_hashtag_trend_score. intros Htotal H.
  destruct (Nat.eqb_spec total 0) as [|_]; [done|].
  destruct hashtag as [| | |h| |]; try done.
  injection H as <-. by exists h.
Qed.

Lemma analyze_trends_entries E items ta :
  analyze_trends E items = Ok ta ->
  Forall (fun entry =>
            _calculate_hashtag_trend_score (entry_hashtag entry) (entry_count entry)
              (length items) = Ok (entry_trend_score entry))
         (trending_hashtags ta).
Proof.
  unfold analyze_trends. destruct items as [|item items].
  - intros [= <-]. constructor.
  - set (n := length (item :: items)). intros H.
    inv_bind H as t Ht. inv_bind H as stats Hstats. inv_bind H as entries He.
    injection H as <-. simpl.
    apply mapM_Ok_Forall2 in He.
    induction He as [|[tag count] entry top entries Hentry _ IH]; constructor; [|done].
    unfold make_entry in Hentry. inv_bind Hentry as score Hscore.
    by injection Hentry as <-.
Qed.

(** ** The recency factor and the rest of the score *)

Lemma engagement_factor_delete item score :
  engagement_factor (delete "published_date" item) score = engagement_factor item score.
Proof. unfold engagement_factor, get. by rewrite lookup_delete_ne. Qed.

Lemma hashtag_factor_delete item score :
  hashtag_factor (delete "published_date" item) score = hashtag_factor item score.
Proof. unfold hashtag_factor, get. by rewrite lookup_delete_ne. Qed.

Lemma sentiment_factor_delete item score :
  sentiment_factor (delete "published_date" item) score = sentiment_factor item score.
Proof. unfold sentiment_factor, get. by rewrite lookup_delete_ne. Qed.

Lemma recency_factor_delete E item score :
  recency_factor E (delete "published_date" item) score = Ok score.
Proof. unfold recency_factor, recency_body. by rewrite lookup_delete_eq. Qed.

Lemma accumulated_score_delete E item :
  accumulated_score E (delete "published_date" item) =
  (score ← engagement_factor item 0.0;
   score ← hashtag_factor item score;
   sentiment_factor item score).
Proof.
  unfold accumulated_score. rewrite engagement_factor_delete.
  destruct (engagement_factor item 0.0) as [s1|]; simpl; [|done].
  rewrite recency_factor_delete. simpl. rewrite hashtag_factor_delete.
  destruct (hashtag_factor item s1) as [s2|]; simpl; [|done].
  apply sentiment_factor_delete.
Qed.

Lemma accumulated_score_other_factors E item :
  accumulated_score E (delete "published_date" item) = other_factors item.
Proof. apply accumulated_score_delete. Qed.

Lemma hashtag_factor_shift item d s s' :
  s' == s + d -> shifted d (hashtag_factor item s) (hashtag_factor item s').
Proof.
  unfold hashtag_factor. intros Hs.
  destruct (truthy _); [|done].
  destruct (py_len _) as [n|]; simpl; [|done]. rewrite Hs. ring.
Qed.

Lemma sentiment_factor_shift item d s s' :
  s' == s + d -> shifted d (sentiment_factor item s) (sentiment_factor item s').
Proof.
  unfold sentiment_factor. intros Hs.
  destruct (truthy _); [|done].
  destruct (get item "sentiment" _) as [| | | | |dict]; try done.
  destruct (as_num _) as [p|]; simpl; [|done].
  destruct (Qltb 0 p); simpl; [|done]. rewrite Hs. ring.
Qed.

Lemma recency_unchanged_total E item :
  (forall score, recency_factor E item score = Ok score) ->
  accumulated_score E item = accumulated_score E (delete "published_date" item).
Proof.
  intros Hrec. rewrite accumulated_score_delete. unfold accumulated_score.
  destruct (engagement_factor item 0.0) as [s1|]; simpl; [|done].
  by rewrite Hrec.
Qed.

Lemma recency_bonus_total E item :
  (forall score, recency_factor E item score = Ok (score + 0.15)) ->
  shifted 0.15 (accumulated_score E (delete "published_date" item))
               (accumulated_score E item).
Proof.
  intros Hrec. rewrite accumulated_score_delete. unfold accumulated_score.
  destruct (engagement_factor item 0.0) as [s1|]; simpl; [|done].
  rewrite Hrec. simpl.
  pose proof (hashtag_factor_shift item 0.15 s1 (s1 + 0.15) ltac:(reflexivity)) as Hh.
  destruct (hashtag_factor item s1) as [s2|], (hashtag_factor item (s1 + 0.15)) as [s2'|];
    simpl in *; try done.
  by apply sentiment_factor_shift.
Qed.

Lemma recency_score_above_one (hours : Q) : hours < 0 -> 1 < recency_score hours.
Proof.
  intros Hh. unfold recency_score, Qminus.
  apply Qle_lt_trans with (1.0 + 0); [Qclosed|].
  apply Qplus_lt_r.
  apply Qopp_lt_compat in Hh.
  assert (- (hours / 24.0) == (- hours) / 24.0) as -> by (unfold Qdiv; ring).
  apply Qlt_shift_div_l; [Qclosed|]. by rewrite Qmult_0_l.
Qed.

Lemma hours_old_future E published :
  (now E < published)%Z -> hours_old E published < 0.
Proof.
  intros Hfuture. unfold hours_old.
  apply Qlt_shift_div_r; [Qclosed|]. rewrite Qmult_0_l.
  unfold Qlt. simpl. lia.
Qed.

Lemma recency_factor_future E item v published score :
  item !! "published_date" = Some v ->
  (replace_Z v ≫= fromisoformat E) = Ok published ->
  (now E < published)%Z ->
  1 < recency_score (hours_old E published) /\
  recency_factor E item score
  = Ok (score + recency_score (hours_old E published) * 0.3).
Proof.
  intros Hv Hparse Hfuture. apply hours_old_future in Hfuture.
  split; [by apply recency_score_above_one|].
  unfold recency_factor, recency_body. rewrite Hv.
  inv_bind Hparse as s Hs. rewrite Hs. simpl. rewrite Hparse. simpl.
  assert (Qltb (hours_old E published) 24 = true) as ->; [|done].
  apply Qltb_lt. eapply Qlt_trans; [exact Hfuture | Qclosed].
Qed.

(** ** A failing analyser inside the enrichment *)



(** * The properties of the specification *)

(** ** C1: items that already carry [processed_at] *)




(** ** C2: the sub-scores of the trending score *)

(** C2 on the code: the recency sub-score is not clamped.  For every
    published timestamp that parses and lies ahead of the clock, the recency
    sub-score [1.0 - hours_old / 24.0] is above 1 and enters the sum with its
    weight 0.3 as it is.  At a timestamp 24 hours ahead, [hours_old] is -24,
    the sub-score is 2 and 0.6 is added; only the final sum is capped.  (The
    engagement, hashtag and sentiment sub-scores are clamped to [0, 1]:
    [normalized_engagement_unit], [hashtag_score_unit],
    [sentiment_score_unit].) *)
Theorem C2_future_timestamp_recency_above_one :
  (forall E item v published score,
     item !! "published_date" = Some v ->
     (replace_Z v ≫= fromisoformat E) = Ok published ->
     (now E < published)%Z ->
     1 < recency_score (hours_old E published) /\
     recency_factor E item score
     = Ok (score + recency_score (hours_old E published) * 0.3)) /\
  exists published score,
    (replace_Z (VStr "2024-01-06T04:00:00Z") ≫= fromisoformat sample_env) = Ok published /\
    hours_old sample_env published == -24 /\
    recency_score (hours_old sample_env published) == 2 /\
    recency_factor sample_env future_item 0.0 = Ok score /\
    score == 0.6 /\
    _calculate_trending_score sample_env future_item = Ok 0.600.
Proof.
  split; [apply recency_factor_future|].
  eexists. eexists. split; [vm_compute; reflexivity|].
  split; [by vm_compute|]. split; [by vm_compute|].
  split; [vm_compute; reflexivity|]. split; by vm_compute.
Qed.

(** ** C3: the recency factor *)

(** C3: the recency factor (lines 86-98) in itself and in the score.  When
    the timestamp parses and is 24 hours old or older the factor returns the
    running score as it is, and the accumulated score (the score before the
    final cap and rounding) is what the engagement, hashtag and sentiment
    factors add up to; when the field is present and does not parse (not a
    string, or refused by [fromisoformat]) the factor adds exactly 0.15,
    with no weight, and the accumulated score is larger by exactly 0.15;
    when the field is absent the factor returns the running score as it is
    and nothing is added.  At the three sample records with engagement rate
    5.0 (the only other input) the trending score is 0.2 for the old
    timestamp, 0.35 for the unparseable one and 0.2 without the field. *)
Theorem C3_recency_asymmetry (E : Env) (item : gmap string value) :
  (forall v published,
     item !! "published_date" = Some v ->
     (replace_Z v ≫= fromisoformat E) = Ok published ->
     24 <= hours_old E published ->
     (forall score, recency_factor E item score = Ok score) /\
     accumulated_score E item = other_factors item) /\
  (forall v e,
     item !! "published_date" = Some v ->
     (replace_Z v ≫= fromisoformat E) = Raise e ->
     (forall score, recency_factor E item score = Ok (score + 0.15)) /\
     shifted 0.15 (other_factors item) (accumulated_score E item)) /\
  (item !! "published_date" = None ->
   (forall score, recency_factor E item score = Ok score) /\
   accumulated_score E item = other_factors item) /\
  (other_factors old_item = Ok (0.0 + normalized_engagement 5.0 * 0.4) /\
   other_factors undated_item = other_factors old_item /\
   _calculate_trending_score sample_env old_item = Ok 0.200 /\
   _calculate_trending_score sample_env undated_item = Ok 0.350 /\
   _calculate_trending_score sample_env (delete "published_date" old_item) = Ok 0.200).
Proof.
  split; [|split; [|split]].
  - intros v published Hv Hparse Hold.
    assert (forall score, recency_factor E item score = Ok score) as Hrec.
    { intros score. unfold recency_factor, recency_body. rewrite Hv.
      inv_bind Hparse as s Hs. rewrite Hs. simpl. rewrite Hparse. simpl.
      apply Qltb_ge in Hold. by rewrite Hold. }
    split; [done|]. rewrite <- (accumulated_score_other_factors E).
    by apply recency_unchanged_total.
  - intros v e Hv Hparse.
    assert (forall score, recency_factor E item score = Ok (score + 0.15)) as Hrec.
    { intros score. unfold recency_factor, recency_body. rewrite Hv.
      destruct (replace_Z v) as [s|]; simpl in *; [|done]. by rewrite Hparse. }
    split; [done|]. rewrite <- (accumulated_score_other_factors E).
    by apply recency_bonus_total.
  - intros Hv.
    assert (forall score, recency_factor E item score = Ok score) as Hrec.
    { intros score. unfold recency_factor, recency_body. by rewrite Hv. }
    split; [done|]. rewrite <- (accumulated_score_other_factors E).
    by apply recency_unchanged_total.
  - repeat (split; [vm_compute; reflexivity|]). vm_compute. reflexivity.
Qed.

Lemma C3_recency_asymmetry_witness :
  accumulated_score sample_env old_item = other_factors old_item /\
  shifted 0.15 (other_factors undated_item) (accumulated_score sample_env undated_item) /\
  accumulated_score sample_env scenario_item = other_factors scenario_item.
Proof.
  split; [|split].
  - apply (C3_recency_asymmetry sample_env old_item)
      with (v := VStr "2024-01-01T00:00:00") (published := 0%Z).
    + reflexivity.
    + reflexivity.
    + by vm_compute.
  - apply (C3_recency_asymmetry sample_env undated_item)
      with (v := VStr "yesterday") (e := ValueError).
    + reflexivity.
    + reflexivity.
  - apply (C3_recency_asymmetry sample_env scenario_item). reflexivity.
Defined.

(** ** C4: the range of the trending score *)

(** C4: on every record the scorer can read (numeric engagement rate,
    hashtags with a length, sentiment dict with a numeric polarity; any
    published timestamp), [_calculate_trending_score] returns a score that
    lies in [0, 1] and is a multiple of 0.001. *)
Theorem C4_trending_score_in_unit_interval (E : Env) (item : gmap string value) :
  scorable item = true ->
  exists score,
    _calculate_trending_score E item = Ok score /\
    0 <= score /\ score <= 1 /\ exists k : Z, score = k # 1000.
Proof.
  intros Hitem. apply (scorable_returns E) in Hitem as [score Hscore].
  exists score. split; [done|]. by eapply trending_score_unit.
Qed.

Lemma C4_trending_score_extreme_witness :
  scorable extreme_item = true /\
  exists score,
    _calculate_trending_score sample_env extreme_item = Ok score /\
    0 <= score /\ score <= 1 /\ exists k : Z, score = k # 1000.
Proof.
  split; [reflexivity|].
  apply (C4_trending_score_in_unit_interval sample_env extreme_item). reflexivity.
Defined.

(** ** C5: the engagement-rate calculator *)

(** C5 on the code: with an integer [views], a null like, comment or share
    count is read as 0, and the result is 0.0 for [views = 0] and
    [(likes + comments + shares) / views * 100] otherwise.  With a null
    [views] every call raises [TypeError]: [None == 0] is false and the
    division has no guard, unlike the three counts, which go through
    [or 0]. *)
Theorem C5_engagement_rate_null_views_raises :
  (forall (likes comments shares : option Z) (views : Z),
     calculate_engagement_rate (count_arg likes) (count_arg comments)
       (count_arg shares) (VInt views)
     = Ok (if (views =? 0)%Z then 0.0
           else (inject_Z (default 0%Z likes) + inject_Z (default 0%Z comments)
                 + inject_Z (default 0%Z shares)) / inject_Z views * 100)) /\
  (forall likes comments shares : value,
     calculate_engagement_rate likes comments shares VNone = Raise TypeError) /\
  calculate_engagement_rate (VInt 1) (VInt 1) (VInt 1) VNone = Raise TypeError.
Proof.
  split; [|split].
  - intros likes comments shares views. unfold calculate_engagement_rate. simpl.
    destruct (views =? 0)%Z; [done|].
    assert (forall n, as_num (or0 (count_arg n)) = Ok (inject_Z (default 0%Z n))) as Hcount.
    { intros [z|]; [|done]. unfold or0. simpl. by destruct (Z.eqb_spec z 0) as [->|]. }
    by rewrite !Hcount.
  - intros likes comments shares. unfold calculate_engagement_rate. simpl.
    destruct (as_num (or0 likes)) as [l|e] eqn:Hl; simpl;
      [|by rewrite (as_num_raises _ _ Hl)].
    destruct (as_num (or0 comments)) as [c|e] eqn:Hc; simpl;
      [|by rewrite (as_num_raises _ _ Hc)].
    by destruct (as_num (or0 shares)) as [s|e] eqn:Hs; simpl;
      [|rewrite (as_num_raises _ _ Hs)].
  - reflexivity.
Qed.

(** ** C6: hashtags that arrive as a JSON-encoded string *)

(** C6 at a record whose hashtags are the JSON text of the one-element list
    [viral] (nine characters).  The enrichment keeps the string as it is;
    the hashtag factor of the trending score takes its length 9, so the
    sub-score is 1 where the list gives 1/5; and the aggregation counts its
    characters, reporting the quote twice and each bracket and letter once,
    and never the hashtag [viral], which the list gives with count 1. *)
Theorem C6_json_hashtags_scored_by_character :
  String.length json_viral = 9%nat /\
  (forall E item',
     process_single_item E json_item = Ok item' ->
     item' !! "hashtags" = Some (VStr json_viral)) /\
  returns (process_single_item sample_env json_item) /\
  hashtag_factor json_item 0.0 = Ok (0.0 + hashtag_score 9 * 0.2) /\
  hashtag_factor list_item 0.0 = Ok (0.0 + hashtag_score 1 * 0.2) /\
  hashtag_score 9 == 1 /\ hashtag_score 1 == 0.2 /\
  (forall E, exists ta,
     analyze_trends E [json_item] = Ok ta /\
     map (fun entry => (entry_hashtag entry, entry_count entry)) (trending_hashtags ta)
     = [(VStr (String "034" ""), 2%Z); (VStr "[", 1%Z); (VStr "v", 1%Z);
        (VStr "i", 1%Z); (VStr "r", 1%Z); (VStr "a", 1%Z); (VStr "l", 1%Z);
        (VStr "]", 1%Z)]) /\
  (forall E, exists ta,
     analyze_trends E [list_item] = Ok ta /\
     map (fun entry => (entry_hashtag entry, entry_count entry)) (trending_hashtags ta)
     = [(VStr "viral", 1%Z)]).
Proof.
  split; [reflexivity|]. split.
  { intros E item' H.
    by rewrite (process_single_item_with_keeps_hashtags _ _ _ _ H). }
  split; [apply process_single_item_returns; by vm_compute|].
  split; [by vm_compute|]. split; [by vm_compute|].
  split; [by vm_compute|]. split; [by vm_compute|].
  split; intros E; eexists; (split; [vm_compute; reflexivity | by vm_compute]).
Qed.

(** ** C7: sentiment failures *)



(** ** C8: the empty batch *)

(** C8: [analyze_trends] on the empty batch returns the summary with an
    empty list of trending hashtags and three empty dicts, and no other
    key. *)
Theorem C8_analyze_trends_empty_batch (E : Env) :
  analyze_trends E [] =
  Ok {| trending_hashtags := [];
        platform_distribution := [];
        sentiment_analysis := None;
        engagement_stats := None;
        total_analyzed := None;
        analysis_timestamp := None |}.
Proof. reflexivity. Qed.

(** ** C9: the hashtag trend score *)

(** C9: for a batch that is not empty, the trend score of a hashtag is
    [min(count / total * keyword_boost, 1.0)] rounded to 3 decimals (a
    multiple of 0.001 at most 0.0005 away from it), where the boost is 1.5
    when one of the six keywords occurs in the lower-cased hashtag and 1.0
    otherwise; every entry [analyze_trends] reports carries that score for
    its own count and the size of the batch; and in the two-item scenario
    [viral] is reported first with count 2 and trend score 1.0, its
    frequency score being 1 and its boost 1.5. *)
Theorem C9_hashtag_trend_score :
  (forall hashtag count total,
     total ≠ 0%nat ->
     exists score,
       _calculate_hashtag_trend_score (VStr hashtag) count total = Ok score /\
       rounded_to 3 (py_min (frequency_score count total * keyword_boost hashtag) 1.0)
                  score) /\
  (forall hashtag,
     (has_trending_keyword hashtag -> keyword_boost hashtag = 1.5) /\
     (~ has_trending_keyword hashtag -> keyword_boost hashtag = 1.0)) /\
  (forall E items ta entry,
     analyze_trends E items = Ok ta ->
     In entry (trending_hashtags ta) ->
     exists hashtag,
       entry_hashtag entry = VStr hashtag /\
       rounded_to 3
         (py_min (frequency_score (entry_count entry) (length items)
                  * keyword_boost hashtag) 1.0)
         (entry_trend_score entry)) /\
  (forall E, exists ta,
     analyze_trends E scenario = Ok ta /\
     trending_hashtags ta =
     [ {| entry_hashtag := VStr "viral"; entry_count := 2; entry_trend_score := 1.000 |};
       {| entry_hashtag := VStr "news"; entry_count := 1; entry_trend_score := 0.750 |} ] /\
     frequency_score 2 (length scenario) == 1.0 /\
     keyword_boost "viral" = 1.5 /\
     py_min (frequency_score 2 (length scenario) * keyword_boost "viral") 1.0 = 1.0).
Proof.
  split; [|split; [|split]].
  - intros hashtag count total Htotal. unfold _calculate_hashtag_trend_score.
    destruct (Nat.eqb_spec total 0); [done|].
    eexists. split; [done|]. apply py_round_rounded.
  - apply keyword_boost_spec.
  - intros E items ta entry Hta Hentry.
    pose proof (analyze_trends_entries E items ta Hta) as Hall.
    rewrite List.Forall_forall in Hall. specialize (Hall entry Hentry).
    apply hashtag_trend_score_formula in Hall as (hashtag & Htag & ->).
    + exists hashtag. split; [done|]. apply py_round_rounded.
    + destruct items; [|done]. injection Hta as <-. by simpl in Hentry.
  - intros E. eexists. split; [vm_compute; reflexivity|].
    split; [by vm_compute|]. split; [by vm_compute|]. split; by vm_compute.
Qed.

Lemma C9_hashtag_trend_score_witness :
  (exists score,
     _calculate_hashtag_trend_score (VStr "new") 11 40 = Ok score /\
     rounded_to 3 (py_min (frequency_score 11 40 * keyword_boost "new") 1.0) score) /\
  keyword_boost "Breaking_News" = 1.5 /\
  keyword_boost "music" = 1.0.
Proof.
  pose proof C9_hashtag_trend_score as (Hformula & Hboost & _ & _).
  split; [|split].
  - apply (Hformula "new" 11%Z 40%nat). lia.
  - apply (Hboost "Breaking_News"). exists "breaking", "", "_news".
    split; [|reflexivity]. simpl. tauto.
  - reflexivity.
Defined.

(** ** C10: the engagement rate of the enrichment *)

(** C10: in the record [process_single_item] returns, ['engagement_rate'] is
    written only when the input has both ['view_count'] and ['like_count'].
    Then, with [views] the view count ([None] read as 0), it is
    [(likes + comments) / views * 100] rounded to 2 decimals (a multiple of
    0.01 at most 0.005 away from it) for [views > 0], from the like and
    comment counts alone, and 0.0 otherwise.  When either key is absent the
    field is left as the input has it: absent when it was absent. *)
Theorem C10_engagement_rate_of_enrichment (E : Env) (item item' : gmap string value) :
  process_single_item E item = Ok item' ->
  (has item "view_count" = true -> has item "like_count" = true ->
   exists views,
     as_num (or0 (get item "view_count" (VInt 0))) = Ok views /\
     (0 < views ->
      exists likes comments rate,
        as_num (or0 (get item "like_count" (VInt 0))) = Ok likes /\
        as_num (or0 (get item "comment_count" (VInt 0))) = Ok comments /\
        item' !! "engagement_rate" = Some (VFloat rate) /\
        rounded_to 2 ((likes + comments) / views * 100) rate) /\
     (views <= 0 -> item' !! "engagement_rate" = Some (VFloat 0.0))) /\
  (has item "view_count" = false \/ has item "like_count" = false ->
   item' !! "engagement_rate" = item !! "engagement_rate" /\
   (item !! "engagement_rate" = None -> item' !! "engagement_rate" = None)).
Proof.
  intros H. apply process_single_item_with_engagement_rate in H as (i1 & H1 & ->).
  unfold engagement_step in H1.
  rewrite !has_insert_ne, !get_insert_ne in H1 by done.
  split.
  - intros Hv Hl. rewrite Hv, Hl in H1. simpl in H1.
    inv_bind H1 as views Hviews. exists views. split; [done|].
    destruct (Qltb 0 views) eqn:Hpos.
    + inv_bind H1 as likes Hlikes. inv_bind H1 as comments Hcomments.
      injection H1 as <-. split.
      * intros _. exists likes, comments. eexists.
        rewrite lookup_insert_eq. split; [done|]. split; [done|]. split; [done|].
        apply py_round_rounded.
      * intros Hle. apply Qltb_lt in Hpos. by apply Qlt_not_le in Hpos.
    + injection H1 as <-. split.
      * intros Hlt. apply Qltb_ge in Hpos. by apply Qlt_not_le in Hlt.
      * intros _. by rewrite lookup_insert_eq.
  - intros Habsent.
    assert (has item "view_count" && has item "like_count" = false) as Hboth.
    { destruct Habsent as [-> | ->]; [done | apply andb_false_r]. }
    rewrite Hboth in H1. injection H1 as <-.
    rewrite lookup_insert_ne by done. split; [done|]. by intros ->.
Qed.

Lemma C10_engagement_rate_witness :
  (exists item' rate,
     process_single_item sample_env viral_clip = Ok item' /\
     item' !! "engagement_rate" = Some (VFloat rate) /\
     rounded_to 2 ((100 + 20) / 1000 * 100) rate) /\
  (exists item',
     process_single_item sample_env crash_post = Ok item' /\
     item' !! "engagement_rate" = None).
Proof.
  split.
  - destruct (process_single_item_returns sample_env viral_clip) as [item' H];
      [by vm_compute|].
    destruct (C10_engagement_rate_of_enrichment sample_env viral_clip item' H)
      as [Hboth _].
    destruct (Hboth eq_refl eq_refl) as (views & Hviews & Hpos & _).
    vm_compute in Hviews. injection Hviews as <-.
    destruct Hpos as (likes & comments & rate & Hlikes & Hcomments & Hrate & Hround);
      [by vm_compute|].
    vm_compute in Hlikes, Hcomments. injection Hlikes as <-. injection Hcomments as <-.
    exists item', rate. split; [exact H|]. split; [exact Hrate | exact Hround].
  - destruct (process_single_item_returns sample_env crash_post) as [item' H];
      [by vm_compute|].
    exists item'. split; [done|].
    destruct (C10_engagement_rate_of_enrichment sample_env crash_post item' H)
      as [_ Habsent].
    apply Habsent; [left|]; by vm_compute.
Defined.

(** * Further properties of the code *)

(** ** Text helpers *)

Ltac each_ascii c := destruct c as [[] [] [] [] [] [] [] []]; reflexivity.

Lemma lower_char_not_upper (c : ascii) : is_upper (lower_char c) = false.
Proof. each_ascii c. Qed.

Lemma lower_char_word (c : ascii) : is_word (lower_char c) = is_word c.
Proof. each_ascii c. Qed.

Lemma word_not_space (c : ascii) : is_word c = true -> is_space c = false.
Proof. destruct c as [[] [] [] [] [] [] [] []]; (reflexivity || discriminate). Qed.

Lemma lower_append (a b : string) : lower (a ++ b) = lower a ++ lower b.
Proof.
  induction a as [|c a IH]; [done|].
  rewrite append_cons. simpl. by rewrite IH, append_cons.
Qed.

Lemma string_forall_lower_not_upper (s : string) :
  string_forall (fun c => negb (is_upper c)) (lower s) = true.
Proof.
  induction s as [|c s IH]; [done|]. simpl. by rewrite lower_char_not_upper, IH.
Qed.

Lemma string_forall_lower_word (s : string) :
  string_forall is_word (lower s) = string_forall is_word s.
Proof.
  induction s as [|c s IH]; [done|]. simpl. by rewrite lower_char_word, IH.
Qed.

Lemma string_forall_and (p q : ascii -> bool) (s : string) :
  string_forall (fun c => p c && q c) s = string_forall p s && string_forall q s.
Proof.
  induction s as [|c s IH]; [done|]. simpl. rewrite IH.
  destruct (p c), (q c), (string_forall p s), (string_forall q s); done.
Qed.

Lemma string_forall_span_prefix (p : ascii -> bool) (s : string) :
  string_forall p (span_prefix p s) = true.
Proof.
  induction s as [|c s IH]; [done|]. simpl.
  destruct (p c) eqn:Hc; [|done]. simpl. by rewrite Hc.
Qed.

Lemma string_forall_span_prefix_of (p q : ascii -> bool) (s : string) :
  string_forall q s = true -> string_forall q (span_prefix p s) = true.
Proof.
  induction s as [|c s IH]; [done|]. simpl.
  intros [Hc Hs]%andb_true_iff. destruct (p c); [|done]. simpl.
  by rewrite Hc, IH.
Qed.

Lemma span_prefix_all (p : ascii -> bool) (w rest : string) :
  string_forall p w = true ->
  match rest with
  | EmptyString => true
  | String c _ => negb (p c)
  end = true ->
  span_prefix p (w ++ rest) = w.
Proof.
  intros Hw Hrest. induction w as [|c w IH].
  - rewrite append_nil_l. destruct rest as [|c rest]; [done|]. simpl.
    by apply negb_true_iff in Hrest as ->.
  - rewrite append_cons. simpl in *. apply andb_true_iff in Hw as [-> Hw].
    by rewrite IH.
Qed.

Lemma findall_marked_skip (mark : ascii) (a b : string) :
  findall_marked mark (String.length a) (a ++ b) = findall_marked mark 0 b.
Proof.
  induction a as [|c a IH]; [done|]. by rewrite append_cons.
Qed.

Lemma findall_marked_tokens (mark : ascii) (q : ascii -> bool) (s : string) (skip : nat) :
  string_forall q s = true ->
  Forall (fun w => is_token w = true /\ string_forall q w = true)
         (findall_marked mark skip s).
Proof.
  revert skip. induction s as [|c s IH]; intros skip Hs; [constructor|].
  simpl in Hs. apply andb_true_iff in Hs as [Hc Hs]. simpl.
  destruct skip as [|k]; [|by apply IH].
  destruct (Ascii.eqb c mark); [|by apply IH].
  pose proof (string_forall_span_prefix is_word s) as Hword.
  pose proof (string_forall_span_prefix_of is_word q s Hs) as Hq.
  destruct (span_prefix is_word s) as [|d w] eqn:Hspan; [by apply IH|].
  constructor; [|by apply IH].
  split; [|done]. unfold is_token. by rewrite Hword.
Qed.

Lemma findall_marked_none (mark : ascii) (s : string) (skip : nat) :
  string_forall (fun c => negb (Ascii.eqb c mark)) s = true ->
  findall_marked mark skip s = [].
Proof.
  revert skip. induction s as [|c s IH]; intros skip Hs; [done|].
  simpl in Hs. apply andb_true_iff in Hs as [Hc Hs]. simpl.
  destruct skip as [|k]; [|by apply IH].
  apply negb_true_iff in Hc as ->. by apply IH.
Qed.

Lemma findall_marked_leading (mark : ascii) (w rest : string) :
  is_token w = true -> ends_word rest = true ->
  findall_marked mark 0 (String mark (w ++ rest))
  = w :: findall_marked mark 0 rest.
Proof.
  unfold is_token, ends_word. intros [Hne Hw]%andb_true_iff Hrest. simpl.
  rewrite Ascii.eqb_refl, (span_prefix_all is_word w rest Hw Hrest).
  destruct w as [|c w]; [done|]. apply f_equal, findall_marked_skip.
Qed.

Lemma ends_word_lower (s : string) : ends_word (lower s) = ends_word s.
Proof. destruct s as [|c s]; [done|]. simpl. by rewrite lower_char_word. Qed.

Lemma is_token_lower (w : string) : is_token (lower w) = is_token w.
Proof.
  unfold is_token. rewrite string_forall_lower_word. by destruct w.
Qed.

(** X1: for every ASCII text, every hashtag [extract_hashtags] returns, and
    every mention [extract_mentions] returns, is a non-empty run of word
    characters without an upper-case letter (and so without the leading
    mark). *)
Theorem X1_extracted_tags_are_lower_case_tokens (text : string) :
  ascii_text text = true ->
  Forall (fun tag => is_lower_token tag = true) (extract_hashtags text) /\
  Forall (fun tag => is_lower_token tag = true) (extract_mentions text).
Proof.
  intros _.
  assert (forall mark,
    Forall (fun tag => is_lower_token tag = true)
           (findall_marked mark 0 (lower text))) as Hall.
  { intros mark.
    eapply Forall_impl;
      [apply (findall_marked_tokens mark (fun c => negb (is_upper c)));
       apply string_forall_lower_not_upper|].
    intros tag [[Hne Hw]%andb_true_iff Hlow].
    unfold is_lower_token. by rewrite Hne, string_forall_and, Hw, Hlow. }
  split; apply Hall.
Qed.

Lemma X1_extracted_tags_witness :
  Forall (fun tag => is_lower_token tag = true)
         (extract_hashtags "Great #Viral clip by @Bob_1 #NEW") /\
  Forall (fun tag => is_lower_token tag = true)
         (extract_mentions "Great #Viral clip by @Bob_1 #NEW").
Proof.
  apply (X1_extracted_tags_are_lower_case_tokens "Great #Viral clip by @Bob_1 #NEW").
  reflexivity.
Defined.

(** X2: an ASCII text without the character # has no hashtags; and an ASCII
    text that starts with # followed by a non-empty run of word characters
    [w], after which the text ends or goes on with a character that is not a
    word character, yields [w] in lower case followed by the hashtags of the
    rest. *)
Theorem X2_extract_hashtags_finds_leading_tag :
  (forall text,
     ascii_text text = true ->
     string_forall (fun c => negb (Ascii.eqb c "#")) text = true ->
     extract_hashtags text = []) /\
  (forall w rest,
     ascii_text (w ++ rest) = true ->
     is_token w = true -> ends_word rest = true ->
     extract_hashtags (String "#" (w ++ rest)) = lower w :: extract_hashtags rest).
Proof.
  split.
  - intros text _ Hnone. apply findall_marked_none.
    induction text as [|c text IH]; [done|]. simpl in *.
    apply andb_true_iff in Hnone as [Hc Hrest]. rewrite IH by done.
    rewrite andb_true_r. revert Hc. by destruct c as [[] [] [] [] [] [] [] []].
  - intros w rest _ Hw Hrest. unfold extract_hashtags.
    change (lower (String "#" (w ++ rest))) with (String "#" (lower (w ++ rest))).
    rewrite lower_append. apply findall_marked_leading.
    + by rewrite is_token_lower.
    + by rewrite ends_word_lower.
Qed.

Lemma X2_extract_hashtags_witness :
  extract_hashtags "no tags here" = [] /\
  extract_hashtags "#Viral_2024! and #more" = "viral_2024" :: extract_hashtags "! and #more".
Proof.
  destruct X2_extract_hashtags_finds_leading_tag as [Hnone Hlead].
  split.
  - apply Hnone; reflexivity.
  - apply (Hlead "Viral_2024" "! and #more"); reflexivity.
Defined.

Lemma string_forall_of_list (p : ascii -> bool) (l : list ascii) :
  string_forall p (string_of_list_ascii l) = forallb p l.
Proof. induction l as [|c l IH]; [done|]. simpl. by rewrite IH. Qed.

Lemma forallb_rev {A} (p : A -> bool) (l : list A) : forallb p (rev l) = forallb p l.
Proof.
  induction l as [|x l IH]; [done|]. simpl.
  rewrite forallb_app, IH. simpl. rewrite andb_true_r. apply andb_comm.
Qed.

Lemma blank_specials_chars (s : string) :
  string_forall (fun c => is_word c || is_space c) (blank_specials s) = true.
Proof.
  induction s as [|c s IH]; [done|]. simpl. rewrite IH, andb_true_r.
  by destruct (is_word c || is_space c) eqn:Hc.
Qed.

Lemma split_ws_tokens (cur : list ascii) (s : string) :
  string_forall (fun c => is_word c || is_space c) s = true ->
  forallb is_word cur = true ->
  Forall (fun w => is_token w = true) (split_ws cur s).
Proof.
  revert cur. induction s as [|c s IH]; intros cur Hs Hcur.
  - simpl. destruct cur as [|d cur]; constructor; [|constructor].
    unfold is_token. rewrite string_forall_of_list, forallb_rev, Hcur, andb_true_r.
    by destruct (rev (d :: cur)) eqn:Hrev;
      [apply (f_equal length) in Hrev; rewrite length_rev in Hrev|].
  - simpl in Hs. apply andb_true_iff in Hs as [Hc Hs]. simpl.
    destruct (is_space c) eqn:Hspace.
    + destruct cur as [|d cur]; [by apply IH|].
      constructor; [|by apply IH].
      unfold is_token. rewrite string_forall_of_list, forallb_rev, Hcur, andb_true_r.
      by destruct (rev (d :: cur)) eqn:Hrev;
        [apply (f_equal length) in Hrev; rewrite length_rev in Hrev|].
    + apply IH; [done|]. simpl. rewrite orb_false_r in Hc. by rewrite Hc.
Qed.

Lemma rstrip_last_nonspace (s : string) : last_nonspace s = true -> rstrip s = s.
Proof.
  induction s as [|c s IH]; [done|]. intros Hlast.
  destruct s as [|d s].
  - simpl in *. by apply negb_true_iff in Hlast as ->.
  - change (last_nonspace (String c (String d s))) with (last_nonspace (String d s))
      in Hlast.
    change (rstrip (String c (String d s)))
      with (match rstrip (String d s) with
            | EmptyString => if is_space c then EmptyString else String c EmptyString
            | r => String c r
            end).
    by rewrite IH.
Qed.

Lemma last_nonspace_append (a b : string) :
  b ≠ "" -> last_nonspace (a ++ b) = last_nonspace b.
Proof.
  intros Hb. induction a as [|c a IH]; [done|].
  rewrite append_cons.
  destruct (a ++ b) as [|d r] eqn:Hab.
  - destruct a; [by rewrite append_nil_l in Hab | by rewrite append_cons in Hab].
  - done.
Qed.

Lemma last_nonspace_token (w : string) : is_token w = true -> last_nonspace w = true.
Proof.
  unfold is_token. intros [_ Hw]%andb_true_iff.
  induction w as [|c w IH]; [done|]. simpl in Hw.
  apply andb_true_iff in Hw as [Hc Hw]. destruct w as [|d w].
  - simpl. by rewrite (word_not_space c Hc).
  - by apply IH.
Qed.

Lemma join_tokens_nonempty (w : string) (l : list string) :
  is_token w = true -> join " " (w :: l) ≠ "".
Proof.
  unfold is_token. intros [Hne _]%andb_true_iff.
  destruct w as [|c w]; [done|]. by destruct l.
Qed.

Lemma join_tokens_last_nonspace (l : list string) :
  Forall (fun w => is_token w = true) l -> last_nonspace (join " " l) = true.
Proof.
  induction 1 as [|w l Hw Hl IH]; [done|].
  destruct l as [|w' l]; [by apply last_nonspace_token|].
  change (join " " (w :: w' :: l)) with (w ++ " " ++ join " " (w' :: l)).
  inversion Hl as [|? ? Hw' _]; subst.
  pose proof (join_tokens_nonempty w' l Hw') as Hne.
  rewrite last_nonspace_append.
  - by rewrite last_nonspace_append.
  - by destruct (join " " (w' :: l)).
Qed.

Lemma lstrip_join_tokens (l : list string) :
  Forall (fun w => is_token w = true) l -> lstrip (join " " l) = join " " l.
Proof.
  destruct 1 as [|w l Hw Hl]; [done|].
  unfold is_token in Hw. apply andb_true_iff in Hw as [Hne Hw].
  destruct w as [|c w]; [done|]. simpl in Hw. apply andb_true_iff in Hw as [Hc _].
  destruct l as [|w' l]; simpl; by rewrite (word_not_space c Hc).
Qed.

Lemma strip_join_tokens (l : list string) :
  Forall (fun w => is_token w = true) l -> strip (join " " l) = join " " l.
Proof.
  intros Hl. unfold strip. rewrite lstrip_join_tokens by done.
  by apply rstrip_last_nonspace, join_tokens_last_nonspace.
Qed.

(** X3: the text [clean_text] returns for an ASCII string is a sequence of
    non-empty runs of word characters joined by single spaces: it has no
    punctuation, no white space other than the space, no space at either
    end and no two spaces in a row. *)
Theorem X3_clean_text_is_words_joined_by_spaces (text : string) :
  ascii_text text = true ->
  exists words,
    clean_text (VStr text) = Ok (join " " words) /\
    Forall (fun w => is_token w = true) words.
Proof.
  intros _.
  unfold clean_text. simpl. destruct (String.eqb text "") eqn:Hempty; simpl.
  - by exists [].
  - set (t := blank_specials (remove_urls 0 text)).
    assert (Forall (fun w => is_token w = true) (split_ws [] t)) as Hwords.
    { apply split_ws_tokens; [apply blank_specials_chars | done]. }
    exists (split_ws [] t). split; [|done]. by rewrite strip_join_tokens.
Qed.

Lemma X3_clean_text_witness :
  exists words,
    clean_text (VStr "  Check http://x.co  now, #Viral!  ") = Ok (join " " words) /\
    Forall (fun w => is_token w = true) words.
Proof.
  apply (X3_clean_text_is_words_joined_by_spaces "  Check http://x.co  now, #Viral!  ").
  reflexivity.
Defined.

(** ** The trending score of helpers.py *)

Lemma Qltb_spec (a b : Q) : if Qltb a b then a < b else b <= a.
Proof.
  destruct (Qltb a b) eqn:H; [by apply Qltb_lt | by apply Qltb_ge].
Qed.

Lemma py_max_ge_l (a b : Q) : a <= py_max a b.
Proof. unfold py_max. pose proof (Qltb_spec a b). destruct (Qltb a b); lra. Qed.

Lemma py_max_ge_r (a b : Q) : b <= py_max a b.
Proof. unfold py_max. pose proof (Qltb_spec a b). destruct (Qltb a b); lra. Qed.

(** X4: [calculate_trending_score] of helpers.py always lies in [0, 1].  An
    engagement rate of 2.5 or more with a non-negative growth rate gives
    exactly 1.0, whatever the recency; non-positive engagement and growth
    with a recency of 168 hours or more give exactly 0.0; and beyond 168
    hours the recency no longer changes the score. *)
Theorem X4_helper_trending_score_clamped :
  (forall engagement_rate growth_rate recency_hours,
     0 <= calculate_trending_score engagement_rate growth_rate recency_hours /\
     calculate_trending_score engagement_rate growth_rate recency_hours <= 1) /\
  (forall engagement_rate growth_rate recency_hours,
     2.5 <= engagement_rate -> 0 <= growth_rate ->
     calculate_trending_score engagement_rate growth_rate recency_hours = 1.0) /\
  (forall engagement_rate growth_rate recency_hours,
     engagement_rate <= 0 -> growth_rate <= 0 -> 168 <= recency_hours ->
     calculate_trending_score engagement_rate growth_rate recency_hours = 0.0) /\
  (forall engagement_rate growth_rate recency_hours,
     168 <= recency_hours ->
     calculate_trending_score engagement_rate growth_rate recency_hours
     = calculate_trending_score engagement_rate growth_rate 168).
Proof.
  assert (forall h, 168 <= h -> py_max 0 (1 - h / 168) = 0) as Hold.
  { intros h Hh. unfold py_max.
    pose proof (Qltb_spec 0 (1 - h / 168)) as Hcmp.
    destruct (Qltb 0 (1 - h / 168)); [|done].
    exfalso. assert (1 <= h / 168) as Hge; [|lra].
    apply Qle_shift_div_l; lra. }
  split; [|split; [|split]].
  - intros e g h. unfold calculate_trending_score. cbv zeta.
    set (ts := e * 0.4 + g * 0.4 + py_max 0 (1 - h / 168) * 0.2).
    pose proof (py_max_ge_l 0.0 ts). pose proof (py_min_le_l 1.0 (py_max 0.0 ts)).
    split; [|lra]. apply py_min_glb; lra.
  - intros e g h He Hg. unfold calculate_trending_score. cbv zeta.
    pose proof (py_max_ge_l 0 (1 - h / 168)) as Hrec.
    set (rs := py_max 0 (1 - h / 168)) in *.
    set (ts := e * 0.4 + g * 0.4 + rs * 0.2).
    assert (1 <= ts) as Hts by (unfold ts; lra).
    pose proof (py_max_ge_r 0.0 ts) as Hmax.
    unfold py_min. pose proof (Qltb_spec (py_max 0.0 ts) 1.0) as Hcmp.
    destruct (Qltb (py_max 0.0 ts) 1.0); [lra | done].
  - intros e g h He Hg Hh. unfold calculate_trending_score. cbv zeta.
    rewrite (Hold h Hh).
    set (ts := e * 0.4 + g * 0.4 + 0 * 0.2).
    assert (ts <= 0) as Hts by (unfold ts; lra).
    assert (py_max 0.0 ts = 0.0) as ->.
    { unfold py_max. pose proof (Qltb_spec 0.0 ts). destruct (Qltb 0.0 ts); [lra | done]. }
    done.
  - intros e g h Hh. unfold calculate_trending_score. cbv zeta.
    rewrite (Hold h Hh), (Hold 168); [done | lra].
Qed.

Lemma X4_helper_trending_score_witness :
  calculate_trending_score 12.0 0.2 500 = 1.0 /\
  calculate_trending_score 0 0 200 = 0.0 /\
  calculate_trending_score 1.0 0.5 1000 = calculate_trending_score 1.0 0.5 168.
Proof.
  destruct X4_helper_trending_score_clamped as (_ & Hhigh & Hlow & Hold).
  split; [|split].
  - apply Hhigh; by vm_compute.
  - apply Hlow; by vm_compute.
  - apply Hold. by vm_compute.
Defined.

(** ** Sorting and selecting *)

Lemma insert_desc_perm {A} (key : A -> Q) (x : A) (l : list A) :
  Permutation (insert_desc key x l) (x :: l).
Proof.
  induction l as [|y l IH]; simpl; [done|].
  destruct (Qltb (key x) (key y)); [|done].
  rewrite IH. apply perm_swap.
Qed.

Lemma sorted_desc_perm {A} (key : A -> Q) (l : list A) :
  Permutation (sorted_desc key l) l.
Proof.
  induction l as [|x l IH]; simpl; [done|].
  rewrite insert_desc_perm. by constructor.
Qed.

Lemma insert_desc_sorted {A} (key : A -> Q) (x : A) (l : list A) :
  StronglySorted (fun a b => key b <= key a) l ->
  StronglySorted (fun a b => key b <= key a) (insert_desc key x l).
Proof.
  induction 1 as [|y l Hl IH Hy]; simpl.
  - repeat constructor.
  - pose proof (Qltb_spec (key x) (key y)) as Hcmp.
    destruct (Qltb (key x) (key y)).
    + constructor; [done|].
      rewrite List.Forall_forall. intros z Hz.
      apply (Permutation_in _ (insert_desc_perm key x l)) in Hz as [<- | Hz].
      * lra.
      * rewrite List.Forall_forall in Hy. by apply Hy.
    + constructor; [by constructor|]. constructor; [done|].
      eapply Forall_impl; [exact Hy|]. simpl. intros z Hz. lra.
Qed.

Lemma sorted_desc_sorted {A} (key : A -> Q) (l : list A) :
  StronglySorted (fun a b => key b <= key a) (sorted_desc key l).
Proof.
  induction l as [|x l IH]; simpl; [constructor | by apply insert_desc_sorted].
Qed.

Lemma insert_desc_stable {A} (key : A -> Q) (k : Q) (x : A) (l : list A) :
  List.filter (fun a => Qeq_bool (key a) k) (insert_desc key x l)
  = List.filter (fun a => Qeq_bool (key a) k) (x :: l).
Proof.
  induction l as [|y l IH]; [done|]. simpl in *.
  pose proof (Qltb_spec (key x) (key y)) as Hcmp.
  destruct (Qltb (key x) (key y)); [|done]. simpl. rewrite IH.
  destruct (Qeq_bool (key x) k) eqn:Hx, (Qeq_bool (key y) k) eqn:Hy; try done.
  apply Qeq_bool_iff in Hx, Hy. lra.
Qed.

Lemma sorted_desc_stable {A} (key : A -> Q) (k : Q) (l : list A) :
  List.filter (fun a => Qeq_bool (key a) k) (sorted_desc key l)
  = List.filter (fun a => Qeq_bool (key a) k) l.
Proof.
  induction l as [|x l IH]; [done|]. simpl.
  rewrite insert_desc_stable. simpl. by rewrite IH.
Qed.

Lemma sorted_desc_keyed {A} (key : A -> Q) (l : list A) :
  sorted_desc fst (map (fun x => (key x, x)) l)
  = map (fun x => (key x, x)) (sorted_desc key l).
Proof.
  induction l as [|x l IH]; [done|]. simpl. rewrite IH.
  generalize (sorted_desc key l). intros s.
  induction s as [|y s IHs]; [done|]. simpl.
  destruct (Qltb (key x) (key y)); [|done]. simpl. by rewrite IHs.
Qed.

Lemma keyed_items (items : list (gmap string value)) :
  Forall (fun item => is_ok (as_num (get item "trending_score" (VInt 0))) = true) items ->
  mapM (fun x => k ← as_num (get x "trending_score" (VInt 0)); Ok (k, x)) items
  = Ok (map (fun x => (trending_key x, x)) items).
Proof.
  induction 1 as [|item items Hitem _ IH]; [done|].
  simpl. unfold mbind in *. simpl. rewrite IH. unfold trending_key.
  by destruct (as_num (get item "trending_score" (VInt 0))).
Qed.

Lemma snd_keyed {A} (key : A -> Q) (l : list A) :
  snd <$> map (fun x => (key x, x)) l = l.
Proof. induction l as [|x l IH]; [done|]. cbn. by f_equal. Qed.

Lemma get_top_trending_content_sorted items limit :
  Forall (fun item => is_ok (as_num (get item "trending_score" (VInt 0))) = true) items ->
  get_top_trending_content items limit
  = Ok (take limit (sorted_desc trending_key items)).
Proof.
  intros Hitems. unfold get_top_trending_content.
  destruct items as [|a [|b items]]; [done | done |].
  set (l := a :: b :: items) in *.
  rewrite (keyed_items l Hitems). unfold mbind, result_bind.
  by rewrite sorted_desc_keyed, snd_keyed.
Qed.

(** X5: when every item's trending score is a number (or absent, read as
    0), [get_top_trending_content] returns the first [limit] items of a
    rearrangement of the batch that is in non-increasing order of score and
    keeps items of equal score in their input order; it returns
    [min(limit, len(items))] items. *)
Theorem X5_top_trending_is_stable_descending_prefix
  (items : list (gmap string value)) (limit : nat) :
  Forall (fun item => is_ok (as_num (get item "trending_score" (VInt 0))) = true) items ->
  exists ranked,
    get_top_trending_content items limit = Ok (take limit ranked) /\
    Permutation ranked items /\
    StronglySorted (fun a b => trending_key b <= trending_key a) ranked /\
    (forall score,
       List.filter (fun item => Qeq_bool (trending_key item) score) ranked
       = List.filter (fun item => Qeq_bool (trending_key item) score) items) /\
    length (take limit ranked) = Nat.min limit (length items).
Proof.
  intros Hitems. exists (sorted_desc trending_key items).
  split; [by apply get_top_trending_content_sorted|].
  split; [apply sorted_desc_perm|].
  split; [apply sorted_desc_sorted|].
  split; [intros score; apply sorted_desc_stable|].
  rewrite length_take. by rewrite (Permutation_length (sorted_desc_perm trending_key items)).
Qed.

Lemma X5_top_trending_witness :
  exists ranked,
    get_top_trending_content
      [scored "a" 0.2; scored "b" 0.9; scored "c" 0.2; scored "d" 0.5] 3
    = Ok (take 3 ranked) /\
    take 3 ranked = [scored "b" 0.9; scored "d" 0.5; scored "a" 0.2].
Proof.
  destruct (X5_top_trending_is_stable_descending_prefix
              [scored "a" 0.2; scored "b" 0.9; scored "c" 0.2; scored "d" 0.5] 3)
    as (ranked & Htop & _).
  { repeat constructor. }
  exists ranked. split; [done|].
  assert (get_top_trending_content
            [scored "a" 0.2; scored "b" 0.9; scored "c" 0.2; scored "d" 0.5] 3
          = Ok [scored "b" 0.9; scored "d" 0.5; scored "a" 0.2]) as Hval
    by (vm_compute; reflexivity).
  rewrite Htop in Hval. by injection Hval.
Defined.

(** ** The aggregation *)

Lemma foldl_add_shift (a : Z) (l : list Z) :
  foldl Z.add a l = (a + foldl Z.add 0 l)%Z.
Proof.
  revert a. induction l as [|x l IH]; intros a; simpl; [lia|].
  rewrite (IH (a + x)%Z), (IH (0 + x)%Z). lia.
Qed.

Lemma counter_total_cons (k : value) (n : Z) (c : counter) :
  counter_total ((k, n) :: c) = (n + counter_total c)%Z.
Proof. unfold counter_total. simpl. by rewrite foldl_add_shift. Qed.

Lemma counter_total_incr (k : value) (c : counter) :
  counter_total (counter_incr k c) = (counter_total c + 1)%Z.
Proof.
  induction c as [|[k' n] c IH]; simpl; [done|].
  destruct (key_eqb k' k); rewrite !counter_total_cons; [lia|]. rewrite IH. lia.
Qed.

Lemma counter_incr_positive (k : value) (c : counter) :
  Forall (fun kn => (1 <= snd kn)%Z) c ->
  Forall (fun kn => (1 <= snd kn)%Z) (counter_incr k c).
Proof.
  induction 1 as [|[k' n] c Hn Hc IH]; simpl.
  - by repeat constructor.
  - simpl in Hn. destruct (key_eqb k' k); constructor; simpl; (done || lia).
Qed.

Lemma count_keys_positive (ks : list value) (c c' : counter) :
  count_keys ks c = Ok c' ->
  Forall (fun kn => (1 <= snd kn)%Z) c ->
  Forall (fun kn => (1 <= snd kn)%Z) c'.
Proof.
  revert c. induction ks as [|k ks IH]; intros c H Hc; simpl in H.
  - by injection H as <-.
  - inv_bind H as c1 H1. unfold count_key in H1.
    destruct (hashable k); [|done]. injection H1 as <-.
    eapply IH; [done|]. by apply counter_incr_positive.
Qed.

(** What one iteration of the loop of [analyze_trends] does to each of the
    four accumulators. *)
Lemma tally_item_inv (t t' : tallies) (item : gmap string value) :
  tally_item t item = Ok t' ->
  platform_counts t' = counter_incr (get item "platform" (VStr "unknown")) (platform_counts t) /\
  (exists hashtags,
     py_iter (get item "hashtags" (VList [])) = Ok hashtags /\
     count_keys hashtags (hashtag_counts t) = Ok (hashtag_counts t')) /\
  (if has_sentiment item
   then exists label, sentiment_counts t' = counter_incr label (sentiment_counts t)
   else sentiment_counts t' = sentiment_counts t) /\
  engagement_rates t' =
  (if has_engagement_rate item
   then (engagement_rates t ++ [get item "engagement_rate" VNone])%list
   else engagement_rates t).
Proof.
  unfold tally_item, has_sentiment, has_engagement_rate. intros H.
  inv_bind H as pc Hpc. inv_bind H as hashtags Hiter. inv_bind H as hc Hhc.
  inv_bind H as sc Hsc. injection H as <-. simpl.
  split; [|split; [|split]].
  - unfold count_key in Hpc. destruct (hashable _); [|done]. by injection Hpc as <-.
  - by exists hashtags.
  - destruct (truthy (get item "sentiment" _)); [|by injection Hsc as <-].
    destruct (get item "sentiment" _) as [| | | | |d]; try done.
    unfold count_key in Hsc. destruct (hashable _); [|done]. injection Hsc as <-.
    by eexists.
  - by destruct (get item "engagement_rate" VNone).
Qed.

Lemma tally_items_totals (items : list (gmap string value)) (t t' : tallies) :
  tally_items t items = Ok t' ->
  counter_total (platform_counts t')
  = (counter_total (platform_counts t) + Z.of_nat (length items))%Z /\
  counter_total (sentiment_counts t')
  = (counter_total (sentiment_counts t) + Z.of_nat (count_items has_sentiment items))%Z /\
  length (engagement_rates t')
  = (length (engagement_rates t) + count_items has_engagement_rate items)%nat /\
  (Forall (fun kn => (1 <= snd kn)%Z) (hashtag_counts t) ->
   Forall (fun kn => (1 <= snd kn)%Z) (hashtag_counts t')).
Proof.
  revert t. induction items as [|item items IH]; intros t H; simpl in H.
  - injection H as <-. unfold count_items. simpl. repeat split; (lia || done).
  - inv_bind H as t1 H1. apply tally_item_inv in H1 as (Hp & (hs & _ & Hh) & Hs & He).
    destruct (IH _ H) as (IHp & IHs & IHe & IHh). clear IH H.
    unfold count_items in *. simpl.
    split; [|split; [|split]].
    + rewrite IHp, Hp, counter_total_incr. lia.
    + rewrite IHs. destruct (has_sentiment item); simpl.
      * destruct Hs as [label ->]. rewrite counter_total_incr. lia.
      * rewrite Hs. lia.
    + rewrite IHe, He. destruct (has_engagement_rate item); simpl; [|lia].
      rewrite length_app. simpl. lia.
    + intros Hpos. apply IHh. by eapply count_keys_positive.
Qed.

Lemma compute_engagement_stats_count (rates : list value) stats :
  compute_engagement_stats rates = Ok stats ->
  match stats with
  | Some st => stats_count st = length rates /\ rates ≠ []
  | None => rates = []
  end.
Proof.
  unfold compute_engagement_stats. intros H. inv_bind H as nums Hnums.
  apply mapM_Ok_Forall2 in Hnums. apply Forall2_length in Hnums.
  destruct nums as [|r rs]; injection H as <-.
  - by destruct rates.
  - simpl in *. split; [done|]. by destruct rates.
Qed.

(** The parts of a summary that [analyze_trends] returns for a batch that
    is not empty. *)
Lemma analyze_trends_inv E (items : list (gmap string value)) ta :
  items ≠ [] ->
  analyze_trends E items = Ok ta ->
  exists t stats,
    tally_items empty_tallies items = Ok t /\
    compute_engagement_stats (engagement_rates t) = Ok stats /\
    mapM (make_entry (length items))
         (take 15 (sorted_desc (fun tc => inject_Z (snd tc)) (hashtag_counts t)))
    = Ok (trending_hashtags ta) /\
    platform_distribution ta = platform_counts t /\
    sentiment_analysis ta =
      Some {| sentiment_distribution := sentiment_counts t;
              sentiment_total_analyzed := counter_total (sentiment_counts t) |} /\
    engagement_stats ta = stats /\
    total_analyzed ta = Some (length items) /\
    analysis_timestamp ta = Some (now_isoformat E).
Proof.
  intros Hne H. unfold analyze_trends in H.
  destruct items as [|item items]; [done|].
  inv_bind H as t Ht. inv_bind H as stats Hstats. inv_bind H as entries Hentries.
  injection H as <-. by exists t, stats.
Qed.

(** X6: in the summary of a batch that is not empty, the platform counts add
    up to the number of items (an item without a platform is counted as
    "unknown"), [total_analyzed] is the number of items, the sentiment counts
    add up to the number of items that carry a sentiment, which is the
    reported total, and the engagement statistics are present exactly when
    some item has an engagement rate that is not [None], their count being the
    number of such items. *)
Theorem X6_analyze_trends_totals E (items : list (gmap string value)) ta :
  items ≠ [] ->
  analyze_trends E items = Ok ta ->
  counter_total (platform_distribution ta) = Z.of_nat (length items) /\
  total_analyzed ta = Some (length items) /\
  (exists sa,
     sentiment_analysis ta = Some sa /\
     sentiment_total_analyzed sa = counter_total (sentiment_distribution sa) /\
     sentiment_total_analyzed sa = Z.of_nat (count_items has_sentiment items)) /\
  match engagement_stats ta with
  | Some st =>
      stats_count st = count_items has_engagement_rate items /\ (0 < stats_count st)%nat
  | None => count_items has_engagement_rate items = 0%nat
  end.
Proof.
  intros Hne H.
  destruct (analyze_trends_inv E items ta Hne H)
    as (t & stats & Ht & Hstats & _ & -> & -> & -> & -> & _).
  destruct (tally_items_totals items _ _ Ht) as (Hp & Hs & He & _).
  simpl in Hp, Hs, He.
  split; [by rewrite Hp|]. split; [done|]. split.
  - eexists. split; [done|]. simpl. split; [done|]. by rewrite Hs.
  - apply compute_engagement_stats_count in Hstats.
    destruct stats as [st|].
    + destruct Hstats as [-> Hrates]. split; [done|].
      destruct (engagement_rates t); [done | simpl; lia].
    + rewrite Hstats in He. by simpl in He.
Qed.

Lemma X6_analyze_trends_totals_witness :
  exists ta,
    analyze_trends sample_env scenario = Ok ta /\
    counter_total (platform_distribution ta) = 2%Z /\
    total_analyzed ta = Some 2%nat.
Proof.
  assert (exists ta, analyze_trends sample_env scenario = Ok ta) as [ta Hta]
    by (eexists; vm_compute; reflexivity).
  exists ta. split; [done|].
  destruct (X6_analyze_trends_totals sample_env scenario ta) as (Hp & Ht & _); [done|done|].
  by split.
Defined.

Lemma make_entry_fields (n : nat) (top : list (value * Z)) entries :
  mapM (make_entry n) top = Ok entries ->
  map (fun entry => (entry_hashtag entry, entry_count entry)) entries = top /\
  Forall (fun entry =>
            _calculate_hashtag_trend_score (entry_hashtag entry) (entry_count entry) n
            = Ok (entry_trend_score entry)) entries.
Proof.
  intros H. apply mapM_Ok_Forall2 in H.
  induction H as [|[tag count] entry top entries Hentry _ [IH1 IH2]]; [done|].
  unfold make_entry in Hentry. inv_bind Hentry as score Hscore.
  injection Hentry as <-. simpl. rewrite IH1. split; [done|]. by constructor.
Qed.

Lemma StronglySorted_map_inv {A B} (R : B -> B -> Prop) (f : A -> B) (l : list A) :
  StronglySorted R (map f l) -> StronglySorted (fun a b => R (f a) (f b)) l.
Proof.
  induction l as [|x l IH]; simpl; [constructor|].
  intros H. apply StronglySorted_inv in H as [Hl Hx].
  constructor; [by apply IH|].
  rewrite List.Forall_forall in *. intros y Hy. apply Hx. by apply in_map.
Qed.

Lemma StronglySorted_weaken {A} (R R' : A -> A -> Prop) (l : list A) :
  (forall a b, R a b -> R' a b) -> StronglySorted R l -> StronglySorted R' l.
Proof.
  intros HR. induction 1 as [|x l Hl IH Hx]; constructor; [done|].
  eapply Forall_impl; [exact Hx|]. intros y. apply HR.
Qed.

Lemma in_take {A} (n : nat) (l : list A) (y : A) : In y (take n l) -> In y l.
Proof.
  revert n. induction l as [|x l IH]; intros [|n]; simpl; try done.
  intros [-> | Hy]; [by left | right; by eapply IH].
Qed.

Lemma StronglySorted_take {A} (R : A -> A -> Prop) (n : nat) (l : list A) :
  StronglySorted R l -> StronglySorted R (take n l).
Proof.
  intros H. revert n. induction H as [|x l Hl IH Hx]; intros [|n]; simpl;
    try constructor; [apply IH|].
  rewrite List.Forall_forall in *. intros y Hy. apply Hx. by eapply in_take.
Qed.

Lemma frequency_score_nonneg (count : Z) (total : nat) :
  (0 <= count)%Z -> 0 <= frequency_score count total.
Proof.
  intros Hc. unfold frequency_score.
  destruct total as [|n].
  - simpl. unfold Qdiv, Qinv. simpl. rewrite Qmult_0_r. lra.
  - apply Qle_shift_div_l.
    + unfold Qlt. simpl. lia.
    + rewrite Qmult_0_l. unfold Qle. simpl. lia.
Qed.

Lemma keyword_boost_pos (hashtag : string) : 0 <= keyword_boost hashtag.
Proof. unfold keyword_boost. destruct (existsb _ _); Qclosed. Qed.

Lemma hashtag_trend_score_unit (hashtag : value) (count : Z) (total : nat) score :
  (0 <= count)%Z ->
  _calculate_hashtag_trend_score hashtag count total = Ok score ->
  0 <= score /\ score <= 1.
Proof.
  intros Hc H. destruct (Nat.eq_dec total 0%nat) as [->|Hne].
  - injection H as <-. split; Qclosed.
  - apply hashtag_trend_score_formula in H as (h & _ & ->); [|done].
    apply py_round_unit.
    + apply py_min_glb; [|Qclosed].
      apply Qmult_le_0_compat; [by apply frequency_score_nonneg | apply keyword_boost_pos].
    + eapply Qle_trans; [apply py_min_le_r | Qclosed].
Qed.

(** X7: [analyze_trends] reports at most 15 trending hashtags, in
    non-increasing order of count; every reported count is at least 1 and
    every reported trend score lies in [0, 1]. *)
Theorem X7_trending_hashtags_ranked_and_bounded E (items : list (gmap string value)) ta :
  analyze_trends E items = Ok ta ->
  (length (trending_hashtags ta) <= 15)%nat /\
  StronglySorted (fun a b => (entry_count b <= entry_count a)%Z) (trending_hashtags ta) /\
  Forall (fun entry =>
            (1 <= entry_count entry)%Z /\
            0 <= entry_trend_score entry /\ entry_trend_score entry <= 1)
         (trending_hashtags ta).
Proof.
  intros H. destruct items as [|item items].
  { injection H as <-. simpl. split; [lia|]. split; constructor. }
  destruct (analyze_trends_inv E (item :: items) ta) as
    (t & stats & Ht & _ & Hentries & _); [done | done |].
  apply make_entry_fields in Hentries as [Htop Hscores].
  set (key := fun tc : value * Z => inject_Z (snd tc)) in *.
  set (top := take 15 (sorted_desc key (hashtag_counts t))) in *.
  assert (Forall (fun kn => (1 <= snd kn)%Z) top) as Hpos.
  { destruct (tally_items_totals _ _ _ Ht) as (_ & _ & _ & Hpos).
    specialize (Hpos ltac:(constructor)).
    rewrite List.Forall_forall in *. intros kn Hkn. apply Hpos.
    apply (Permutation_in _ (sorted_desc_perm key (hashtag_counts t))).
    by eapply in_take. }
  split; [|split].
  - rewrite <- (length_map (fun entry => (entry_hashtag entry, entry_count entry))), Htop.
    unfold top. rewrite length_take. lia.
  - assert (StronglySorted (fun a b => key b <= key a) top) as Hsorted.
    { apply StronglySorted_take, sorted_desc_sorted. }
    rewrite <- Htop in Hsorted. apply StronglySorted_map_inv in Hsorted.
    eapply StronglySorted_weaken; [|exact Hsorted].
    intros a b Hab. unfold key in Hab. simpl in Hab. by rewrite Zle_Qle.
  - rewrite <- Htop in Hpos. rewrite List.Forall_forall in *.
    intros entry Hentry.
    assert (1 <= entry_count entry)%Z as Hcount.
    { apply (Hpos (entry_hashtag entry, entry_count entry)).
      by apply (in_map (fun e => (entry_hashtag e, entry_count e))). }
    split; [done|].
    eapply hashtag_trend_score_unit; [|by apply Hscores]. lia.
Qed.

Lemma X7_trending_hashtags_witness :
  exists ta,
    analyze_trends sample_env scenario = Ok ta /\
    (length (trending_hashtags ta) <= 15)%nat /\
    Forall (fun entry => 0 <= entry_trend_score entry /\ entry_trend_score entry <= 1)
           (trending_hashtags ta).
Proof.
  assert (exists ta, analyze_trends sample_env scenario = Ok ta) as [ta Hta]
    by (eexists; vm_compute; reflexivity).
  exists ta. split; [done|].
  destruct (X7_trending_hashtags_ranked_and_bounded sample_env scenario ta Hta)
    as (Hlen & _ & Hall).
  split; [done|]. eapply Forall_impl; [exact Hall|]. by intros entry (_ & Hlo & Hhi).
Defined.

Lemma key_eqb_str (k : value) (h : string) : key_eqb k (VStr h) = true <-> k = VStr h.
Proof.
  destruct k; simpl; try (split; [done | by intros [=]]).
  rewrite String.eqb_eq. split; [by intros -> | by intros [= ->]].
Qed.

Lemma key_eqb_str_ne (h h' : string) : h ≠ h' -> key_eqb (VStr h) (VStr h') = false.
Proof. intros Hne. simpl. by apply String.eqb_neq. Qed.

Lemma stored_count_incr (h h' : string) (c : counter) :
  stored_count h' (counter_incr (VStr h) c)
  = (stored_count h' c + if String.eqb h h' then 1 else 0)%Z.
Proof.
  induction c as [|[k n] c IH]; simpl.
  - destruct (String.eqb h h'); lia.
  - destruct (key_eqb k (VStr h)) eqn:Hk; simpl.
    + apply key_eqb_str in Hk as ->. simpl. destruct (String.eqb h h'); lia.
    + destruct (key_eqb k (VStr h')) eqn:Hk'; [|done].
      destruct (String.eqb h h') eqn:Hh; [|lia].
      apply String.eqb_eq in Hh as ->. congruence.
Qed.

Lemma count_keys_strings (tags : list string) (c : counter) :
  exists c',
    count_keys (VStr <$> tags) c = Ok c' /\
    (forall h, stored_count h c'
               = (stored_count h c + Z.of_nat (count_occ string_dec tags h))%Z) /\
    (NoDup (map fst c) -> NoDup (map fst c')) /\
    (Forall (fun kn => is_str (fst kn) = true) c ->
     Forall (fun kn => is_str (fst kn) = true) c').
Proof.
  revert c. induction tags as [|tag tags IH]; intros c.
  - exists c. split; [done|]. split; [intros h; simpl; lia|]. done.
  - destruct (IH (counter_incr (VStr tag) c)) as (c' & Hc' & Hcount & Hdup & Hstr).
    exists c'. split; [done|]. split; [|split].
    + intros h. rewrite Hcount, stored_count_incr. simpl.
      destruct (string_dec tag h) as [->|Hne].
      * rewrite String.eqb_refl. lia.
      * apply String.eqb_neq in Hne as ->. lia.
    + intros Hc. apply Hdup. clear -Hc.
      induction c as [|[k n] c IHc]; simpl.
      * apply NoDup_singleton.
      * simpl in Hc. apply NoDup_cons in Hc as [Hk Hc].
        destruct (key_eqb k (VStr tag)) eqn:Heq; simpl; [by apply NoDup_cons|].
        apply NoDup_cons. split; [|by apply IHc].
        intros Hin. apply Hk. clear -Hin Heq.
        induction c as [|[k' n'] c IHc]; simpl in *.
        -- apply list_elem_of_singleton in Hin as ->.
           by rewrite (proj2 (key_eqb_str _ _) eq_refl) in Heq.
        -- destruct (key_eqb k' (VStr tag)); simpl in Hin; [done|].
           apply elem_of_cons in Hin as [->|Hin]; [by left | right; by apply IHc].
    + intros Hc. apply Hstr. clear -Hc.
      induction Hc as [|[k n] c Hk Hc IHc]; simpl; [by repeat constructor|].
      destruct (key_eqb k (VStr tag)); constructor; done.
Qed.

Lemma map_fmap {A B} (f : A -> B) (l : list A) : map f l = f <$> l.
Proof. induction l as [|x l IH]; [done|]. simpl. by rewrite IH. Qed.

Lemma py_iter_strings (item : gmap string value) :
  hashtags_are_strings item ->
  py_iter (get item "hashtags" (VList [])) = Ok (VStr <$> hashtag_strings item).
Proof. unfold hashtags_are_strings. by intros ->. Qed.

Lemma tally_items_string_counts (items : list (gmap string value)) (t t' : tallies) :
  Forall hashtags_are_strings items ->
  tally_items t items = Ok t' ->
  (forall h,
     stored_count h (hashtag_counts t')
     = (stored_count h (hashtag_counts t)
        + Z.of_nat (count_occ string_dec (concat (map hashtag_strings items)) h))%Z) /\
  (NoDup (map fst (hashtag_counts t)) -> NoDup (map fst (hashtag_counts t'))) /\
  (Forall (fun kn => is_str (fst kn) = true) (hashtag_counts t) ->
   Forall (fun kn => is_str (fst kn) = true) (hashtag_counts t')).
Proof.
  intros Hitems. revert t.
  induction Hitems as [|item items Hitem _ IH]; intros t H; simpl in H.
  - injection H as <-. split; [intros h; simpl; lia | done].
  - inv_bind H as t1 H1.
    apply tally_item_inv in H1 as (_ & (hashtags & Hiter & Hcount) & _).
    rewrite (py_iter_strings item Hitem) in Hiter. injection Hiter as <-.
    destruct (count_keys_strings (hashtag_strings item) (hashtag_counts t))
      as (c' & Hc' & Hstored & Hdup & Hstr).
    rewrite Hc' in Hcount. injection Hcount as ->.
    destruct (IH t1 H) as (IHstored & IHdup & IHstr).
    split; [|split].
    + intros h. rewrite IHstored, Hstored. simpl. rewrite count_occ_app. lia.
    + intros Hd. by apply IHdup, Hdup.
    + intros Hs. by apply IHstr, Hstr.
Qed.

Lemma stored_count_of_entry (h : string) (n : Z) (c : counter) :
  NoDup (map fst c) -> In (VStr h, n) c -> stored_count h c = n.
Proof.
  induction c as [|[k m] c IH]; simpl; [done|].
  intros [Hk Hc]%NoDup_cons [[= -> ->] | Hin].
  - simpl. by rewrite String.eqb_refl.
  - destruct (key_eqb k (VStr h)) eqn:Heq; [|by apply IH].
    apply key_eqb_str in Heq as ->. exfalso. apply Hk.
    apply list_elem_of_In. by apply (in_map fst) in Hin.
Qed.

Lemma stored_count_in (h : string) (c : counter) :
  stored_count h c ≠ 0%Z -> exists n, In (VStr h, n) c.
Proof.
  induction c as [|[k m] c IH]; simpl; [done|].
  destruct (key_eqb k (VStr h)) eqn:Heq.
  - apply key_eqb_str in Heq as ->. intros _. exists m. by left.
  - intros Hne. destruct (IH Hne) as [n Hn]. exists n. by right.
Qed.

(** X8: on a batch in which every item's hashtags are absent or a list of
    strings, the count [analyze_trends] reports for a hashtag is the number
    of its occurrences in the hashtag lists of the whole batch (an item that
    lists a hashtag twice counts twice); no hashtag is reported twice; and
    when fewer than 15 hashtags are reported, every hashtag that occurs in
    the batch is reported. *)
Theorem X8_hashtag_counts_are_occurrences E (items : list (gmap string value)) ta :
  Forall hashtags_are_strings items ->
  analyze_trends E items = Ok ta ->
  let tags := concat (map hashtag_strings items) in
  Forall (fun entry =>
            exists h,
              entry_hashtag entry = VStr h /\
              entry_count entry = Z.of_nat (count_occ string_dec tags h))
         (trending_hashtags ta) /\
  NoDup (map entry_hashtag (trending_hashtags ta)) /\
  ((length (trending_hashtags ta) < 15)%nat ->
   forall h, In h tags -> In (VStr h) (map entry_hashtag (trending_hashtags ta))).
Proof.
  intros Hitems H tags. destruct items as [|item items].
  { injection H as <-. simpl. split; [constructor|]. split; [constructor | done]. }
  destruct (analyze_trends_inv E (item :: items) ta) as
    (t & stats & Ht & _ & Hentries & _); [done | done |].
  apply make_entry_fields in Hentries as [Htop _].
  set (key := fun tc : value * Z => inject_Z (snd tc)) in *.
  set (counts := hashtag_counts t) in *.
  destruct (tally_items_string_counts _ _ _ Hitems Ht) as (Hstored & Hdup & Hstr).
  fold counts tags in Hstored, Hdup, Hstr. simpl in Hstored.
  specialize (Hdup ltac:(constructor)). specialize (Hstr ltac:(constructor)).
  pose proof (sorted_desc_perm key counts) as Hperm.
  assert (forall kn, In kn (take 15 (sorted_desc key counts)) -> In kn counts) as Hsub.
  { intros kn Hkn. apply (Permutation_in _ Hperm). by eapply in_take. }
  assert (map entry_hashtag (trending_hashtags ta)
          = map fst (take 15 (sorted_desc key counts))) as Hkeys.
  { rewrite <- Htop, map_map. done. }
  split; [|split].
  - rewrite List.Forall_forall. intros entry Hentry.
    assert (In (entry_hashtag entry, entry_count entry) counts) as Hin.
    { apply Hsub. rewrite <- Htop.
      by apply (in_map (fun e => (entry_hashtag e, entry_count e))). }
    rewrite List.Forall_forall in Hstr. specialize (Hstr _ Hin). simpl in Hstr.
    destruct (entry_hashtag entry) as [| | |h| |] eqn:Hh; try done.
    exists h. split; [done|].
    rewrite <- (stored_count_of_entry h (entry_count entry) counts Hdup Hin), Hstored. lia.
  - rewrite Hkeys, !map_fmap, fmap_take.
    apply (sublist_NoDup _ (fst <$> sorted_desc key counts)); [|apply sublist_take].
    rewrite <- !map_fmap. by rewrite (Permutation_map fst Hperm).
  - intros Hlen h Hh.
    assert (take 15 (sorted_desc key counts) = sorted_desc key counts) as Hall.
    { apply take_ge.
      rewrite <- (length_map (fun e => (entry_hashtag e, entry_count e))), Htop,
        length_take in Hlen. lia. }
    rewrite Hkeys, Hall.
    destruct (stored_count_in h counts) as [n Hn].
    { rewrite Hstored. apply (count_occ_In string_dec) in Hh. lia. }
    apply (in_map fst (sorted_desc key counts) (VStr h, n)).
    by apply (Permutation_in _ (Permutation_sym Hperm)).
Qed.

Lemma X8_hashtag_counts_witness :
  exists ta,
    analyze_trends sample_env scenario = Ok ta /\
    Forall (fun entry =>
              exists h,
                entry_hashtag entry = VStr h /\
                entry_count entry
                = Z.of_nat (count_occ string_dec ["viral"; "news"; "viral"] h))
           (trending_hashtags ta).
Proof.
  assert (exists ta, analyze_trends sample_env scenario = Ok ta) as [ta Hta]
    by (eexists; vm_compute; reflexivity).
  exists ta. split; [done|].
  apply (X8_hashtag_counts_are_occurrences sample_env scenario ta); [|done].
  repeat constructor.
Defined.

(** ** The filters *)

Lemma platform_is (item : gmap string value) (platform : string) :
  key_eqb (get item "platform" VNone) (VStr platform) = true
  <-> item !! "platform" = Some (VStr platform).
Proof.
  rewrite key_eqb_str. unfold get.
  destruct (item !! "platform") as [v|]; split; congruence.
Qed.

Lemma filter_sublist {A} (f : A -> bool) (l : list A) : sublist (List.filter f l) l.
Proof.
  induction l as [|x l IH]; simpl; [constructor|].
  destruct (f x); by constructor.
Qed.

Lemma filter_filter {A} (f : A -> bool) (l : list A) :
  List.filter f (List.filter f l) = List.filter f l.
Proof.
  induction l as [|x l IH]; simpl; [done|].
  destruct (f x) eqn:Hx; simpl; [|done]. by rewrite Hx, IH.
Qed.

Lemma tally_items_one_platform (platform : string) (items : list (gmap string value))
  (t t' : tallies) (n : Z) :
  Forall (fun item => item !! "platform" = Some (VStr platform)) items ->
  tally_items t items = Ok t' ->
  (0 <= n)%Z ->
  platform_counts t = (if (n =? 0)%Z then [] else [(VStr platform, n)]) ->
  let m := (n + Z.of_nat (length items))%Z in
  platform_counts t' = (if (m =? 0)%Z then [] else [(VStr platform, m)]).
Proof.
  intros Hitems. revert t n.
  induction Hitems as [|item items Hitem _ IH]; intros t n H Hn Hstart; simpl in H.
  - injection H as <-. simpl. by rewrite Z.add_0_r.
  - inv_bind H as t1 H1. apply tally_item_inv in H1 as (Hp & _).
    unfold get in Hp. rewrite Hitem in Hp.
    specialize (IH t1 (n + 1)%Z H ltac:(lia)).
    cbv zeta in *. replace (n + Z.of_nat (length (item :: items)))%Z
      with (n + 1 + Z.of_nat (length items))%Z by (simpl length; lia).
    apply IH. rewrite Hp, Hstart.
    destruct (Z.eqb_spec n 0) as [->|Hne]; simpl.
    + done.
    + rewrite String.eqb_refl. by destruct (Z.eqb_spec (n + 1) 0); [lia|].
Qed.

(** X9: [filter_by_platform] returns, in their input order, exactly the
    items whose platform is the given string; filtering its result again
    changes nothing; and the summary of a filtered batch that is not empty
    has a platform distribution with the one platform and the number of items
    returned. *)
Theorem X9_filter_by_platform_selects_one_platform
  (items : list (gmap string value)) (platform : string) :
  let selected := filter_by_platform items platform in
  (forall item,
     In item selected <-> In item items /\ item !! "platform" = Some (VStr platform)) /\
  sublist selected items /\
  filter_by_platform selected platform = selected /\
  (forall E ta,
     selected ≠ [] ->
     analyze_trends E selected = Ok ta ->
     platform_distribution ta = [(VStr platform, Z.of_nat (length selected))]).
Proof.
  unfold filter_by_platform. cbv zeta.
  split; [|split; [|split]].
  - intros item. by rewrite filter_In, platform_is.
  - apply filter_sublist.
  - apply filter_filter.
  - intros E ta Hne Hta.
    set (selected := List.filter _ items) in *.
    destruct (analyze_trends_inv E selected ta Hne Hta)
      as (t & _ & Ht & _ & _ & -> & _).
    assert (Forall (fun item => item !! "platform" = Some (VStr platform)) selected)
      as Hall.
    { rewrite List.Forall_forall. intros item Hitem.
      apply filter_In in Hitem as [_ Hitem]. by apply platform_is. }
    pose proof (tally_items_one_platform platform selected _ t 0 Hall Ht
                  ltac:(lia) eq_refl) as Hcounts.
    cbv zeta in Hcounts. simpl in Hcounts. rewrite Hcounts.
    destruct selected; [done|]. simpl length. by destruct (Z.eqb_spec (Z.of_nat (S (length selected))) 0); [lia|].
Qed.

Lemma X9_filter_by_platform_witness :
  filter_by_platform [scored "youtube" 0.5; scored "instagram" 0.9; scored "youtube" 0.1]
    "youtube"
  = [scored "youtube" 0.5; scored "youtube" 0.1] /\
  exists ta,
    analyze_trends sample_env [scored "youtube" 0.5; scored "youtube" 0.1] = Ok ta /\
    platform_distribution ta = [(VStr "youtube", 2%Z)].
Proof.
  assert (filter_by_platform
            [scored "youtube" 0.5; scored "instagram" 0.9; scored "youtube" 0.1] "youtube"
          = [scored "youtube" 0.5; scored "youtube" 0.1]) as Hsel
    by (vm_compute; reflexivity).
  split; [done|].
  assert (exists ta,
            analyze_trends sample_env [scored "youtube" 0.5; scored "youtube" 0.1] = Ok ta)
    as [ta Hta] by (eexists; vm_compute; reflexivity).
  exists ta. split; [done|].
  destruct (X9_filter_by_platform_selects_one_platform
              [scored "youtube" 0.5; scored "instagram" 0.9; scored "youtube" 0.1]
              "youtube") as (_ & _ & _ & Hone).
  rewrite Hsel in Hone. by apply (Hone sample_env ta).
Defined.

Lemma sentiment_label_is_spec (label : string) (item : gmap string value) :
  sentiment_label_is label item =
  if sentiment_is_dict item then Ok (has_label label item) else Raise AttributeError.
Proof.
  unfold sentiment_label_is, sentiment_is_dict, has_label, get.
  destruct (item !! "sentiment") as [[]|]; done.
Qed.

Lemma filter_by_sentiment_dicts (items : list (gmap string value)) (label : string) :
  Forall (fun item => sentiment_is_dict item = true) items ->
  filter_by_sentiment items label = Ok (List.filter (has_label label) items).
Proof.
  unfold filter_by_sentiment. induction 1 as [|item items Hitem _ IH]; [done|].
  simpl. rewrite sentiment_label_is_spec, Hitem. unfold mbind in *. simpl.
  rewrite IH. simpl. by destruct (has_label label item).
Qed.

Lemma filter_by_sentiment_not_dict (items : list (gmap string value)) (label : string) :
  Exists (fun item => sentiment_is_dict item = false) items ->
  filter_by_sentiment items label = Raise AttributeError.
Proof.
  unfold filter_by_sentiment. induction 1 as [item items Hitem|item items _ IH]; simpl.
  - by rewrite sentiment_label_is_spec, Hitem.
  - rewrite sentiment_label_is_spec.
    destruct (sentiment_is_dict item); [|done].
    change (filterM (sentiment_label_is label) items ≫=
              (fun rest => Ok (if has_label label item then item :: rest else rest))
            = Raise AttributeError).
    rewrite IH. reflexivity.
Qed.

(** X10: [filter_by_sentiment] returns, in their input order, exactly the
    items that carry a sentiment dict with the given label, so never an item
    without a sentiment, provided every item's ['sentiment'] is absent or a
    dict; as soon as one item carries a sentiment that is not a dict ([None]
    included) the call raises [AttributeError]. *)
Theorem X10_filter_by_sentiment_selects_label
  (items : list (gmap string value)) (label : string) :
  (Forall (fun item => sentiment_is_dict item = true) items ->
   filter_by_sentiment items label = Ok (List.filter (has_label label) items)) /\
  (Exists (fun item => sentiment_is_dict item = false) items ->
   filter_by_sentiment items label = Raise AttributeError) /\
  (forall selected,
     filter_by_sentiment items label = Ok selected ->
     sublist selected items /\
     Forall (fun item => exists d, item !! "sentiment" = Some (VDict d) /\
                                   d !! "label" = Some (VStr label)) selected).
Proof.
  pose proof (filter_by_sentiment_dicts items label) as Hok.
  pose proof (filter_by_sentiment_not_dict items label) as Hraise.
  split; [done|]. split; [done|].
  intros selected Hsel.
  destruct (Forall_Exists_dec (fun item => sentiment_is_dict item = true)
              (fun item => sentiment_is_dict item = false)
              (fun item => Sumbool.sumbool_of_bool (sentiment_is_dict item)) items)
    as [Hall|Hex].
  - rewrite (Hok Hall) in Hsel. injection Hsel as <-.
    split; [apply filter_sublist|].
    rewrite List.Forall_forall. intros item [_ Hitem]%filter_In.
    unfold has_label in Hitem.
    destruct (item !! "sentiment") as [[| | | | |d]|]; try done.
    exists d. split; [done|]. apply key_eqb_str in Hitem. unfold get in Hitem.
    destruct (d !! "label"); congruence.
  - by rewrite (Hraise Hex) in Hsel.
Qed.

Lemma X10_filter_by_sentiment_witness :
  filter_by_sentiment [restamped_item; stale_item] "positive" = Ok [restamped_item] /\
  filter_by_sentiment [restamped_item; <["sentiment" := VNone]> stale_item] "positive"
  = Raise AttributeError.
Proof.
  destruct (X10_filter_by_sentiment_selects_label [restamped_item; stale_item] "positive")
    as (Hok & _ & _).
  destruct (X10_filter_by_sentiment_selects_label
              [restamped_item; <["sentiment" := VNone]> stale_item] "positive")
    as (_ & Hraise & _).
  split.
  - rewrite Hok; [vm_compute; reflexivity|].
    repeat (constructor; [vm_compute; reflexivity|]). constructor.
  - apply Hraise. apply Exists_cons_tl, Exists_cons_hd. by vm_compute.
Defined.

(** ** The enrichment *)

Lemma engagement_step_keeps item item' k :
  engagement_step item = Ok item' -> is_Some (item !! k) -> is_Some (item' !! k).
Proof.
  intros H Hk. destruct (decide (k = "engagement_rate")) as [->|Hne].
  - unfold engagement_step in H.
    destruct (has item "view_count" && has item "like_count"); [|by injection H as <-].
    inv_bind H as v Hv. destruct (Qltb 0 v).
    + inv_bind H as l Hl. inv_bind H as c Hc. injection H as <-.
      by rewrite lookup_insert_eq.
    + injection H as <-. by rewrite lookup_insert_eq.
  - by rewrite (engagement_step_other _ _ _ H Hne).
Qed.

Lemma title_step_keeps title item item' k :
  title_step title item = Ok item' -> is_Some (item !! k) -> is_Some (item' !! k).
Proof.
  unfold title_step. intros H Hk.
  destruct (truthy title); [|by injection H as <-].
  inv_bind H as cleaned Hc.
  assert (is_Some (<["title_clean" := VStr cleaned]> item !! k)) as Hk'.
  { rewrite lookup_insert. by case_decide. }
  destruct (negb _); [|by injection H as <-].
  inv_bind H as hashtags Hh. injection H as <-.
  rewrite lookup_insert. by case_decide.
Qed.

Lemma description_step_keeps description item item' k :
  description_step description item = Ok item' ->
  is_Some (item !! k) -> is_Some (item' !! k).
Proof.
  unfold description_step. intros H Hk.
  destruct (truthy description); [|by injection H as <-].
  inv_bind H as cleaned Hc. injection H as <-.
  rewrite lookup_insert. by case_decide.
Qed.

Lemma sentiment_step_keeps analyze text item item' k :
  sentiment_step analyze text item = Ok item' ->
  is_Some (item !! k) -> is_Some (item' !! k).
Proof.
  unfold sentiment_step, try_except. intros H Hk.
  destruct (truthy (VStr text)); [|by injection H as <-].
  destruct (analyze (VStr text)); simpl in H; injection H as <-;
    rewrite lookup_insert; by case_decide.
Qed.

(** X11: the enrichment only adds to a record.  Every key of the input is a
    key of the record [process_single_item] returns, every key other than
    the seven it writes keeps its value (so the title, the description, the
    platform, the published date and the raw counts are never changed), and
    the returned record always carries ['processed_at'] and
    ['trending_score']. *)
Theorem X11_enrichment_only_adds_fields (E : Env) (item item' : gmap string value) :
  process_single_item E item = Ok item' ->
  (forall k, is_Some (item !! k) -> is_Some (item' !! k)) /\
  (forall k,
     k ∉ ["processed_at"; "engagement_rate"; "title_clean"; "hashtags";
          "description_clean"; "sentiment"; "trending_score"] ->
     item' !! k = item !! k) /\
  item' !! "processed_at" = Some (VStr (now_isoformat E)) /\
  is_Some (item' !! "trending_score").
Proof.
  intros H. split; [|split; [|split]].
  - intros k Hk. apply process_single_item_with_stages in H.
    destruct H as (i1 & i2 & i3 & i4 & score & H1 & H2 & H3 & H4 & H5 & ->).
    rewrite lookup_insert. case_decide; [done|].
    eapply sentiment_step_keeps; [done|].
    eapply description_step_keeps; [done|].
    eapply title_step_keeps; [done|].
    eapply engagement_step_keeps; [done|].
    rewrite lookup_insert. by case_decide.
  - intros k Hk. by eapply process_single_item_with_other.
  - by eapply process_single_item_with_processed_at.
  - apply process_single_item_with_stages in H.
    destruct H as (i1 & i2 & i3 & i4 & score & _ & _ & _ & _ & _ & ->).
    by rewrite lookup_insert_eq.
Qed.

Lemma X11_enrichment_only_adds_witness :
  exists item',
    process_single_item sample_env viral_clip = Ok item' /\
    item' !! "view_count" = Some (VInt 1000) /\
    item' !! "title" = Some (VStr "Great #Viral video http://x.co") /\
    item' !! "processed_at" = Some (VStr "2024-01-05T04:00:00").
Proof.
  destruct (process_single_item_returns sample_env viral_clip) as [item' H];
    [by vm_compute|].
  exists item'. split; [done|].
  destruct (X11_enrichment_only_adds_fields sample_env viral_clip item' H)
    as (_ & Hframe & Hstamp & _).
  split; [|split].
  - rewrite Hframe; [by vm_compute|].
    repeat (apply not_elem_of_cons; split; [done|]). apply not_elem_of_nil.
  - rewrite Hframe; [by vm_compute|].
    repeat (apply not_elem_of_cons; split; [done|]). apply not_elem_of_nil.
  - done.
Defined.

(** Each step of the enrichment, run again on a record that already holds
    what the step wrote, returns that record. *)
Lemma engagement_step_replay x x' y :
  engagement_step x = Ok x' ->
  y !! "view_count" = x !! "view_count" ->
  y !! "like_count" = x !! "like_count" ->
  y !! "comment_count" = x !! "comment_count" ->
  y !! "engagement_rate" = x' !! "engagement_rate" ->
  engagement_step y = Ok y.
Proof.
  unfold engagement_step, has, get. intros H Hv Hl Hc Hr. rewrite Hv, Hl, Hc.
  destruct (_ && _); [|done].
  inv_bind H as v Hviews. rewrite Hviews. simpl. destruct (Qltb 0 v).
  - inv_bind H as l Hlikes. inv_bind H as c Hcomments. injection H as <-.
    rewrite Hlikes. simpl. rewrite Hcomments. simpl.
    rewrite lookup_insert_eq in Hr. by rewrite insert_id.
  - injection H as <-. rewrite lookup_insert_eq in Hr. by rewrite insert_id.
Qed.

Lemma title_step_replay title x x' y :
  title_step title x = Ok x' ->
  y !! "title_clean" = x' !! "title_clean" ->
  y !! "hashtags" = x' !! "hashtags" ->
  title_step title y = Ok y.
Proof.
  unfold title_step. intros H Hclean Htags.
  destruct (truthy title); [|done].
  inv_bind H as cleaned Hc. rewrite Hc. simpl.
  assert (<["title_clean" := VStr cleaned]> y = y) as ->.
  { apply insert_id. rewrite Hclean.
    destruct (negb _) in H.
    - inv_bind H as hs Hhs. injection H as <-.
      by rewrite lookup_insert_ne, lookup_insert_eq.
    - injection H as <-. by rewrite lookup_insert_eq. }
  destruct (negb (truthy (get (<["title_clean" := VStr cleaned]> x) "hashtags" VNone)))
    eqn:Hold.
  - inv_bind H as hs Hhs. injection H as <-. rewrite lookup_insert_eq in Htags.
    unfold get at 1. rewrite Htags.
    destruct (negb (truthy hs)); [|done].
    rewrite Hhs. simpl. by rewrite insert_id.
  - injection H as <-. rewrite lookup_insert_ne in Htags by done.
    unfold get in Hold |- *. rewrite lookup_insert_ne in Hold by done.
    rewrite Htags. by rewrite Hold.
Qed.

Lemma description_step_replay description x x' y :
  description_step description x = Ok x' ->
  y !! "description_clean" = x' !! "description_clean" ->
  description_step description y = Ok y.
Proof.
  unfold description_step. intros H Hclean.
  destruct (truthy description); [|done].
  inv_bind H as cleaned Hc. injection H as <-. rewrite Hc. simpl.
  rewrite lookup_insert_eq in Hclean. by rewrite insert_id.
Qed.

Lemma sentiment_step_replay analyze analyze' text x x' y :
  analyze' (VStr text) = analyze (VStr text) ->
  sentiment_step analyze text x = Ok x' ->
  y !! "sentiment" = x' !! "sentiment" ->
  sentiment_step analyze' text y = Ok y.
Proof.
  unfold sentiment_step, try_except. intros -> H Hs.
  destruct (truthy (VStr text)); [|done].
  destruct (analyze (VStr text)) as [s|e]; simpl in *; injection H as <-;
    rewrite lookup_insert_eq in Hs; by rewrite insert_id.
Qed.

(** The scorer reads four keys only. *)
Lemma trending_score_reads_four_keys E (x y : gmap string value) :
  y !! "engagement_rate" = x !! "engagement_rate" ->
  y !! "published_date" = x !! "published_date" ->
  y !! "hashtags" = x !! "hashtags" ->
  y !! "sentiment" = x !! "sentiment" ->
  _calculate_trending_score E y = _calculate_trending_score E x.
Proof.
  intros He Hp Hh Hs.
  unfold _calculate_trending_score, accumulated_score, engagement_factor,
    recency_factor, recency_body, hashtag_factor, sentiment_factor, get.
  by rewrite He, Hp, Hh, Hs.
Qed.

Lemma analyze_sentiment_same_lexicon E E' text :
  (forall s, textblob_sentiment E' s = textblob_sentiment E s) ->
  analyze_sentiment E' text = analyze_sentiment E text.
Proof.
  intros H. unfold analyze_sentiment. destruct (clean_text text) as [cleaned|]; [|done].
  simpl. by rewrite H.
Qed.

(** A record the enrichment has returned goes through every step of a second
    run unchanged, up to the new stamp and the new score. *)
Lemma process_single_item_with_replay analyze analyze' E E' item item' :
  (forall text, analyze' text = analyze text) ->
  process_single_item_with analyze E item = Ok item' ->
  exists score',
    _calculate_trending_score E' item' = Ok score' /\
    process_single_item_with analyze' E' item' =
      Ok (<["trending_score" := VFloat score']>
            (<["processed_at" := VStr (now_isoformat E')]> item')).
Proof.
  intros Han H. apply process_single_item_with_stages in H.
  destruct H as (i1 & i2 & i3 & i4 & score & H1 & H2 & H3 & H4 & H5 & ->).
  set (stamped := <["processed_at" := VStr (now_isoformat E)]> item) in *.
  set (item' := <["trending_score" := VFloat score]> i4).
  set (again := <["processed_at" := VStr (now_isoformat E')]> item').
  assert (forall k, k ≠ "processed_at" -> k ≠ "trending_score" -> again !! k = i4 !! k) as F4.
  { intros k ? ?. unfold again, item'. by rewrite !lookup_insert_ne. }
  assert (forall k, k ≠ "processed_at" -> k ≠ "trending_score" -> k ≠ "sentiment" ->
                    again !! k = i3 !! k) as F3.
  { intros k ? ? ?. rewrite F4 by done. by eapply sentiment_step_other. }
  assert (forall k, k ≠ "processed_at" -> k ≠ "trending_score" -> k ≠ "sentiment" ->
                    k ≠ "description_clean" -> again !! k = i2 !! k) as F2.
  { intros k ? ? ? ?. rewrite F3 by done. by eapply description_step_other. }
  assert (forall k, k ≠ "processed_at" -> k ≠ "trending_score" -> k ≠ "sentiment" ->
                    k ≠ "description_clean" -> k ≠ "title_clean" -> k ≠ "hashtags" ->
                    again !! k = i1 !! k) as F1.
  { intros k ? ? ? ? ? ?. rewrite F2 by done. by eapply title_step_other. }
  assert (forall k, k ≠ "processed_at" -> k ≠ "trending_score" -> k ≠ "sentiment" ->
                    k ≠ "description_clean" -> k ≠ "title_clean" -> k ≠ "hashtags" ->
                    k ≠ "engagement_rate" -> again !! k = stamped !! k) as F0.
  { intros k ? ? ? ? ? ? ?. rewrite F1 by done. by eapply engagement_step_other. }
  assert (forall x, _calculate_trending_score x again = _calculate_trending_score x i4)
    as Hsame.
  { intros x. apply trending_score_reads_four_keys; by apply F4. }
  destruct (proj1 (scorable_returns E' i4)) as [score' Hscore'].
  { apply (scorable_returns E). by exists score. }
  exists score'. split.
  { rewrite <- Hscore'. apply trending_score_reads_four_keys;
      unfold item'; by rewrite lookup_insert_ne. }
  apply process_single_item_with_stages.
  exists again, again, again, again, score'. cbv zeta.
  change (<["processed_at" := VStr (now_isoformat E')]> item') with again.
  assert (get again "title" (VStr "") = get i1 "title" (VStr "")) as Ht.
  { apply get_lookup_eq. by apply F1. }
  assert (get again "description" (VStr "") = get i1 "description" (VStr "")) as Hd.
  { apply get_lookup_eq. by apply F1. }
  rewrite Ht, Hd.
  split; [|split; [|split; [|split; [|split]]]].
  - eapply engagement_step_replay; [exact H1 | by apply F0 ..| by apply F1].
  - eapply title_step_replay; [exact H2 | by apply F2 ..].
  - eapply description_step_replay; [exact H3 | by apply F3].
  - eapply sentiment_step_replay; [apply Han | exact H4 | by apply F4].
  - by rewrite Hsame.
  - done.
Qed.

Lemma process_single_item_stored_score E analyze item item' :
  process_single_item_with analyze E item = Ok item' ->
  exists score,
    item' !! "trending_score" = Some (VFloat score) /\
    item' !! "processed_at" = Some (VStr (now_isoformat E)) /\
    _calculate_trending_score E item' = Ok score.
Proof.
  intros H. pose proof (process_single_item_with_processed_at _ _ _ _ H) as Hat.
  apply process_single_item_with_stages in H.
  destruct H as (i1 & i2 & i3 & i4 & score & _ & _ & _ & _ & H5 & ->).
  exists score. split; [apply lookup_insert_eq|]. split; [done|].
  rewrite <- H5. apply trending_score_reads_four_keys; by rewrite lookup_insert_ne.
Qed.

(** X12: processing a record that [process_single_item] has returned changes
    nothing but the stamp and the score.  With the same clock the record comes
    back unchanged (the enrichment is idempotent); with another clock and
    date parser, and the same sentiment lexicon, it comes back with the new
    'processed_at' and with its own score under the new clock as
    'trending_score', and every other field as it was. *)
Theorem X12_reprocessing_changes_only_stamp_and_score (E : Env)
  (item item' : gmap string value) :
  process_single_item E item = Ok item' ->
  process_single_item E item' = Ok item' /\
  forall E' : Env,
    (forall s, textblob_sentiment E' s = textblob_sentiment E s) ->
    exists score',
      _calculate_trending_score E' item' = Ok score' /\
      process_single_item E' item' =
        Ok (<["trending_score" := VFloat score']>
              (<["processed_at" := VStr (now_isoformat E')]> item')).
Proof.
  intros H. split.
  - destruct (process_single_item_stored_score _ _ _ _ H) as (score & Hs & Hat & Hscore).
    destruct (process_single_item_with_replay (analyze_sentiment E) (analyze_sentiment E)
                E E item item') as (score' & Hscore' & Hagain); [done|exact H|].
    unfold process_single_item. rewrite Hagain.
    rewrite Hscore in Hscore'. injection Hscore' as <-.
    rewrite (insert_id item' "processed_at") by done. by rewrite insert_id.
  - intros E' Hlex.
    apply (process_single_item_with_replay (analyze_sentiment E) (analyze_sentiment E')
             E E' item item'); [|exact H].
    intros text. by apply analyze_sentiment_same_lexicon.
Qed.

Lemma X12_reprocessing_witness :
  process_single_item sample_env restamped_item = Ok restamped_item.
Proof.
  apply (X12_reprocessing_changes_only_stamp_and_score sample_env stale_item restamped_item).
  vm_compute. reflexivity.
Defined.

(** X13: the trending score [process_single_item] stores is the score of the
    returned record itself: scoring the returned record again gives the
    stored value, which lies in [0, 1] and is a multiple of 0.001. *)
Theorem X13_stored_trending_score_is_consistent (E : Env)
  (item item' : gmap string value) :
  process_single_item E item = Ok item' ->
  exists score,
    item' !! "trending_score" = Some (VFloat score) /\
    _calculate_trending_score E item' = Ok score /\
    0 <= score /\ score <= 1 /\ exists k : Z, score = k # 1000.
Proof.
  intros H. apply process_single_item_with_stages in H.
  destruct H as (i1 & i2 & i3 & i4 & score & _ & _ & _ & _ & H5 & ->).
  exists score. split; [apply lookup_insert_eq|].
  assert (_calculate_trending_score E (<["trending_score" := VFloat score]> i4)
          = Ok score) as Hsame.
  { rewrite <- H5. apply trending_score_reads_four_keys; by rewrite lookup_insert_ne. }
  split; [done|]. by eapply trending_score_unit.
Qed.

Lemma X13_stored_trending_score_witness :
  exists item' score,
    process_single_item sample_env viral_clip = Ok item' /\
    item' !! "trending_score" = Some (VFloat score) /\
    _calculate_trending_score sample_env item' = Ok score.
Proof.
  destruct (process_single_item_returns sample_env viral_clip) as [item' H];
    [by vm_compute|].
  destruct (X13_stored_trending_score_is_consistent sample_env viral_clip item' H)
    as (score & Hstored & Hscore & _).
  exists item', score. split; [exact H|]. split; [exact Hstored | exact Hscore].
Defined.

Lemma engagement_step_raises item e :
  engagement_step item = Raise e -> e = TypeError.
Proof.
  unfold engagement_step.
  destruct (has item "view_count" && has item "like_count"); [|done].
  destruct (as_num (or0 (get item "view_count" (VInt 0)))) as [v|e'] eqn:Hv; simpl.
  - destruct (Qltb 0 v); [|done].
    destruct (as_num (or0 (get item "like_count" (VInt 0)))) as [l|e'] eqn:Hl; simpl.
    + destruct (as_num (or0 (get item "comment_count" (VInt 0)))) as [c|e'] eqn:Hc;
        simpl; [done|].
      apply as_num_raises in Hc. by intros [= <-].
    + apply as_num_raises in Hl. by intros [= <-].
  - apply as_num_raises in Hv. by intros [= <-].
Qed.

Lemma clean_text_truthy_string text cleaned :
  truthy text = true -> clean_text text = Ok cleaned -> exists s, text = VStr s.
Proof.
  unfold clean_text. intros ->. simpl. destruct text; try done. by eexists.
Qed.

Lemma process_single_item_with_title_fields analyze (E : Env)
  (item item' : gmap string value) :
  process_single_item_with analyze E item = Ok item' ->
  let title := get item "title" (VStr "") in
  (truthy title = false ->
   item' !! "title_clean" = item !! "title_clean" /\
   item' !! "hashtags" = item !! "hashtags") /\
  (truthy title = true ->
   exists s cleaned,
     title = VStr s /\ clean_text (VStr s) = Ok cleaned /\
     item' !! "title_clean" = Some (VStr cleaned) /\
     item' !! "hashtags" =
       if truthy (get item "hashtags" VNone) then item !! "hashtags"
       else Some (VList (VStr <$> extract_hashtags s))).
Proof.
  intros H title.
  pose proof H as Hstages. apply process_single_item_with_stages in Hstages.
  destruct Hstages as (i1 & i2 & i3 & i4 & score & H1 & H2 & H3 & H4 & H5 & ->).
  set (stamped := <["processed_at" := VStr (now_isoformat E)]> item) in *.
  assert (forall k, k ≠ "processed_at" -> k ≠ "engagement_rate" ->
                    i1 !! k = item !! k) as F1.
  { intros k ? ?. rewrite (engagement_step_other _ _ k H1) by done.
    unfold stamped. by rewrite lookup_insert_ne. }
  assert (forall k, k ≠ "trending_score" -> k ≠ "sentiment" -> k ≠ "description_clean" ->
            (<["trending_score" := VFloat score]> i4 : gmap string value) !! k = i2 !! k)
    as F2.
  { intros k ? ? ?. rewrite lookup_insert_ne by done.
    rewrite (sentiment_step_other _ _ _ _ k H4) by done.
    by rewrite (description_step_other _ _ _ k H3). }
  assert (get i1 "title" (VStr "") = title) as Ht.
  { apply get_lookup_eq. by apply F1. }
  assert (get i1 "hashtags" VNone = get item "hashtags" VNone) as Hh.
  { apply get_lookup_eq. by apply F1. }
  rewrite Ht in H2. rewrite !F2 by done. clear H3 H4 H5 F2 H.
  unfold title_step in H2. split.
  - intros Hfalsy. rewrite Hfalsy in H2. injection H2 as <-. by rewrite !F1.
  - intros Htruthy. rewrite Htruthy in H2. inv_bind H2 as cleaned Hc.
    destruct (clean_text_truthy_string title cleaned Htruthy Hc) as [s Hs].
    exists s, cleaned. rewrite <- Hs. split; [done|]. split; [done|].
    rewrite get_insert_ne, Hh in H2 by done.
    destruct (truthy (get item "hashtags" VNone)); simpl in H2.
    + injection H2 as <-. rewrite lookup_insert_eq, lookup_insert_ne by done.
      by rewrite F1.
    + inv_bind H2 as hs Hhs. injection H2 as <-.
      rewrite lookup_insert_ne, !lookup_insert_eq by done.
      rewrite Hs in Hhs. by injection Hhs as <-.
Qed.

(** X14: what the enrichment does with the title.  An absent or empty title
    leaves 'title_clean' and 'hashtags' as they were.  Otherwise the title is
    a string, 'title_clean' is its cleaned text, and 'hashtags' is kept when
    the record has a truthy one and is the list of the hashtags of the title
    (possibly empty) when it has none. *)
Theorem X14_title_fields_of_enrichment (E : Env) (item item' : gmap string value) :
  process_single_item E item = Ok item' ->
  let title := get item "title" (VStr "") in
  (truthy title = false ->
   item' !! "title_clean" = item !! "title_clean" /\
   item' !! "hashtags" = item !! "hashtags") /\
  (truthy title = true ->
   exists s cleaned,
     title = VStr s /\ clean_text (VStr s) = Ok cleaned /\
     item' !! "title_clean" = Some (VStr cleaned) /\
     item' !! "hashtags" =
       if truthy (get item "hashtags" VNone) then item !! "hashtags"
       else Some (VList (VStr <$> extract_hashtags s))).
Proof. apply process_single_item_with_title_fields. Qed.

Lemma X14_title_fields_witness :
  exists item',
    process_single_item sample_env stale_item = Ok item' /\
    item' !! "title_clean" = Some (VStr "Great viral clip") /\
    item' !! "hashtags" = Some (VList [VStr "viral"]).
Proof.
  assert (process_single_item sample_env stale_item = Ok restamped_item) as H
    by (vm_compute; reflexivity).
  destruct (X14_title_fields_of_enrichment sample_env stale_item restamped_item H)
    as [_ Htitle].
  destruct Htitle as (s & cleaned & Hs & Hc & Hclean & Htags); [by vm_compute|].
  injection Hs as <-. injection Hc as <-.
  exists restamped_item. split; [exact H|]. split; [exact Hclean | exact Htags].
Defined.

Lemma process_single_item_bad_title analyze E item :
  truthy (get item "title" (VStr "")) = true ->
  is_str (get item "title" (VStr "")) = false ->
  process_single_item_with analyze E item = Raise TypeError.
Proof.
  intros Htruthy Hstr. unfold process_single_item_with.
  set (stamped := <["processed_at" := VStr (now_isoformat E)]> item).
  destruct (engagement_step stamped) as [i1|e] eqn:H1; simpl.
  - assert (get i1 "title" (VStr "") = get item "title" (VStr "")) as ->.
    { apply get_lookup_eq. rewrite (engagement_step_other _ _ _ H1) by done.
      unfold stamped. by rewrite lookup_insert_ne. }
    unfold title_step. rewrite Htruthy. unfold clean_text. rewrite Htruthy. simpl.
    by destruct (get item "title" (VStr "")).
  - by rewrite (engagement_step_raises _ _ H1).
Qed.

Lemma mapM_raises {A B} (f : A -> result B) (pre : list A) (bad : A) (post : list A)
  (out : list B) (e : exn) :
  mapM f pre = Ok out -> f bad = Raise e -> mapM f (pre ++ bad :: post) = Raise e.
Proof.
  intros Hpre Hbad. revert out Hpre.
  induction pre as [|x pre IH]; intros out Hpre; simpl.
  - by rewrite Hbad.
  - simpl in Hpre. inv_bind Hpre as y Hy. inv_bind Hpre as k Hk.
    rewrite Hy. simpl. unfold mbind in IH. by rewrite (IH k Hk).
Qed.

(** X15: one record that cannot be enriched fails the whole batch.
    [process_content_batch] raises the exception of the first item on which
    [process_single_item] raises, whatever follows it, and returns no
    result for the items before it; a record whose title is truthy and not
    a string is such an item ([TypeError]). *)
Theorem X15_batch_fails_with_its_first_failing_item (E : Env)
  (pre post : list (gmap string value)) (bad : gmap string value)
  (out : list (gmap string value)) (e : exn) :
  process_content_batch E pre = Ok out ->
  process_single_item E bad = Raise e ->
  process_content_batch E (pre ++ bad :: post) = Raise e /\
  forall title other,
    truthy title = true -> is_str title = false ->
    process_content_batch E (pre ++ <["title" := title]> other :: post)
    = Raise TypeError.
Proof.
  intros Hpre Hbad. split.
  - by apply (mapM_raises _ pre bad post out e).
  - intros title other Htruthy Hstr.
    apply (mapM_raises _ pre _ post out TypeError); [done|].
    apply process_single_item_bad_title; unfold get; by rewrite lookup_insert_eq.
Qed.

Lemma X15_batch_fails_witness :
  process_content_batch sample_env
    ([stale_item] ++ <["title" := VInt 5]> ∅ :: [viral_clip]) = Raise TypeError.
Proof.
  apply (X15_batch_fails_with_its_first_failing_item sample_env
           [stale_item] [viral_clip] (<["title" := VInt 5]> ∅) [restamped_item] TypeError);
    vm_compute; reflexivity.
Defined.

Lemma processed_batch_scored analyze E items out :
  process_content_batch_with analyze E items = Ok out ->
  Forall (fun item => is_ok (as_num (get item "trending_score" (VInt 0))) = true) out /\
  Forall (fun item => has item "processed_at" = true) out /\
  length out = length items.
Proof.
  intros H. apply mapM_Ok_Forall2 in H.
  induction H as [|item item' items out Hitem _ (IH1 & IH2 & IH3)]; [done|].
  destruct (process_single_item_stored_score _ _ _ _ Hitem) as (score & Hs & Hat & _).
  split; [|split].
  - constructor; [|done]. unfold get. by rewrite Hs.
  - constructor; [|done]. unfold has. by rewrite Hat.
  - simpl. by rewrite IH3.
Qed.

Lemma mapM_ext_Forall {A B} (f g : A -> result B) (l : list A) :
  Forall (fun x => f x = g x) l -> mapM f l = mapM g l.
Proof.
  induction 1 as [|x l Hx _ IH]; simpl; [done|]. by rewrite Hx, IH.
Qed.

Lemma mapM_Ok_id {A} (l : list A) : mapM (fun x => Ok x) l = Ok l.
Proof. induction l as [|x l IH]; simpl; [done|]. by rewrite IH. Qed.

Lemma ensure_processed_done E items :
  Forall (fun item => has item "processed_at" = true) items ->
  mapM (ensure_processed E) items = Ok items.
Proof.
  intros H. transitivity (mapM (fun x => Ok x) items); [|apply mapM_Ok_id].
  apply mapM_ext_Forall.
  eapply Forall_impl; [exact H|]. intros item Hitem.
  unfold ensure_processed. by rewrite Hitem.
Qed.

Lemma ensure_processed_fresh E items :
  Forall (fun item => has item "processed_at" = false) items ->
  mapM (ensure_processed E) items = process_content_batch E items.
Proof.
  intros H. apply mapM_ext_Forall.
  eapply Forall_impl; [exact H|]. intros item Hitem.
  unfold ensure_processed. by rewrite Hitem.
Qed.

(** X16: the pipeline composes.  On a batch [process_content_batch] has
    returned, [get_top_trending_content] never raises and returns
    min(limit, batch size) records; and the summary of a batch of records
    none of which has been processed is the summary of the batch enriched
    beforehand: [get_content_summary] enriches such records itself and
    does not enrich the returned ones again. *)
Theorem X16_summary_of_raw_and_enriched_batch (E : Env)
  (items out : list (gmap string value)) :
  process_content_batch E items = Ok out ->
  (forall limit, exists top,
     get_top_trending_content out limit = Ok top /\
     length top = Nat.min limit (length items)) /\
  (Forall (fun item => has item "processed_at" = false) items ->
   get_content_summary E items = get_content_summary E out).
Proof.
  intros H. destruct (processed_batch_scored _ _ _ _ H) as (Hscored & Hdone & Hlen).
  split.
  - intros limit. eexists. split; [by apply get_top_trending_content_sorted|].
    rewrite length_take, <- Hlen. f_equal.
    apply Permutation_length, sorted_desc_perm.
  - intros Hfresh. unfold get_content_summary.
    rewrite (ensure_processed_fresh E items Hfresh), H.
    rewrite (ensure_processed_done E out Hdone).
    destruct items as [|item items]; destruct out as [|item' out]; try done.
Qed.

Lemma X16_summary_witness :
  (exists top,
     get_top_trending_content [restamped_item] 5 = Ok top /\ length top = 1%nat) /\
  get_content_summary sample_env [<["title" := VStr "Great #viral clip"]> ∅]
  = get_content_summary sample_env [restamped_item].
Proof.
  destruct (X16_summary_of_raw_and_enriched_batch sample_env
              [<["title" := VStr "Great #viral clip"]> ∅] [restamped_item])
    as [Htop Hsame]; [vm_compute; reflexivity|].
  split; [exact (Htop 5%nat)|].
  apply Hsame. repeat constructor.
Defined.

(** ** Rounding keeps the order *)

Lemma round_half_even_mono (a b : Q) :
  a <= b -> (round_half_even a <= round_half_even b)%Z.
Proof.
  destruct a as [n d], b as [m e]. unfold Qle, round_half_even. simpl. intros Hab.
  pose proof (Z.div_mod n (Zpos d) ltac:(lia)) as Hn.
  pose proof (Z.mod_pos_bound n (Zpos d) ltac:(lia)) as Hrn.
  pose proof (Z.div_mod m (Zpos e) ltac:(lia)) as Hm.
  pose proof (Z.mod_pos_bound m (Zpos e) ltac:(lia)) as Hrm.
  set (fa := (n / Zpos d)%Z) in *. set (ra := (n mod Zpos d)%Z) in *.
  set (fb := (m / Zpos e)%Z) in *. set (rb := (m mod Zpos e)%Z) in *.
  assert (0 <= ra * Zpos e)%Z as Hra by (apply Z.mul_nonneg_nonneg; lia).
  assert (rb * Zpos d < Zpos e * Zpos d)%Z as Hrb by (apply Z.mul_lt_mono_pos_r; lia).
  assert (fa <= fb)%Z as Hfl.
  { destruct (Z_le_gt_dec fa fb) as [?|Hgt]; [done|]. exfalso.
    assert (Zpos d * Zpos e * (fb + 1) <= Zpos d * Zpos e * fa)%Z
      by (apply Z.mul_le_mono_nonneg_l; lia).
    rewrite Hn, Hm in Hab. lia. }
  destruct (Z.eq_dec fa fb) as [Heq|Hne].
  - assert (ra * Zpos e <= rb * Zpos d)%Z as Hr.
    { rewrite Hn, Hm, Heq in Hab. lia. }
    rewrite <- Heq.
    destruct (Z.compare_spec (2 * ra) (Zpos d)) as [Ha|Ha|Ha];
      destruct (Z.compare_spec (2 * rb) (Zpos e)) as [Hb|Hb|Hb];
      destruct (Z.even fa); try lia; exfalso; nia.
  - assert (fa + 1 <= fb)%Z by lia.
    destruct (2 * ra ?= Zpos d)%Z; destruct (2 * rb ?= Zpos e)%Z;
      destruct (Z.even fa); destruct (Z.even fb); lia.
Qed.

Lemma py_round_mono (a b : Q) (ndigits : positive) :
  a <= b -> py_round a ndigits <= py_round b ndigits.
Proof.
  intros Hab. unfold py_round.
  assert (round_half_even (a * inject_Z (Zpos (10 ^ ndigits)))
          <= round_half_even (b * inject_Z (Zpos (10 ^ ndigits))))%Z as H.
  { apply round_half_even_mono. apply Qmult_le_compat_r; [done | by unfold Qle; simpl]. }
  unfold Qle. simpl. nia.
Qed.

(** ** The engagement statistics *)











Lemma tally_items_rates (items : list (gmap string value)) (t t' : tallies) :
  tally_items t items = Ok t' ->
  engagement_rates t' =
  (engagement_rates t ++
   map (fun item => get item "engagement_rate" VNone)
       (List.filter has_engagement_rate items))%list.
Proof.
  revert t. induction items as [|item items IH]; intros t H; simpl in H.
  - injection H as <-. simpl. by rewrite app_nil_r.
  - inv_bind H as t1 H1. apply tally_item_inv in H1 as (_ & _ & _ & He).
    rewrite (IH _ H), He. simpl.
    destruct (has_engagement_rate item); [|done]. by rewrite <- app_assoc.
Qed.



(** ** The MCP client *)

Lemma any_word_in_string (words : list string) (s : string) :
  MCPClient.any_word_in words (VStr s)
  = Ok (existsb (fun word => contains word (lower s)) words).
Proof.
  induction words as [|word words IH]; [done|].
  simpl. destruct (contains word (lower s)); [done|]. exact IH.
Qed.

Lemma any_word_in_not_string (words : list string) (text : value) :
  is_str text = false -> words ≠ [] ->
  MCPClient.any_word_in words text = Raise AttributeError.
Proof. intros Hs Hw. destruct words; [done|]. by destruct text. Qed.

Lemma existsb_word_occurs (words : list string) (s : string) :
  existsb (fun word => contains word (lower s)) words = true <-> word_occurs words s.
Proof.
  rewrite existsb_exists. unfold word_occurs. split.
  - intros (word & Hin & Hc). apply contains_spec in Hc as (pre & post & Hc).
    by exists word, pre, post.
  - intros (word & pre & post & Hin & Hc). exists word. split; [done|].
    apply contains_spec. by exists pre, post.
Qed.

(** X18: the sentiment of the MCP client.  [MCPClient.analyze_sentiment]
    never raises.  With the client enabled and a string as text, the text is
    positive (polarity 0.5) as soon as one of the five positive words occurs
    in its lower-cased form as a substring, whether or not a negative word
    occurs too; negative (polarity -0.5) when no positive and some negative
    word occurs; neutral with confidence 0.1 otherwise.  With the client
    disabled, or a text that is not a string, the result is the fallback
    dict. *)
Theorem X18_mcp_sentiment_by_substring (enabled : bool) (text : value) :
  (exists sentiment, MCPClient.analyze_sentiment enabled text = Ok sentiment) /\
  (forall s,
     enabled = true -> text = VStr s ->
     (word_occurs MCPClient.positive_words s ->
      MCPClient.analyze_sentiment enabled text
      = Ok (MCPClient.sentiment_result 0.5 "positive" 0.5 "mcp_enhanced")) /\
     (~ word_occurs MCPClient.positive_words s ->
      word_occurs MCPClient.negative_words s ->
      MCPClient.analyze_sentiment enabled text
      = Ok (MCPClient.sentiment_result (-0.5) "negative" 0.5 "mcp_enhanced")) /\
     (~ word_occurs MCPClient.positive_words s ->
      ~ word_occurs MCPClient.negative_words s ->
      MCPClient.analyze_sentiment enabled text
      = Ok (MCPClient.sentiment_result 0.0 "neutral" 0.1 "mcp_enhanced"))) /\
  (enabled = false \/ is_str text = false ->
   MCPClient.analyze_sentiment enabled text
   = Ok (MCPClient.sentiment_result 0.0 "neutral" 0.1 "fallback")).
Proof.
  assert (forall s,
    MCPClient.analyze_sentiment true (VStr s) =
    if existsb (fun word => contains word (lower s)) MCPClient.positive_words
    then Ok (MCPClient.sentiment_result 0.5 "positive" 0.5 "mcp_enhanced")
    else if existsb (fun word => contains word (lower s)) MCPClient.negative_words
    then Ok (MCPClient.sentiment_result (-0.5) "negative" 0.5 "mcp_enhanced")
    else Ok (MCPClient.sentiment_result 0.0 "neutral" 0.1 "mcp_enhanced")) as Hstr.
  { intros s. unfold MCPClient.analyze_sentiment. cbn [negb].
    rewrite !any_word_in_string.
    destruct (existsb _ MCPClient.positive_words); [reflexivity|].
    destruct (existsb _ MCPClient.negative_words); reflexivity. }
  assert (enabled = false \/ is_str text = false ->
          MCPClient.analyze_sentiment enabled text
          = Ok (MCPClient.sentiment_result 0.0 "neutral" 0.1 "fallback")) as Hfallback.
  { intros [-> | Hs]; [done|]. destruct enabled; [|done].
    unfold MCPClient.analyze_sentiment. cbn [negb].
    rewrite !any_word_in_not_string by done. reflexivity. }
  split; [|split; [|done]].
  - destruct enabled; [|eexists; by apply Hfallback; left].
    destruct text as [| | |s| |]; try (eexists; by apply Hfallback; right).
    rewrite Hstr. repeat destruct (existsb _ _); by eexists.
  - intros s -> ->. rewrite Hstr. rewrite <- !existsb_word_occurs.
    destruct (existsb _ MCPClient.positive_words);
      destruct (existsb _ MCPClient.negative_words);
      (split; [|split]); intros; done.
Qed.

Example mcp_sentiment_goodbye :
  MCPClient.analyze_sentiment true (VStr "Goodbye to a bad day")
  = Ok (MCPClient.sentiment_result 0.5 "positive" 0.5 "mcp_enhanced").
Proof. vm_compute. reflexivity. Qed.

(** ** Trend detection *)

Lemma count_keys_app (a b : list value) (c : counter) :
  count_keys (a ++ b) c = (c' ← count_keys a c; count_keys b c').
Proof.
  revert c. induction a as [|k a IH]; intros c; simpl; [done|].
  destruct (count_key k c) as [c1|]; simpl; [apply IH | done].
Qed.

Lemma tally_items_collect (items : list (gmap string value)) (t t' : tallies)
  (seen : list value) (c : counter) :
  tally_items t items = Ok t' ->
  count_keys seen c = Ok (hashtag_counts t) ->
  exists hashtags,
    MCPClient.collect_hashtags items seen = Ok hashtags /\
    count_keys hashtags c = Ok (hashtag_counts t').
Proof.
  revert t seen. induction items as [|item items IH]; intros t seen H Hseen; simpl in H.
  - injection H as <-. by exists seen.
  - inv_bind H as t1 H1. apply tally_item_inv in H1 as (_ & (more & Hiter & Hmore) & _).
    simpl. rewrite Hiter. simpl. apply (IH t1); [done|].
    rewrite count_keys_app, Hseen. exact Hmore.
Qed.

(** X19: the two trend detectors agree with the summary.  Whenever
    [analyze_trends] returns, [MCPClient.detect_trends] and
    [TrendAnalyzer._fallback_trend_analysis] return too, and their
    'trending_hashtags' are the tags and counts of the first ten
    'trending_hashtags' of the summary, in the same order. *)
Theorem X19_trend_detection_agrees_with_summary (E : Env)
  (items : list (gmap string value)) (ta : trend_analysis) :
  analyze_trends E items = Ok ta ->
  MCPClient.detect_trends E items
  = Ok {| MCPClient.trending_hashtags := take 10 (tags_and_counts (trending_hashtags ta));
          MCPClient.analysis_timestamp := now_isoformat E;
          MCPClient.method := "mcp_trend_detection" |} /\
  TrendAnalyzer._fallback_trend_analysis E items
  = Ok {| MCPClient.trending_hashtags := take 10 (tags_and_counts (trending_hashtags ta));
          MCPClient.analysis_timestamp := now_isoformat E;
          MCPClient.method := "fallback_trend_detection" |}.
Proof.
  intros H. destruct items as [|item items].
  - injection H as <-. done.
  - destruct (analyze_trends_inv E (item :: items) ta ltac:(done) H)
      as (t & stats & Ht & _ & Hentries & _).
    apply make_entry_fields in Hentries as [Hentries _].
    destruct (tally_items_collect (item :: items) empty_tallies t [] [] Ht)
      as (hashtags & Hcollect & Hcounts); [done|].
    unfold MCPClient.detect_trends, TrendAnalyzer._fallback_trend_analysis,
      MCPClient.most_common, tags_and_counts.
    rewrite Hcollect. unfold mbind, result_bind. rewrite Hcounts.
    rewrite Hentries, take_take. done.
Qed.

Lemma X19_trend_detection_witness :
  exists top,
    MCPClient.detect_trends sample_env scenario
    = Ok {| MCPClient.trending_hashtags := top;
            MCPClient.analysis_timestamp := "2024-01-05T04:00:00";
            MCPClient.method := "mcp_trend_detection" |} /\
    top = [(VStr "viral", 2%Z); (VStr "news", 1%Z)].
Proof.
  destruct (analyze_trends sample_env scenario) as [ta|] eqn:H; [|by vm_compute in H].
  destruct (X19_trend_detection_agrees_with_summary sample_env scenario ta H)
    as [Hdetect _].
  eexists. split; [exact Hdetect|].
  vm_compute in H. injection H as <-. reflexivity.
Defined.

(** ** The context store *)

Lemma lookup_foldl_delete {A} (ks : list string) (m : gmap string A) (k : string) :
  foldl (fun m k => delete k m) m ks !! k = if decide (k ∈ ks) then None else m !! k.
Proof.
  revert m. induction ks as [|k' ks IH]; intros m; cbn [foldl].
  - destruct (decide (k ∈ [])) as [Hin|_]; [|done]. by apply elem_of_nil in Hin.
  - rewrite IH.
    destruct (decide (k ∈ ks)) as [Hin|Hnin];
      destruct (decide (k ∈ k' :: ks)) as [Hin'|Hnin']; try done.
    + exfalso. apply Hnin'. by right.
    + apply elem_of_cons in Hin' as [->|?]; [|done]. apply lookup_delete_eq.
    + apply lookup_delete_ne. intros ->. apply Hnin'. by left.
Qed.

Lemma cleanup_contexts_lookup (now : Z) (contexts : gmap string ContextManager.context)
  (k : string) :
  ContextManager._cleanup_contexts now contexts !! k =
  match contexts !! k with
  | Some ctx =>
      if (ContextManager.last_used ctx <? now - 24 * hour)%Z then None else Some ctx
  | None => None
  end.
Proof.
  unfold ContextManager._cleanup_contexts. rewrite lookup_foldl_delete.
  destruct (decide (k ∈ _)) as [Hin|Hnin].
  - apply list_elem_of_omap in Hin as ([k' ctx] & Hctx & Hold).
    apply elem_of_map_to_list in Hctx.
    destruct (ContextManager.last_used ctx <? now - 24 * hour)%Z eqn:Hlt; [|done].
    injection Hold as ->. by rewrite Hctx, Hlt.
  - destruct (contexts !! k) as [ctx|] eqn:Hctx; [|done].
    destruct (ContextManager.last_used ctx <? now - 24 * hour)%Z eqn:Hlt; [|done].
    exfalso. apply Hnin. apply list_elem_of_omap. exists (k, ctx).
    split; [by apply elem_of_map_to_list | by rewrite Hlt].
Qed.

(** X20: what [create_context] evicts.  After the call a context is in the
    store exactly when it was there (or is the new one) and is not evicted,
    and it is evicted only when the store holds more than [max_contexts]
    contexts after the insertion and its last use is more than 24 hours
    before the clock reading of the cleanup.  So a store whose contexts were
    all used within these 24 hours is never trimmed: it grows beyond
    [max_contexts]. *)
Theorem X20_create_context_evicts_only_stale_contexts
  (now1 now2 now3 : Z) (contexts : gmap string ContextManager.context)
  (context_id : string) (data : value) :
  let added :=
    {| ContextManager.data := data; ContextManager.created_at := now1;
       ContextManager.last_used := now2; ContextManager.usage_count := 0 |} in
  let after := ContextManager.create_context now1 now2 now3 contexts context_id data in
  (forall k,
     after !! k =
     match <[context_id := added]> contexts !! k with
     | Some ctx =>
         if (ContextManager.max_contexts <? size (<[context_id := added]> contexts))%nat
            && (ContextManager.last_used ctx <? now3 - 24 * hour)%Z
         then None else Some ctx
     | None => None
     end) /\
  ((now3 - 24 * hour <= now2)%Z ->
   map_Forall (fun _ ctx => (now3 - 24 * hour <= ContextManager.last_used ctx)%Z) contexts ->
   after = <[context_id := added]> contexts /\
   (contexts !! context_id = None -> size after = S (size contexts))).
Proof.
  intros added after.
  assert (forall k,
     after !! k =
     match <[context_id := added]> contexts !! k with
     | Some ctx =>
         if (ContextManager.max_contexts <? size (<[context_id := added]> contexts))%nat
            && (ContextManager.last_used ctx <? now3 - 24 * hour)%Z
         then None else Some ctx
     | None => None
     end) as Hlookup.
  { intros k. unfold after, ContextManager.create_context. fold added.
    destruct (ContextManager.max_contexts <? size _)%nat; simpl.
    - apply cleanup_contexts_lookup.
    - by destruct (_ !! k). }
  split; [exact Hlookup|].
  intros Hnew Hrecent.
  assert (after = <[context_id := added]> contexts) as ->.
  { apply map_eq. intros k. rewrite Hlookup.
    destruct (<[context_id := added]> contexts !! k) as [ctx|] eqn:Hk; [|done].
    assert (now3 - 24 * hour <= ContextManager.last_used ctx)%Z as Hctx.
    { apply lookup_insert_Some in Hk as [[_ <-]|[_ Hk]]; [done|].
      by apply (Hrecent k). }
    apply Z.ltb_ge in Hctx. rewrite Hctx. by rewrite andb_false_r. }
  split; [done|]. intros Hfresh. by rewrite map_size_insert_None.
Qed.

Lemma X20_create_context_witness :
  ContextManager.create_context (30 * hour) (30 * hour) (30 * hour)
    (<["old" := {| ContextManager.data := VNone; ContextManager.created_at := 0;
                   ContextManager.last_used := 0; ContextManager.usage_count := 3 |}]> ∅)
    "new" (VStr "d") !! "old"
  = Some {| ContextManager.data := VNone; ContextManager.created_at := 0;
            ContextManager.last_used := 0; ContextManager.usage_count := 3 |}.
Proof.
  destruct (X20_create_context_evicts_only_stale_contexts (30 * hour) (30 * hour) (30 * hour)
    (<["old" := {| ContextManager.data := VNone; ContextManager.created_at := 0;
                   ContextManager.last_used := 0; ContextManager.usage_count := 3 |}]> ∅)
    "new" (VStr "d")) as [Hlookup _].
  rewrite Hlookup. vm_compute. reflexivity.
Defined.

(** X21: a context that has been created can be read back.  If the clock
    does not jump ahead by more than 24 hours between the two readings of
    [create_context], [get_context] returns the data given to
    [create_context], whatever the store held before and however full it is,
    and records the use: 'last_used' is the time of the call and
    'usage_count' is 1.  An id that is not in the store gives [None] and
    leaves the store as it is. *)
Theorem X21_get_context_after_create_context
  (now1 now2 now3 now4 : Z) (contexts : gmap string ContextManager.context)
  (context_id : string) (data : value) :
  (now3 - 24 * hour <= now2)%Z ->
  let after := ContextManager.create_context now1 now2 now3 contexts context_id data in
  ContextManager.get_context now4 after context_id
  = (<[context_id :=
         {| ContextManager.data := data; ContextManager.created_at := now1;
            ContextManager.last_used := now4; ContextManager.usage_count := 1 |}]> after,
     Some data) /\
  (forall other,
     after !! other = None ->
     ContextManager.get_context now4 after other = (after, None)).
Proof.
  intros Hclock after. split.
  - unfold ContextManager.get_context.
    assert (after !! context_id =
            Some {| ContextManager.data := data; ContextManager.created_at := now1;
                    ContextManager.last_used := now2;
                    ContextManager.usage_count := 0 |}) as ->.
    { unfold after, ContextManager.create_context.
      destruct (ContextManager.max_contexts <? size _)%nat.
      - rewrite cleanup_contexts_lookup, lookup_insert_eq. simpl.
        apply Z.ltb_ge in Hclock. by rewrite Hclock.
      - apply lookup_insert_eq. }
    done.
  - intros other Hother. unfold ContextManager.get_context. by rewrite Hother.
Qed.

Lemma X21_get_context_witness :
  snd (ContextManager.get_context (31 * hour)
         (ContextManager.create_context (30 * hour) (30 * hour) (30 * hour) ∅
            "trend_analysis_1" (VStr "d"))
         "trend_analysis_1")
  = Some (VStr "d").
Proof.
  destruct (X21_get_context_after_create_context (30 * hour) (30 * hour) (30 * hour)
              (31 * hour) ∅ "trend_analysis_1" (VStr "d")) as [Hget _];
    [by vm_compute|].
  by rewrite Hget.
Defined.

(** ** Cleaning a text twice *)

Lemma string_app_nil_r (s : string) : s ++ "" = s.
Proof. induction s as [|c s IH]; [done|]. by rewrite append_cons, IH. Qed.

Lemma string_app_assoc (a b c : string) : (a ++ b) ++ c = a ++ (b ++ c).
Proof. induction a as [|x a IH]; [done|]. by rewrite !append_cons, IH. Qed.

Lemma string_of_list_ascii_snoc (l : list ascii) (c : ascii) :
  string_of_list_ascii (l ++ [c]) = string_of_list_ascii l ++ String c "".
Proof. induction l as [|x l IH]; [done|]. simpl. by rewrite IH. Qed.

Lemma substring_drop (a b : string) (m : nat) :
  (String.length b <= m)%nat -> String.substring (String.length a) m (a ++ b) = b.
Proof.
  intros Hm. induction a as [|x a IH]; [|exact IH].
  rewrite append_nil_l. simpl. revert m Hm.
  induction b as [|y b IHb]; intros m Hm; destruct m as [|m]; simpl in *; try done; try lia.
  f_equal. apply IHb. lia.
Qed.

Lemma string_length_append (a b : string) :
  String.length (a ++ b) = (String.length a + String.length b)%nat.
Proof. induction a as [|x a IH]; [done|]. rewrite append_cons. simpl. by rewrite IH. Qed.

(** The parts of a string after its longest prefix of characters satisfying [p]. *)
Lemma span_prefix_split (p : ascii -> bool) (s : string) :
  exists rest,
    s = span_prefix p s ++ rest /\
    match rest with
    | EmptyString => true
    | String c _ => negb (p c)
    end = true.
Proof.
  induction s as [|c s (rest & Hs & Hrest)].
  - by exists "".
  - simpl. destruct (p c) eqn:Hc.
    + exists rest. by rewrite append_cons, <- Hs.
    + exists (String c s). by rewrite append_nil_l, Hc.
Qed.

Lemma span_prefix_head (p : ascii -> bool) (x : ascii) (rest : string) :
  p x = true -> span_prefix p (String x rest) ≠ "".
Proof. intros Hx. simpl. by rewrite Hx. Qed.

(** *** A match of one alternative *)

Lemma match_lit_nonspace_Some (lit s : string) (n : nat) :
  match_lit_nonspace lit s = Some n ->
  exists run rest,
    s = lit ++ run ++ rest /\ run ≠ "" /\
    string_forall (fun c => negb (is_space c)) run = true /\
    match rest with
    | EmptyString => true
    | String c _ => is_space c
    end = true /\
    n = (String.length lit + String.length run)%nat.
Proof.
  unfold match_lit_nonspace. intros H.
  destruct (starts_with lit s) eqn:Hstart; [|done].
  apply starts_with_spec in Hstart as [post ->].
  rewrite substring_drop in H by (rewrite string_length_append; lia).
  destruct (span_prefix_split (fun c => negb (is_space c)) post) as (rest & Hpost & Hrest).
  pose proof (string_forall_span_prefix (fun c => negb (is_space c)) post) as Hrun.
  destruct (span_prefix _ post) as [|c run] eqn:Hspan; [done|]. injection H as <-.
  exists (String c run), rest. rewrite <- Hpost.
  split; [done|]. split; [done|]. split; [done|]. split; [|done].
  destruct rest as [|d rest]; [done|]. by apply negb_true_iff, negb_false_iff in Hrest.
Qed.

Lemma match_lit_nonspace_here (lit : string) (x : ascii) (rest : string) :
  is_space x = false -> match_lit_nonspace lit (lit ++ String x rest) ≠ None.
Proof.
  intros Hx. unfold match_lit_nonspace.
  assert (starts_with lit (lit ++ String x rest) = true) as ->
    by (apply starts_with_spec; by eexists).
  rewrite substring_drop by (rewrite string_length_append; lia).
  simpl. by rewrite Hx.
Qed.

Lemma match_lit_nonspace_None (lit s : string) :
  match_lit_nonspace lit s = None <->
  forall x rest, s = lit ++ String x rest -> is_space x = true.
Proof.
  split.
  - intros H x rest ->. destruct (is_space x) eqn:Hx; [done|].
    by apply (match_lit_nonspace_here lit x rest) in Hx.
  - intros H. destruct (match_lit_nonspace lit s) as [n|] eqn:Hm; [|done].
    apply match_lit_nonspace_Some in Hm
      as (run & rest & -> & Hne & Hrun & _ & _).
    destruct run as [|x run]; [done|]. simpl in Hrun.
    apply andb_true_iff in Hrun as [Hx _]. apply negb_true_iff in Hx.
    rewrite append_cons in H. by rewrite (H x (run ++ rest) eq_refl) in Hx.
Qed.

(** *** A match of the pattern *)

Lemma match_url_None (u : string) : match_url u = None <-> ~ url_here u.
Proof.
  unfold match_url, url_here. split.
  - intros H (lit & x & rest & Hlit & -> & Hx).
    destruct Hlit as [-> | ->].
    + pose proof (match_lit_nonspace_here "http" x rest Hx) as Hm.
      by destruct (match_lit_nonspace "http" _).
    + pose proof (match_lit_nonspace_here "www" x rest Hx) as Hm.
      destruct (match_lit_nonspace "http" _); [done|].
      by destruct (match_lit_nonspace "www" _).
  - intros H.
    assert (forall lit, lit = "http" \/ lit = "www" -> match_lit_nonspace lit u = None)
      as Hnone.
    { intros lit Hlit. apply match_lit_nonspace_None. intros x rest ->.
      destruct (is_space x) eqn:Hx; [done|]. exfalso. apply H. by exists lit, x, rest. }
    rewrite (Hnone "http"), (Hnone "www") by auto.
    apply match_lit_nonspace_None. intros x rest ->.
    destruct (is_space x) eqn:Hx; [done|]. exfalso. apply H.
    exists "http", "s"%char, (String x rest). by split; [left|].
Qed.

Lemma match_url_Some (c : ascii) (s : string) (n : nat) :
  match_url (String c s) = Some n ->
  exists k, n = S k /\ is_space c = false /\ nonspace_run k s = true.
Proof.
  assert (forall lit, string_forall (fun c => negb (is_space c)) lit = true -> lit ≠ "" ->
            match_lit_nonspace lit (String c s) = Some n ->
            exists k, n = S k /\ is_space c = false /\ nonspace_run k s = true) as Hlit.
  { intros lit Hlit Hne Hm.
    apply match_lit_nonspace_Some in Hm as (run & rest & Hs & _ & Hrun & Hrest & ->).
    rewrite <- string_app_assoc in Hs.
    assert (string_forall (fun c => negb (is_space c)) (lit ++ run) = true) as Hall.
    { clear -Hlit Hrun. induction lit as [|x lit IH]; [done|].
      simpl in *. apply andb_true_iff in Hlit as [-> Hlit]. by apply IH. }
    rewrite <- string_length_append.
    destruct (lit ++ run) as [|x m] eqn:Hm; [by destruct lit|].
    rewrite append_cons in Hs. injection Hs as <- ->.
    simpl in Hall. apply andb_true_iff in Hall as [Hx Hall].
    exists (String.length m). split; [done|]. split; [by apply negb_true_iff|].
    clear -Hall Hrest. induction m as [|y m IH]; simpl.
    - by destruct rest.
    - simpl in Hall. apply andb_true_iff in Hall as [-> Hall]. by apply IH. }
  unfold match_url. intros H.
  destruct (match_lit_nonspace "http" _) eqn:H1.
  { injection H as <-. by apply (Hlit "http"). }
  destruct (match_lit_nonspace "www" _) eqn:H2.
  { injection H as <-. by apply (Hlit "www"). }
  by apply (Hlit "https").
Qed.

Lemma match_url_space (c : ascii) (s : string) :
  is_space c = true -> match_url (String c s) = None.
Proof.
  intros Hc. destruct (match_url (String c s)) as [n|] eqn:H; [|done].
  apply match_url_Some in H as (k & _ & Hc' & _). by rewrite Hc in Hc'.
Qed.

Lemma url_free_cons (c : ascii) (s : string) :
  url_free (String c s) = true <-> match_url (String c s) = None /\ url_free s = true.
Proof.
  change (url_free (String c s))
    with (match match_url (String c s) with Some _ => false | None => url_free s end).
  destruct (match_url (String c s)) as [n|].
  - split; [done | by intros [[=] _]].
  - split; [by intros ? | by intros [_ ?]].
Qed.

Lemma url_free_nil : url_free "" = true.
Proof. reflexivity. Qed.

(** *** Removing the URLs leaves none *)

Lemma remove_urls_skipped (k : nat) (s : string) (a : ascii) (t : string) :
  nonspace_run k s = true -> remove_urls k s = String a t -> is_space a = true.
Proof.
  revert s. induction k as [|k IH]; intros s Hrun H.
  - destruct s as [|c s]; [done|]. simpl in Hrun.
    change (remove_urls 0 (String c s))
      with (match match_url (String c s) with
            | Some (S k) => remove_urls k s
            | _ => String c (remove_urls 0 s)
            end) in H.
    rewrite (match_url_space c s Hrun) in H. by injection H as <- _.
  - destruct s as [|c s]; [done|]. simpl in Hrun.
    apply andb_true_iff in Hrun as [_ Hrun]. apply (IH s Hrun H).
Qed.

Lemma remove_urls_head (s : string) (a : ascii) (t : string) :
  remove_urls 0 s = String a t -> is_space a = false ->
  exists s', s = String a s' /\ match_url s = None /\ t = remove_urls 0 s'.
Proof.
  intros H Ha. destruct s as [|c s]; [done|].
  change (remove_urls 0 (String c s))
    with (match match_url (String c s) with
          | Some (S k) => remove_urls k s
          | _ => String c (remove_urls 0 s)
          end) in H.
  destruct (match_url (String c s)) as [n|] eqn:Hm.
  - apply match_url_Some in Hm as (k & -> & _ & Hrun).
    apply (remove_urls_skipped k s a t Hrun) in H. by rewrite H in Ha.
  - injection H as <- <-. by exists s.
Qed.

Lemma remove_urls_prefix (m t s : string) :
  string_forall (fun c => negb (is_space c)) m = true ->
  remove_urls 0 s = m ++ t ->
  exists s', s = m ++ s' /\ remove_urls 0 s' = t.
Proof.
  revert s. induction m as [|x m IH]; intros s Hm H.
  - by exists s.
  - simpl in Hm. apply andb_true_iff in Hm as [Hx Hm]. apply negb_true_iff in Hx.
    rewrite append_cons in H.
    apply remove_urls_head in H as (s1 & -> & _ & H); [|done].
    destruct (IH s1 Hm (eq_sym H)) as (s' & -> & Ht). by exists s'.
Qed.

Lemma remove_urls_keeps_no_url (c : ascii) (s : string) :
  match_url (String c s) = None -> match_url (String c (remove_urls 0 s)) = None.
Proof.
  intros Hnone. apply match_url_None. intros (lit & x & rest & Hlit & Hu & Hx).
  apply match_url_None in Hnone. apply Hnone.
  assert (remove_urls 0 (String c s) = (lit ++ String x "") ++ rest) as Hout.
  { rewrite string_app_assoc, append_cons, append_nil_l, <- Hu.
    change (remove_urls 0 (String c s))
      with (match match_url (String c s) with
            | Some (S k) => remove_urls k s
            | _ => String c (remove_urls 0 s)
            end).
    apply match_url_None in Hnone. by rewrite Hnone. }
  apply remove_urls_prefix in Hout as (s' & Hs & _).
  - exists lit, x, s'. split; [done|]. split; [|done].
    by rewrite Hs, string_app_assoc.
  - destruct Hlit as [-> | ->]; simpl; by rewrite Hx.
Qed.

Lemma remove_urls_url_free (k : nat) (s : string) : url_free (remove_urls k s) = true.
Proof.
  revert k. induction s as [|c s IH]; intros k; [by destruct k|].
  destruct k as [|k]; [|apply IH].
  change (remove_urls 0 (String c s))
    with (match match_url (String c s) with
          | Some (S k) => remove_urls k s
          | _ => String c (remove_urls 0 s)
          end).
  destruct (match_url (String c s)) as [[|n]|] eqn:Hm.
  - apply match_url_Some in Hm as (k & [=] & _).
  - apply IH.
  - apply url_free_cons. split; [by apply remove_urls_keeps_no_url | apply IH].
Qed.

Lemma remove_urls_id (s : string) : url_free s = true -> remove_urls 0 s = s.
Proof.
  induction s as [|c s IH]; [done|]. intros [Hm Hs]%url_free_cons.
  change (remove_urls 0 (String c s))
    with (match match_url (String c s) with
          | Some (S k) => remove_urls k s
          | _ => String c (remove_urls 0 s)
          end).
  by rewrite Hm, IH.
Qed.

(** *** Blanking the special characters adds no URL *)

Lemma blank_specials_prefix (m t u : string) :
  string_forall (fun c => negb (is_space c)) m = true ->
  blank_specials u = m ++ t ->
  exists u', u = m ++ u' /\ blank_specials u' = t.
Proof.
  revert u. induction m as [|x m IH]; intros u Hm H.
  - by exists u.
  - simpl in Hm. apply andb_true_iff in Hm as [Hx Hm]. apply negb_true_iff in Hx.
    destruct u as [|c u]; [done|]. rewrite append_cons in H. simpl in H.
    injection H as Hc H. destruct (IH u Hm H) as (u' & -> & Ht).
    exists u'. split; [|done]. rewrite append_cons. f_equal.
    destruct (is_word c || is_space c); [done|]. by subst x.
Qed.

Lemma url_here_blank_specials (u : string) : url_here (blank_specials u) -> url_here u.
Proof.
  intros (lit & x & rest & Hlit & Hu & Hx).
  assert (blank_specials u = (lit ++ String x "") ++ rest) as H
    by (by rewrite string_app_assoc, append_cons, append_nil_l).
  apply blank_specials_prefix in H as (u' & -> & _).
  - exists lit, x, u'. split; [done|]. split; [|done]. by rewrite string_app_assoc.
  - destruct Hlit as [-> | ->]; simpl; by rewrite Hx.
Qed.

Lemma blank_specials_url_free (s : string) :
  url_free s = true -> url_free (blank_specials s) = true.
Proof.
  induction s as [|c s IH]; [done|]. intros [Hm Hs]%url_free_cons.
  change (blank_specials (String c s))
    with (String (if is_word c || is_space c then c else " "%char) (blank_specials s)).
  apply url_free_cons. split; [|by apply IH].
  apply match_url_None. intros Hhere. apply match_url_None in Hm. apply Hm.
  by apply url_here_blank_specials.
Qed.

Lemma blank_specials_id (s : string) :
  string_forall (fun c => is_word c || is_space c) s = true -> blank_specials s = s.
Proof.
  induction s as [|c s IH]; [done|]. simpl. intros [Hc Hs]%andb_true_iff.
  by rewrite Hc, IH.
Qed.

(** *** Splitting at white space and joining with spaces adds no URL *)

Lemma nonspace_prefix_before_space (m t a : string) (sp : ascii) (b : string) :
  string_forall (fun c => negb (is_space c)) m = true -> is_space sp = true ->
  m ++ t = a ++ String sp b -> exists r, a = m ++ r.
Proof.
  revert a. induction m as [|x m IH]; intros a Hm Hsp H.
  - by exists a.
  - simpl in Hm. apply andb_true_iff in Hm as [Hx Hm]. apply negb_true_iff in Hx.
    rewrite append_cons in H. destruct a as [|c a].
    + rewrite append_nil_l in H. injection H as -> _. by rewrite Hsp in Hx.
    + rewrite append_cons in H. injection H as <- H.
      destruct (IH a Hm Hsp H) as [r ->]. by exists r.
Qed.

Lemma url_here_before_space (a : string) (sp : ascii) (b : string) :
  is_space sp = true -> url_here (a ++ String sp b) <-> url_here a.
Proof.
  intros Hsp. split.
  - intros (lit & x & rest & Hlit & Hu & Hx).
    assert ((lit ++ String x "") ++ rest = a ++ String sp b) as H
      by (by rewrite string_app_assoc, append_cons, append_nil_l).
    apply nonspace_prefix_before_space in H as [r ->]; [|by destruct Hlit as [-> | ->]; simpl; rewrite Hx|done].
    exists lit, x, r. split; [done|]. split; [|done]. by rewrite string_app_assoc.
  - intros (lit & x & rest & Hlit & -> & Hx).
    exists lit, x, (rest ++ String sp b). split; [done|]. split; [|done].
    by rewrite string_app_assoc, append_cons.
Qed.

Lemma url_free_before_space (a : string) (sp : ascii) (b : string) :
  is_space sp = true ->
  url_free (a ++ String sp b) = true <-> url_free a = true /\ url_free b = true.
Proof.
  intros Hsp. induction a as [|c a IH].
  - rewrite append_nil_l, url_free_cons. rewrite (match_url_space sp b Hsp).
    split; [by intros [_ ?] | by intros [_ ?]].
  - rewrite append_cons, !url_free_cons, IH.
    change (String c (a ++ String sp b)) with (String c a ++ String sp b).
    rewrite !match_url_None, (url_here_before_space (String c a) sp b Hsp).
    tauto.
Qed.

Lemma url_free_before_end (a : string) (sp : ascii) (b : string) :
  is_space sp = true -> url_free (a ++ String sp b) = true -> url_free a = true.
Proof. intros Hsp H. by apply (url_free_before_space a sp b Hsp) in H as [? _]. Qed.

Lemma split_ws_join_url_free (cur : list ascii) (s : string) :
  url_free (string_of_list_ascii (rev cur) ++ s) = true ->
  url_free (join " " (split_ws cur s)) = true.
Proof.
  revert cur. induction s as [|c s IH]; intros cur H.
  - rewrite string_app_nil_r in H. simpl. by destruct cur.
  - change (split_ws cur (String c s))
      with (if is_space c
            then match cur with
                 | [] => split_ws [] s
                 | _ => string_of_list_ascii (rev cur) :: split_ws [] s
                 end
            else split_ws (c :: cur) s).
    destruct (is_space c) eqn:Hc.
    + apply (url_free_before_space _ c s Hc) in H as [Hw Hs].
      specialize (IH [] Hs).
      destruct cur as [|d cur]; [exact IH|].
      set (w := string_of_list_ascii (rev (d :: cur))) in *.
      destruct (split_ws [] s) as [|w' l] eqn:Hl; [exact Hw|].
      change (join " " (w :: w' :: l)) with (w ++ String " " (join " " (w' :: l))).
      by apply (url_free_before_space w " " _).
    + apply IH. simpl. by rewrite string_of_list_ascii_snoc, string_app_assoc.
Qed.

(** *** Splitting what has been joined *)

Lemma split_ws_nonspace (w : string) (cur : list ascii) (s : string) :
  string_forall (fun c => negb (is_space c)) w = true ->
  split_ws cur (w ++ s) = split_ws (rev (list_ascii_of_string w) ++ cur) s.
Proof.
  revert cur. induction w as [|c w IH]; intros cur Hw; [done|].
  simpl in Hw. apply andb_true_iff in Hw as [Hc Hw]. apply negb_true_iff in Hc.
  rewrite append_cons.
  change (split_ws cur (String c (w ++ s)))
    with (if is_space c
          then match cur with
               | [] => split_ws [] (w ++ s)
               | _ => string_of_list_ascii (rev cur) :: split_ws [] (w ++ s)
               end
          else split_ws (c :: cur) (w ++ s)).
  rewrite Hc, IH by done. simpl. by rewrite <- app_assoc.
Qed.

Lemma token_nonspace (w : string) :
  is_token w = true -> w ≠ "" /\ string_forall (fun c => negb (is_space c)) w = true.
Proof.
  unfold is_token. intros [Hne Hw]%andb_true_iff. split.
  - intros ->. done.
  - clear Hne. induction w as [|c w IH]; [done|]. simpl in *.
    apply andb_true_iff in Hw as [Hc Hw]. by rewrite (word_not_space c Hc), IH.
Qed.

Lemma split_ws_token (w : string) :
  is_token w = true -> split_ws [] w = [w].
Proof.
  intros [Hne Hw]%token_nonspace.
  rewrite <- (string_app_nil_r w) at 1. rewrite split_ws_nonspace by done.
  rewrite app_nil_r. simpl.
  destruct (rev (list_ascii_of_string w)) as [|d l] eqn:Hrev.
  - exfalso. apply Hne. apply (f_equal (@rev ascii)) in Hrev. rewrite rev_involutive in Hrev.
    by rewrite <- (string_of_list_ascii_of_string w), Hrev.
  - by rewrite <- Hrev, rev_involutive, string_of_list_ascii_of_string.
Qed.

Lemma split_ws_join_tokens (l : list string) :
  Forall (fun w => is_token w = true) l -> split_ws [] (join " " l) = l.
Proof.
  induction 1 as [|w l Hw Hl IH]; [done|].
  destruct l as [|w' l]; [by apply split_ws_token|].
  change (join " " (w :: w' :: l)) with (w ++ String " " (join " " (w' :: l))).
  destruct (token_nonspace w Hw) as [Hne Hns].
  rewrite split_ws_nonspace, app_nil_r by done.
  change (split_ws ?cur (String " " ?s))
    with (match cur with
          | [] => split_ws [] s
          | _ => string_of_list_ascii (rev cur) :: split_ws [] s
          end).
  rewrite IH.
  destruct (rev (list_ascii_of_string w)) as [|d k] eqn:Hrev.
  - exfalso. apply Hne. apply (f_equal (@rev ascii)) in Hrev. rewrite rev_involutive in Hrev.
    by rewrite <- (string_of_list_ascii_of_string w), Hrev.
  - by rewrite <- Hrev, rev_involutive, string_of_list_ascii_of_string.
Qed.

Lemma join_tokens_chars (p : ascii -> bool) (l : list string) :
  p " "%char = true -> Forall (fun w => string_forall p w = true) l ->
  string_forall p (join " " l) = true.
Proof.
  intros Hsp. induction 1 as [|w l Hw Hl IH]; [done|].
  destruct l as [|w' l]; [done|].
  change (join " " (w :: w' :: l)) with (w ++ String " " (join " " (w' :: l))).
  clear Hl. induction w as [|c w IHw]; simpl.
  - by rewrite Hsp.
  - simpl in Hw. apply andb_true_iff in Hw as [-> Hw]. by apply IHw.
Qed.

(** *** The cleaned text *)

Lemma clean_text_cleaned (text : value) (cleaned : string) :
  clean_text text = Ok cleaned ->
  exists words,
    cleaned = join " " words /\
    Forall (fun w => is_token w = true) words /\
    url_free cleaned = true.
Proof.
  unfold clean_text. destruct (truthy text); simpl.
  - destruct text as [| | |s| |]; try done. intros [= <-].
    set (t := blank_specials (remove_urls 0 s)).
    assert (Forall (fun w => is_token w = true) (split_ws [] t)) as Hwords.
    { apply split_ws_tokens; [apply blank_specials_chars | done]. }
    exists (split_ws [] t). rewrite strip_join_tokens by done.
    split; [done|]. split; [done|].
    apply split_ws_join_url_free. rewrite append_nil_l.
    apply blank_specials_url_free, remove_urls_url_free.
  - intros [= <-]. by exists [].
Qed.

Lemma token_chars (w : string) :
  is_token w = true -> string_forall (fun c => is_word c || is_space c) w = true.
Proof.
  unfold is_token. intros [_ Hw]%andb_true_iff.
  induction w as [|c w IH]; [done|]. simpl in *.
  apply andb_true_iff in Hw as [-> Hw]. by apply IH.
Qed.

Lemma lower_char_space (c : ascii) : is_space (lower_char c) = is_space c.
Proof. destruct c as [[] [] [] [] [] [] [] []]; reflexivity. Qed.

Lemma lower_no_mark (mark : ascii) (s : string) :
  is_word mark = false -> is_space mark = false ->
  string_forall (fun c => is_word c || is_space c) s = true ->
  string_forall (fun c => negb (Ascii.eqb c mark)) (lower s) = true.
Proof.
  intros Hword Hspace. induction s as [|c s IH]; [done|]. simpl.
  intros [Hc Hs]%andb_true_iff. rewrite IH, andb_true_r by done.
  apply negb_true_iff, Ascii.eqb_neq. intros Heq.
  rewrite <- lower_char_word, <- lower_char_space, Heq, Hword, Hspace in Hc. done.
Qed.

(** X22: cleaning is idempotent.  The text [clean_text] returns is left
    unchanged by [clean_text]; it holds no match of the URL pattern, no
    hashtag and no mention (which is why the enrichment takes the hashtags
    from the raw title); and [analyze_sentiment] gives the same result on
    the cleaned text as on the text itself. *)
Theorem X22_clean_text_is_idempotent (text : value) (cleaned : string) :
  clean_text text = Ok cleaned ->
  clean_text (VStr cleaned) = Ok cleaned /\
  remove_urls 0 cleaned = cleaned /\
  extract_hashtags cleaned = [] /\
  extract_mentions cleaned = [] /\
  forall E, analyze_sentiment E (VStr cleaned) = analyze_sentiment E text.
Proof.
  intros H. destruct (clean_text_cleaned text cleaned H) as (words & Hc & Hwords & Hfree).
  assert (string_forall (fun c => is_word c || is_space c) cleaned = true) as Hchars.
  { rewrite Hc. apply join_tokens_chars; [done|].
    eapply Forall_impl; [exact Hwords|]. apply token_chars. }
  assert (clean_text (VStr cleaned) = Ok cleaned) as Hagain.
  { unfold clean_text. destruct (truthy (VStr cleaned)) eqn:Htruthy; simpl.
    - rewrite (remove_urls_id cleaned Hfree), (blank_specials_id cleaned Hchars).
      rewrite Hc, split_ws_join_tokens by done. by rewrite strip_join_tokens.
    - simpl in Htruthy. apply negb_false_iff, String.eqb_eq in Htruthy. by rewrite Htruthy. }
  split; [done|]. split; [by apply remove_urls_id|].
  split; [|split].
  - apply findall_marked_none. by apply lower_no_mark.
  - apply findall_marked_none. by apply lower_no_mark.
  - intros E. unfold analyze_sentiment. by rewrite Hagain, H.
Qed.

Lemma X22_clean_text_witness :
  clean_text (VStr "Check now Viral") = Ok "Check now Viral" /\
  extract_hashtags "Check now Viral" = [].
Proof.
  destruct (X22_clean_text_is_idempotent (VStr "Check http://x.co now #Viral")
              "Check now Viral") as (Hagain & _ & Htags & _);
    [vm_compute; reflexivity|].
  split; [exact Hagain | exact Htags].
Defined.

(** ** The trending score is monotone *)

Lemma py_min_mono (a b c : Q) : a <= b -> py_min a c <= py_min b c.
Proof.
  intros Hab. unfold py_min.
  pose proof (Qltb_spec c a) as Ha. pose proof (Qltb_spec c b) as Hb.
  destruct (Qltb c a), (Qltb c b); lra.
Qed.

Lemma normalized_engagement_mono (r r' : Q) :
  r <= r' -> normalized_engagement r <= normalized_engagement r'.
Proof.
  intros H. unfold normalized_engagement. apply py_min_mono.
  unfold Qdiv. apply Qmult_le_compat_r; [done | Qclosed].
Qed.

Lemma hashtag_score_mono (n n' : nat) :
  (n <= n')%nat -> hashtag_score n <= hashtag_score n'.
Proof.
  intros H. unfold hashtag_score. apply py_min_mono.
  unfold Qdiv. apply Qmult_le_compat_r; [|Qclosed].
  rewrite <- Zle_Qle. lia.
Qed.

Lemma hours_old_mono (E : Env) (t t' : Z) :
  (t <= t')%Z -> hours_old E t' <= hours_old E t.
Proof.
  intros H. unfold hours_old, Qdiv. apply Qmult_le_compat_r; [|Qclosed].
  unfold Qle. simpl. lia.
Qed.

Lemma engagement_factor_le (x y : gmap string value) (r r' : Q) :
  as_num (get x "engagement_rate" (VInt 0)) = Ok r ->
  as_num (get y "engagement_rate" (VInt 0)) = Ok r' ->
  r <= r' ->
  factor_le (engagement_factor x) (engagement_factor y).
Proof.
  intros Hr Hr' Hle s s' a a' Hs. unfold engagement_factor. rewrite Hr, Hr'. simpl.
  pose proof (Qltb_spec 0 r) as Hpos. pose proof (Qltb_spec 0 r') as Hpos'.
  pose proof (normalized_engagement_mono r r' Hle) as Hmono.
  destruct (Qltb 0 r), (Qltb 0 r'); intros [= <-] [= <-]; try lra.
  destruct (normalized_engagement_unit r' Hpos') as [Hlo _]. lra.
Qed.

Lemma engagement_factor_same (x y : gmap string value) :
  y !! "engagement_rate" = x !! "engagement_rate" ->
  factor_le (engagement_factor x) (engagement_factor y).
Proof.
  intros Hkey s s' a a' Hs Ha Ha'.
  assert (get y "engagement_rate" (VInt 0) = get x "engagement_rate" (VInt 0)) as Hget
    by (by apply get_lookup_eq).
  destruct (as_num (get x "engagement_rate" (VInt 0))) as [r|] eqn:Hr.
  - apply (engagement_factor_le x y r r Hr ltac:(by rewrite Hget) ltac:(lra) s s' a a');
      done.
  - unfold engagement_factor in Ha. by rewrite Hr in Ha.
Qed.

Lemma recency_factor_same (E : Env) (x y : gmap string value) :
  y !! "published_date" = x !! "published_date" ->
  factor_le (recency_factor E x) (recency_factor E y).
Proof.
  intros Hkey s s' a a' Hs. unfold recency_factor, try_except, recency_body.
  rewrite Hkey. destruct (x !! "published_date") as [v|]; [|intros [= <-] [= <-]; lra].
  destruct (replace_Z v) as [d|]; simpl; [|intros [= <-] [= <-]; lra].
  destruct (fromisoformat E d) as [t|]; simpl; [|intros [= <-] [= <-]; lra].
  destruct (Qltb (hours_old E t) 24); intros [= <-] [= <-]; lra.
Qed.

Lemma recency_factor_le (E : Env) (x y : gmap string value) (date date' : string)
  (t t' : Z) :
  x !! "published_date" = Some (VStr date) ->
  y !! "published_date" = Some (VStr date') ->
  fromisoformat E (replace_char "Z" "+00:00" date) = Ok t ->
  fromisoformat E (replace_char "Z" "+00:00" date') = Ok t' ->
  (t <= t')%Z ->
  factor_le (recency_factor E x) (recency_factor E y).
Proof.
  intros Hx Hy Ht Ht' Hle s s' a a' Hs.
  unfold recency_factor, try_except, recency_body. rewrite Hx, Hy.
  unfold replace_Z, mbind, result_bind. rewrite Ht, Ht'.
  pose proof (hours_old_mono E t t' Hle) as Hh.
  pose proof (Qltb_spec (hours_old E t) 24) as H24.
  pose proof (Qltb_spec (hours_old E t') 24) as H24'.
  set (h := hours_old E t) in *. set (h' := hours_old E t') in *.
  unfold recency_score, Qdiv. change (/ 24.0) with (10 # 240).
  destruct (Qltb h 24), (Qltb h' 24); intros [= <-] [= <-]; lra.
Qed.

Lemma hashtag_factor_same (x y : gmap string value) :
  y !! "hashtags" = x !! "hashtags" ->
  factor_le (hashtag_factor x) (hashtag_factor y).
Proof.
  intros Hkey s s' a a' Hs. unfold hashtag_factor.
  rewrite (get_lookup_eq x y "hashtags" (VList []) Hkey).
  destruct (truthy _); [|intros [= <-] [= <-]; lra].
  destruct (py_len _) as [n|]; simpl; [|done]. intros [= <-] [= <-]. lra.
Qed.

Lemma hashtag_factor_le (x y : gmap string value) (l l' : list value) :
  get x "hashtags" (VList []) = VList l ->
  get y "hashtags" (VList []) = VList l' ->
  (length l <= length l')%nat ->
  factor_le (hashtag_factor x) (hashtag_factor y).
Proof.
  intros Hx Hy Hle s s' a a' Hs. unfold hashtag_factor. rewrite Hx, Hy.
  pose proof (hashtag_score_mono _ _ Hle) as Hmono.
  destruct (hashtag_score_unit (length l')) as [Hlo _].
  destruct l as [|v l], l' as [|v' l']; simpl in *; intros [= <-] [= <-]; (lra || lia).
Qed.

Lemma sentiment_factor_same (x y : gmap string value) :
  y !! "sentiment" = x !! "sentiment" ->
  factor_le (sentiment_factor x) (sentiment_factor y).
Proof.
  intros Hkey s s' a a' Hs. unfold sentiment_factor.
  rewrite (get_lookup_eq x y "sentiment" (VDict ∅) Hkey).
  destruct (truthy _); [|intros [= <-] [= <-]; lra].
  destruct (get x "sentiment" _) as [| | | | |d]; try done.
  destruct (as_num _) as [p|]; simpl; [|done].
  destruct (Qltb 0 p); intros [= <-] [= <-]; lra.
Qed.

Lemma sentiment_factor_le (x y : gmap string value) (d d' : gmap string value)
  (p p' : Q) :
  get x "sentiment" (VDict ∅) = VDict d -> d ≠ ∅ ->
  get y "sentiment" (VDict ∅) = VDict d' -> d' ≠ ∅ ->
  as_num (get d "polarity" (VInt 0)) = Ok p ->
  as_num (get d' "polarity" (VInt 0)) = Ok p' ->
  p <= p' ->
  factor_le (sentiment_factor x) (sentiment_factor y).
Proof.
  intros Hx Hd Hy Hd' Hp Hp' Hle s s' a a' Hs. unfold sentiment_factor.
  rewrite Hx, Hy. simpl. rewrite !bool_decide_eq_false_2 by done. simpl.
  rewrite Hp, Hp'. simpl.
  pose proof (Qltb_spec 0 p) as Hpos. pose proof (Qltb_spec 0 p') as Hpos'.
  pose proof (py_min_mono p p' 1.0 Hle) as Hmono. unfold sentiment_score.
  destruct (Qltb 0 p), (Qltb 0 p'); intros [= <-] [= <-]; try lra.
  destruct (sentiment_score_unit p' Hpos') as [Hlo _]. unfold sentiment_score in Hlo. lra.
Qed.

Lemma trending_score_le (E : Env) (x y : gmap string value) (s s' : Q) :
  factor_le (engagement_factor x) (engagement_factor y) ->
  factor_le (recency_factor E x) (recency_factor E y) ->
  factor_le (hashtag_factor x) (hashtag_factor y) ->
  factor_le (sentiment_factor x) (sentiment_factor y) ->
  _calculate_trending_score E x = Ok s ->
  _calculate_trending_score E y = Ok s' ->
  s <= s'.
Proof.
  intros He Hr Hh Hs H H'. unfold _calculate_trending_score, accumulated_score in *.
  inv_bind H as acc Hacc. inv_bind H' as acc' Hacc'.
  injection H as <-. injection H' as <-.
  inv_bind Hacc as s1 H1. inv_bind Hacc as s2 H2. inv_bind Hacc as s3 H3.
  inv_bind Hacc' as s1' H1'. inv_bind Hacc' as s2' H2'. inv_bind Hacc' as s3' H3'.
  apply py_round_mono, py_min_mono.
  eapply Hs; [|exact Hacc|exact Hacc'].
  eapply Hh; [|exact H3|exact H3'].
  eapply Hr; [|exact H2|exact H2'].
  eapply He; [|exact H1|exact H1']. lra.
Qed.

(** X23: the trending score is monotone in each of its four inputs.  With
    the other fields of the record unchanged, a higher engagement rate, a
    longer list of hashtags, a higher polarity or a later publication time
    never gives a lower trending score. *)
Theorem X23_trending_score_is_monotone (E : Env) (item : gmap string value) :
  (forall r r' s s',
     r <= r' ->
     _calculate_trending_score E (<["engagement_rate" := VFloat r]> item) = Ok s ->
     _calculate_trending_score E (<["engagement_rate" := VFloat r']> item) = Ok s' ->
     s <= s') /\
  (forall l l' s s',
     (length l <= length l')%nat ->
     _calculate_trending_score E (<["hashtags" := VList l]> item) = Ok s ->
     _calculate_trending_score E (<["hashtags" := VList l']> item) = Ok s' ->
     s <= s') /\
  (forall d p p' s s',
     p <= p' ->
     _calculate_trending_score E
       (<["sentiment" := VDict (<["polarity" := VFloat p]> d)]> item) = Ok s ->
     _calculate_trending_score E
       (<["sentiment" := VDict (<["polarity" := VFloat p']> d)]> item) = Ok s' ->
     s <= s') /\
  (forall date date' t t' s s',
     fromisoformat E (replace_char "Z" "+00:00" date) = Ok t ->
     fromisoformat E (replace_char "Z" "+00:00" date') = Ok t' ->
     (t <= t')%Z ->
     _calculate_trending_score E (<["published_date" := VStr date]> item) = Ok s ->
     _calculate_trending_score E (<["published_date" := VStr date']> item) = Ok s' ->
     s <= s').
Proof.
  split; [|split; [|split]].
  - intros r r' s s' Hle. apply trending_score_le.
    + apply (engagement_factor_le _ _ r r'); [| |done];
        unfold get; by rewrite lookup_insert_eq.
    + apply recency_factor_same. by rewrite !lookup_insert_ne.
    + apply hashtag_factor_same. by rewrite !lookup_insert_ne.
    + apply sentiment_factor_same. by rewrite !lookup_insert_ne.
  - intros l l' s s' Hle. apply trending_score_le.
    + apply engagement_factor_same. by rewrite !lookup_insert_ne.
    + apply recency_factor_same. by rewrite !lookup_insert_ne.
    + apply (hashtag_factor_le _ _ l l'); [| |done];
        unfold get; by rewrite lookup_insert_eq.
    + apply sentiment_factor_same. by rewrite !lookup_insert_ne.
  - intros d p p' s s' Hle. apply trending_score_le.
    + apply engagement_factor_same. by rewrite !lookup_insert_ne.
    + apply recency_factor_same. by rewrite !lookup_insert_ne.
    + apply hashtag_factor_same. by rewrite !lookup_insert_ne.
    + apply (sentiment_factor_le _ _ (<["polarity" := VFloat p]> d)
               (<["polarity" := VFloat p']> d) p p');
        try (unfold get; by rewrite lookup_insert_eq);
        try apply insert_non_empty; done.
  - intros date date' t t' s s' Ht Ht' Hle. apply trending_score_le.
    + apply engagement_factor_same. by rewrite !lookup_insert_ne.
    + apply (recency_factor_le E _ _ date date' t t'); try done;
        by rewrite lookup_insert_eq.
    + apply hashtag_factor_same. by rewrite !lookup_insert_ne.
    + apply sentiment_factor_same. by rewrite !lookup_insert_ne.
Qed.

Lemma X23_trending_score_witness :
  exists s s',
    _calculate_trending_score sample_env
      (<["published_date" := VStr "2024-01-01T00:00:00"]> scenario_item) = Ok s /\
    _calculate_trending_score sample_env
      (<["published_date" := VStr "2024-01-04T22:00:00Z"]> scenario_item) = Ok s' /\
    s <= s'.
Proof.
  destruct (X23_trending_score_is_monotone sample_env scenario_item) as (_ & _ & _ & Hdate).
  eexists _, _. split; [vm_compute; reflexivity|]. split; [vm_compute; reflexivity|].
  apply (Hdate "2024-01-01T00:00:00" "2024-01-04T22:00:00Z" 0%Z (94 * hour)%Z);
    vm_compute; (reflexivity || discriminate).
Defined.

(** ** The pipeline on well-formed batches *)

Lemma tally_item_returns (t : tallies) (item : gmap string value) :
  analyzable item -> returns (tally_item t item).
Proof.
  intros (Hplatform & Htags & Hsentiment & _). unfold tally_item, count_key.
  rewrite Hplatform. simpl. rewrite (py_iter_strings item Htags). simpl.
  destruct (count_keys_strings (hashtag_strings item) (hashtag_counts t)) as (c & -> & _).
  simpl. destruct (truthy (get item "sentiment" (VDict ∅))) eqn:Htruthy.
  - destruct (Hsentiment eq_refl) as (d & -> & ->). simpl. by eexists.
  - simpl. by eexists.
Qed.

Lemma tally_items_returns (t : tallies) (items : list (gmap string value)) :
  Forall analyzable items -> returns (tally_items t items).
Proof.
  intros H. revert t. induction H as [|item items Hitem _ IH]; intros t; simpl.
  - by exists t.
  - destruct (tally_item_returns t item Hitem) as [t1 ->]. simpl. apply IH.
Qed.

Lemma make_entry_returns (n : nat) (tc : value * Z) :
  is_str (fst tc) = true -> returns (make_entry n tc).
Proof.
  destruct tc as [[| | |h| |] count]; try done. intros _.
  unfold make_entry, _calculate_hashtag_trend_score.
  destruct (n =? 0)%nat; simpl; by eexists.
Qed.

Lemma analyze_trends_returns (E : Env) (items : list (gmap string value)) :
  Forall analyzable items -> returns (analyze_trends E items).
Proof.
  intros Hitems. destruct items as [|item items]; [by eexists|].
  set (batch := item :: items) in *.
  destruct (tally_items_returns empty_tallies batch Hitems) as [t Ht].
  assert (Forall hashtags_are_strings batch) as Htags.
  { eapply Forall_impl; [exact Hitems|]. by intros x (_ & ? & _). }
  destruct (tally_items_string_counts batch empty_tallies t Htags Ht) as (_ & _ & Hstr).
  specialize (Hstr ltac:(constructor)).
  pose proof (tally_items_rates batch empty_tallies t Ht) as Hrates.
  change (engagement_rates empty_tallies) with (@nil value) in Hrates.
  rewrite app_nil_l in Hrates.
  assert (returns (compute_engagement_stats (engagement_rates t))) as [stats Hstats].
  { unfold compute_engagement_stats.
    destruct (mapM_returns as_num (engagement_rates t)) as [nums ->].
    - rewrite Hrates. apply List.Forall_forall. intros v Hv.
      apply in_map_iff in Hv as (x & <- & Hx). apply filter_In in Hx as [Hin Hrate].
      rewrite List.Forall_forall in Hitems.
      destruct (Hitems x Hin) as (_ & _ & _ & [Hnone | Hnum] & _).
      + unfold has_engagement_rate in Hrate. by rewrite Hnone in Hrate.
      + by apply is_ok_returns.
    - simpl. destruct nums; by eexists. }
  assert (returns (mapM (make_entry (length batch))
            (take 15 (sorted_desc (fun tc => inject_Z (snd tc)) (hashtag_counts t)))))
    as [entries Hentries].
  { apply mapM_returns. apply Forall_take.
    eapply Permutation_Forall; [symmetry; apply sorted_desc_perm|].
    eapply Forall_impl; [exact Hstr|]. intros tc. apply make_entry_returns. }
  unfold analyze_trends. fold batch.
  change (match batch with [] => _ | _ => ?body end) with body.
  assert (forall A B (a : A) (f : A -> result B), (Ok a ≫= f) = f a) as Hbind by done.
  rewrite Ht, Hbind, Hstats, Hbind, Hentries, Hbind. by eexists.
Qed.

Lemma analyze_sentiment_dict (E : Env) (text : value) :
  exists polarity subjectivity label confidence,
    analyze_sentiment E text = Ok (sentiment_dict polarity subjectivity label confidence).
Proof.
  unfold analyze_sentiment, try_except, neutral_sentiment.
  destruct (clean_text text) as [cleaned|]; simpl; [|by do 4 eexists].
  destruct (textblob_sentiment E cleaned) as [[p s]|]; simpl; by do 4 eexists.
Qed.

Lemma sentiment_dict_analyzable (polarity subjectivity : Q) (label : string)
  (confidence : Q) :
  exists d,
    sentiment_dict polarity subjectivity label confidence = VDict d /\
    hashable (get d "label" (VStr "neutral")) = true.
Proof.
  eexists. split; [reflexivity|]. unfold get.
  do 2 rewrite lookup_insert_ne by done. by rewrite lookup_insert_eq.
Qed.

Lemma sentiment_step_result (E : Env) (text : string) (x x' : gmap string value) :
  sentiment_step (analyze_sentiment E) text x = Ok x' ->
  x' !! "sentiment" = x !! "sentiment" \/
  exists polarity subjectivity label confidence,
    x' !! "sentiment" = Some (sentiment_dict polarity subjectivity label confidence).
Proof.
  unfold sentiment_step. destruct (truthy (VStr text)); [|intros [= <-]; by left].
  destruct (analyze_sentiment_dict E (VStr text)) as (p & s & l & c & ->). simpl.
  intros [= <-]. right. exists p, s, l, c. apply lookup_insert_eq.
Qed.

Lemma engagement_step_rate (x x' : gmap string value) :
  engagement_step x = Ok x' ->
  x' !! "engagement_rate" = x !! "engagement_rate" \/
  exists q, x' !! "engagement_rate" = Some (VFloat q).
Proof.
  unfold engagement_step. intros H.
  destruct (has x "view_count" && has x "like_count"); [|injection H as <-; by left].
  right. inv_bind H as v Hv. destruct (Qltb 0 v).
  - inv_bind H as l Hl. inv_bind H as c Hc. injection H as <-.
    eexists. apply lookup_insert_eq.
  - injection H as <-. eexists. apply lookup_insert_eq.
Qed.

Lemma hashtag_strings_of_list (l : list string) :
  omap (fun v => match v with VStr s => Some s | _ => None end) (VStr <$> l) = l.
Proof. induction l as [|h l IH]; [done|]. simpl. f_equal. exact IH. Qed.

Lemma hashtags_are_strings_lookup (x y : gmap string value) :
  y !! "hashtags" = x !! "hashtags" -> hashtags_are_strings x -> hashtags_are_strings y.
Proof.
  unfold hashtags_are_strings, hashtag_strings. intros Hkey.
  by rewrite (get_lookup_eq x y "hashtags" (VList []) Hkey).
Qed.

Lemma process_single_item_analyzable (E : Env) (item item' : gmap string value) :
  process_single_item E item = Ok item' -> analyzable item -> analyzable item'.
Proof.
  intros H (Hplatform & Htags & Hsentiment & Hrate & _).
  assert (forall k d,
            k ∉ ["processed_at"; "engagement_rate"; "title_clean"; "hashtags";
                 "description_clean"; "sentiment"; "trending_score"] ->
            get item' k d = get item k d) as Hother.
  { intros k d Hk. apply get_lookup_eq. by apply (process_single_item_with_other _ _ _ _ _ H). }
  split; [|split; [|split; [|split]]].
  - rewrite Hother; [done|].
    repeat (apply not_elem_of_cons; split; [done|]). apply not_elem_of_nil.
  - destruct (process_single_item_with_title_fields _ E item item' H) as [Hfalsy Htruthy].
    destruct (truthy (get item "title" (VStr ""))) eqn:Htitle.
    + destruct (Htruthy eq_refl) as (s & cleaned & _ & _ & _ & Hkey).
      destruct (truthy (get item "hashtags" VNone)).
      * by apply (hashtags_are_strings_lookup item).
      * unfold hashtags_are_strings, hashtag_strings, get. rewrite Hkey.
        by rewrite hashtag_strings_of_list.
    + destruct (Hfalsy eq_refl) as [_ Hkey]. by apply (hashtags_are_strings_lookup item).
  - pose proof H as Hstages. apply process_single_item_with_stages in Hstages.
    destruct Hstages as (i1 & i2 & i3 & i4 & score & H1 & H2 & H3 & H4 & _ & ->).
    assert (i3 !! "sentiment" = item !! "sentiment") as H3'.
    { rewrite (description_step_other _ _ _ _ H3) by done.
      rewrite (title_step_other _ _ _ _ H2) by done.
      rewrite (engagement_step_other _ _ _ H1) by done. by rewrite lookup_insert_ne. }
    unfold get at 1 2. rewrite lookup_insert_ne by done.
    destruct (sentiment_step_result E _ _ _ H4) as [-> | (p & s & l & c & ->)].
    + rewrite H3'. exact Hsentiment.
    + intros _. apply sentiment_dict_analyzable.
  - destruct (process_single_item_with_engagement_rate _ _ _ _ H) as (i1 & H1 & Hkey).
    unfold get. rewrite Hkey.
    destruct (engagement_step_rate _ _ H1) as [-> | [q ->]]; [|by right].
    by rewrite lookup_insert_ne.
  - destruct (process_single_item_stored_score _ _ _ _ H) as (score & Hscore & _).
    unfold get. by rewrite Hscore.
Qed.

Lemma ensure_processed_batch (E : Env) (items : list (gmap string value)) :
  Forall (fun item => well_formed item = true /\ analyzable item) items ->
  exists processed,
    mapM (ensure_processed E) items = Ok processed /\
    Forall analyzable processed /\ length processed = length items.
Proof.
  induction 1 as [|item items [Hwf Han] _ (processed & IH & Hall & Hlen)].
  - by exists [].
  - assert (exists item', ensure_processed E item = Ok item' /\ analyzable item')
      as (item' & Hitem & Hok).
    { unfold ensure_processed. destruct (has item "processed_at"); simpl.
      - by exists item.
      - destruct (process_single_item_returns E item Hwf) as [item' Hitem].
        exists item'. split; [done|]. by apply (process_single_item_analyzable E item). }
    exists (item' :: processed). split; [|split].
    + simpl. rewrite Hitem. simpl. unfold mbind in IH. by rewrite IH.
    + by constructor.
    + simpl. by rewrite Hlen.
Qed.

(** X24: the pipeline is total on well-formed batches.  For a batch of
    records that are well formed for the enrichment and readable by the
    aggregation (a hashable platform, hashtags absent or a list of strings,
    sentiment, engagement rate and trending score absent or of the expected
    kind), [process_content_batch] returns, [analyze_trends] returns on its
    result, and [get_content_summary] returns a summary whose
    'total_content' and 'items_processed' are the batch size and whose
    'top_trending_content' has min(5, batch size) records. *)
Theorem X24_summary_pipeline_is_total (E : Env) (items : list (gmap string value)) :
  Forall (fun item => well_formed item = true /\ analyzable item) items ->
  (exists out trends,
     process_content_batch E items = Ok out /\
     analyze_trends E out = Ok trends) /\
  (items ≠ [] ->
   exists trends top,
     get_content_summary E items
     = Ok (Summary (length items) trends top (length items) (now_isoformat E)) /\
     length top = Nat.min 5 (length items)).
Proof.
  intros Hitems. split.
  - assert (exists out, process_content_batch E items = Ok out /\ Forall analyzable out)
      as (out & Hout & Hall).
    { induction Hitems as [|item items [Hwf Han] _ (out & IH & Hall)]; [by exists []|].
      destruct (process_single_item_returns E item Hwf) as [item' Hitem].
      exists (item' :: out). split.
      - unfold process_content_batch, process_content_batch_with in *. simpl.
        unfold process_single_item in Hitem. rewrite Hitem. simpl.
        unfold mbind in IH. by rewrite IH.
      - constructor; [|done]. by apply (process_single_item_analyzable E item). }
    destruct (analyze_trends_returns E out Hall) as [trends Htrends].
    by exists out, trends.
  - intros Hne.
    destruct (ensure_processed_batch E items Hitems) as (processed & Hproc & Hall & Hlen).
    destruct (analyze_trends_returns E processed Hall) as [trends Htrends].
    assert (Forall (fun item => is_ok (as_num (get item "trending_score" (VInt 0))) = true)
              processed) as Hscored.
    { eapply Forall_impl; [exact Hall|]. by intros x (_ & _ & _ & _ & ?). }
    pose proof (get_top_trending_content_sorted processed 5 Hscored) as Htop.
    exists trends, (take 5 (sorted_desc trending_key processed)). split.
    + unfold get_content_summary. destruct items as [|item items]; [done|].
      assert (forall A B (a : A) (f : A -> result B), (Ok a ≫= f) = f a) as Hbind by done.
      rewrite Hproc, Hbind, Htrends, Hbind, Htop, Hbind. by rewrite Hlen.
    + rewrite length_take, <- Hlen. f_equal.
      apply Permutation_length, sorted_desc_perm.
Qed.

Lemma X24_summary_pipeline_witness :
  exists trends top,
    get_content_summary sample_env [viral_clip; crash_post]
    = Ok (Summary 2 trends top 2 "2024-01-05T04:00:00") /\
    length top = 2%nat.
Proof.
  destruct (X24_summary_pipeline_is_total sample_env [viral_clip; crash_post])
    as [_ Hsummary].
  - repeat constructor; vm_compute; (reflexivity || discriminate).
  - exact (Hsummary ltac:(done)).
Defined.

Lemma tally_item_not_iterable (t : tallies) (item : gmap string value) :
  is_ok (py_iter (get item "hashtags" (VList []))) = false ->
  exists e, tally_item t item = Raise e.
Proof.
  intros Hiter. unfold tally_item.
  destruct (count_key _ (platform_counts t)) as [pc|e]; simpl; [|by eexists].
  destruct (py_iter _) as [hs|e]; [done|]. simpl. by eexists.
Qed.

Lemma tally_items_not_iterable (t : tallies) (items : list (gmap string value))
  (item : gmap string value) :
  In item items ->
  is_ok (py_iter (get item "hashtags" (VList []))) = false ->
  exists e, tally_items t items = Raise e.
Proof.
  intros Hin Hiter. revert t. induction items as [|x items IH]; intros t; [done|].
  simpl. destruct Hin as [-> | Hin].
  - destruct (tally_item_not_iterable t item Hiter) as [e ->]. by exists e.
  - destruct (tally_item t x) as [t1|e]; simpl; [by apply IH | by exists e].
Qed.

Lemma analyze_trends_not_iterable (E : Env) (items : list (gmap string value))
  (item : gmap string value) :
  In item items ->
  is_ok (py_iter (get item "hashtags" (VList []))) = false ->
  exists e, analyze_trends E items = Raise e.
Proof.
  intros Hin Hiter. unfold analyze_trends.
  destruct items as [|x items]; [done|].
  destruct (tally_items_not_iterable empty_tallies (x :: items) item Hin Hiter) as [e ->].
  by exists e.
Qed.

(** X25: a null hashtags field fails the aggregation.  [analyze_trends]
    raises on every batch that holds a record whose 'hashtags' cannot be
    iterated ([None] or a number): the default of [item.get('hashtags', [])]
    does not apply to a key that is present.  The enrichment repairs such a
    record only through its title; a record without a title keeps the
    field, so [get_content_summary] raises on every batch that holds such a
    record without a title, processed or not. *)
Theorem X25_null_hashtags_fail_the_aggregation (E : Env)
  (items : list (gmap string value)) (item : gmap string value) :
  In item items ->
  is_ok (py_iter (get item "hashtags" (VList []))) = false ->
  (exists e, analyze_trends E items = Raise e) /\
  (truthy (get item "title" (VStr "")) = false ->
   (forall item', process_single_item E item = Ok item' ->
                  item' !! "hashtags" = item !! "hashtags") /\
   exists e, get_content_summary E items = Raise e).
Proof.
  intros Hin Hiter. split; [by apply (analyze_trends_not_iterable E items item)|].
  intros Htitle.
  assert (forall item', process_single_item E item = Ok item' ->
                        item' !! "hashtags" = item !! "hashtags") as Hkept.
  { intros item' H.
    destruct (process_single_item_with_title_fields _ E item item' H) as [Hfalsy _].
    by destruct (Hfalsy Htitle). }
  split; [exact Hkept|].
  unfold get_content_summary. destruct items as [|x items]; [done|].
  destruct (mapM (ensure_processed E) (x :: items)) as [processed|e] eqn:Hproc;
    [|by exists e].
  apply mapM_Ok_Forall2 in Hproc.
  assert (exists item', In item' processed /\
                        item' !! "hashtags" = item !! "hashtags") as (item' & Hin' & Hkey).
  { clear -Hin Hproc Hkept. induction Hproc as [|y y' l l' Hy _ IH]; [done|].
    destruct Hin as [-> | Hin].
    - exists y'. split; [by left|].
      unfold ensure_processed in Hy. destruct (has item "processed_at"); simpl in Hy.
      + by injection Hy as <-.
      + by apply Hkept.
    - destruct (IH Hin) as (item' & ? & ?). exists item'. split; [by right | done]. }
  destruct (analyze_trends_not_iterable E processed item' Hin') as [e He].
  { by rewrite (get_lookup_eq item item' "hashtags" (VList []) Hkey). }
  exists e. simpl. by rewrite He.
Qed.

Lemma X25_null_hashtags_witness :
  exists e,
    get_content_summary sample_env [viral_clip; <["hashtags" := VNone]> ∅] = Raise e.
Proof.
  destruct (X25_null_hashtags_fail_the_aggregation sample_env
              [viral_clip; <["hashtags" := VNone]> ∅] (<["hashtags" := VNone]> ∅))
    as [_ Hsummary]; [by right; left | by vm_compute |].
  by destruct Hsummary as [_ Hraise]; [vm_compute|].
Defined.
